(** * ak-api-http: the request pipeline of [src/core.ts]

    A shallow embedding of the [Api] class (token cache, service registry,
    URL builder, interceptors, retry and error normalisation) together with
    the part of axios it drives, and the properties of the pipeline.

    Conventions of the embedding.
    - A JavaScript object whose key order is observable ([config.services],
      a [SearchParams] literal) is an association list in property order.
      Integer-like keys, which JavaScript enumerates first, and the key
      [__proto__] are excluded by hypothesis ([plain_key]) where the order
      of the keys matters.  A lookup [Js.get] finds own properties; where
      the code reads [services[name]] with a name of the caller, the
      members of [Object.prototype] are found as well ([Js.on_prototype]).
      Entries are values: two names sharing one object are not modelled.
    - A header bag is a finite map: only lookups and merges are observable.
    - Numbers that the pipeline reads are integers: HTTP statuses and
      milliseconds are [Z], counters ([maxRetries], [_retryCount]) are [nat].
    - Strings are byte strings; [trim] knows the ASCII white space, and
      statements about what it removes are made for ASCII strings.
      [String] of a number is its decimal form, as for safe integers.
    - axios is modelled as far as the pipeline reads it: headers are a
      case-sensitive map without the defaults that axios adds itself.
    - The axios instance calls itself on a retry; its model takes a number
      of rounds, and [request] gives it [maxRetries + 1], which is enough
      ([request_terminates]) and as good as any larger number
      ([request_any_fuel]) as long as the request hook throws no value
      that carries a [config].
    - Promises are sequential computations in a state-and-exception monad;
      a rejected promise is a thrown value.  Every call of a collaborator
      (transport, session provider, sign-out, hooks, timer) leaves an event
      in a trace, so that calls can be counted.  A collaborator settles
      either way: it returns or it throws.  What it throws is an [Error]
      that the pipeline hands on unread; the request hook alone may throw
      any value, since the error handler of the response interceptor
      reads [config] and [response] from it.  A hook that throws, throws a
      new value at every call.
    - The configuration is fixed while a request runs: [updateConfig] and
      [updateAuthFunctions] (module [Runtime]) are called between
      requests.  In the argument of [updateConfig] a key is absent or has
      a value; a key present with the value [undefined] is not modelled.
    - [this.log] only prints and is left out. *)

From stdpp Require Import base strings gmap list pretty.
From Stdlib Require Import Ascii ZArith Lia.

(* ================================================================== *)
(** ** JavaScript values and helpers *)
(* ================================================================== *)

Module Js.

(** Objects with observable property order. *)
Definition Obj (V : Type) : Type := list (string * V).

(** [o[k]] *)
Fixpoint get {V} (k : string) (o : Obj V) : option V :=
  match o with
  | [] => None
  | (k', v) :: o' => if String.eqb k k' then Some v else get k o'
  end.

(** [o[k] = v]: an existing property keeps its position. *)
Fixpoint set {V} (k : string) (v : V) (o : Obj V) : Obj V :=
  match o with
  | [] => [(k, v)]
  | (k', v') :: o' =>
      if String.eqb k k' then (k', v) :: o' else (k', v') :: set k v o'
  end.

(** The property names that every object inherits from
    [Object.prototype]: [o[k]] finds a value under them also when [o] has
    no such property of its own. *)
Definition on_prototype (k : string) : bool :=
  existsb (String.eqb k)
    ["constructor"; "hasOwnProperty"; "isPrototypeOf"; "propertyIsEnumerable";
     "toLocaleString"; "toString"; "valueOf"; "__proto__";
     "__defineGetter__"; "__defineSetter__"; "__lookupGetter__";
     "__lookupSetter__"].

(** [{ ...base, ...extra }] *)
Definition spread {V} (base extra : Obj V) : Obj V :=
  fold_left (fun acc kv => set kv.1 kv.2 acc) extra base.

(** Truthiness of a string: [""] is falsy. *)
Definition truthy (s : string) : bool :=
  match s with EmptyString => false | _ => true end.

(** [a || b] on possibly-undefined strings. *)
Definition or_else (a b : option string) : option string :=
  match a with
  | Some s => if truthy s then Some s else b
  | None => b
  end.

(** [a || d] where [d] is a string. *)
Definition or_default (a : option string) (d : string) : string :=
  match a with
  | Some s => if truthy s then s else d
  | None => d
  end.

(** [a ?? b] *)
Definition nullish {A} (a : option A) (b : A) : A :=
  match a with Some x => x | None => b end.

(** A field of [{ ...base, ...over }]. *)
Definition override {A} (over base : option A) : option A :=
  match over with Some x => Some x | None => base end.

(** White space removed by [String.prototype.trim] (the ASCII part). *)
Definition is_space (c : ascii) : bool :=
  let n := nat_of_ascii c in
  (n =? 32) || (n =? 9) || (n =? 10) || (n =? 11) || (n =? 12) || (n =? 13).

Fixpoint trim_start (s : string) : string :=
  match s with
  | EmptyString => EmptyString
  | String c s' => if is_space c then trim_start s' else s
  end.

(** Drops the trailing white space: a suffix of spaces collapses to [""]
    from the right. *)
Fixpoint trim_end (s : string) : string :=
  match s with
  | EmptyString => EmptyString
  | String c s' =>
      match trim_end s' with
      | EmptyString => if is_space c then EmptyString else String c EmptyString
      | t => String c t
      end
  end.

Definition trim (s : string) : string := trim_end (trim_start s).

(** *** [new URLSearchParams(obj).toString()]: the
    application/x-www-form-urlencoded serialiser. *)

Definition is_form_safe (c : ascii) : bool :=
  let n := nat_of_ascii c in
  ((48 <=? n) && (n <=? 57)) || ((65 <=? n) && (n <=? 90))
  || ((97 <=? n) && (n <=? 122))
  || (n =? 42) || (n =? 45) || (n =? 46) || (n =? 95).

Definition hex_digit (n : nat) : ascii :=
  ascii_of_nat (if n <? 10 then 48 + n else 55 + n).

Definition form_encode_char (c : ascii) : string :=
  let n := nat_of_ascii c in
  if is_form_safe c then String c EmptyString
  else if n =? 32 then "+"
  else String "%"%char (String (hex_digit (n / 16))
                     (String (hex_digit (n mod 16)) EmptyString)).

Fixpoint form_encode (s : string) : string :=
  match s with
  | EmptyString => EmptyString
  | String c s' => form_encode_char c +:+ form_encode s'
  end.

Fixpoint join_amp (l : list string) : string :=
  match l with
  | [] => EmptyString
  | [x] => x
  | x :: l' => x +:+ "&" +:+ join_amp l'
  end.

Definition URLSearchParams_toString (o : Obj string) : string :=
  join_amp (map (fun kv => form_encode kv.1 +:+ "=" +:+ form_encode kv.2) o).

End Js.

(* ================================================================== *)
(** ** [types.ts] *)
(* ================================================================== *)

Inductive HttpMethod := GET | POST | PUT | PATCH | DELETE.

(** Values of a [SearchParams] record: [string | number | boolean |
    undefined], and [null], which [buildUrl] also tests for. *)
Inductive ParamValue :=
| PString (s : string)
| PNumber (n : Z)
| PBoolean (b : bool)
| PUndefined
| PNull.

Definition SearchParams := Js.Obj ParamValue.

(** [String(value)] *)
Definition String_of (v : ParamValue) : string :=
  match v with
  | PString s => s
  | PNumber n => pretty n
  | PBoolean true => "true"
  | PBoolean false => "false"
  | PUndefined => "undefined"
  | PNull => "null"
  end.

(** [interface ServiceConfig]; its optional [enableAuth] is [svc_enableAuth]
    here, the name [enableAuth] going to the global flag. *)
Record ServiceConfig := {
  url : string;
  svc_enableAuth : option bool;
}.

Record SessionData := { accessToken : string }.

(* ================================================================== *)
(** ** The URL builder *)
(* ================================================================== *)

Module UrlBuilder.

(** [value !== undefined && value !== null && value !== ''] *)
Definition kept (value : ParamValue) : bool :=
  match value with
  | PUndefined | PNull => false
  | PString s => Js.truthy s
  | _ => true
  end.

(** The [forEach] body of [buildUrl]. *)
Definition add_param (filteredParams : Js.Obj string) (kv : string * ParamValue)
  : Js.Obj string :=
  if kept kv.2 then Js.set kv.1 (String_of kv.2) filteredParams
  else filteredParams.

Definition filterParams (searchParams : SearchParams) : Js.Obj string :=
  fold_left add_param searchParams [].

Definition buildUrl (endpoint : string) (searchParams : option SearchParams)
  : string :=
  let cleanEndpoint := Js.trim endpoint in
  match searchParams with
  | None => cleanEndpoint
  | Some sp =>
      let queryString := Js.URLSearchParams_toString (filterParams sp) in
      if Js.truthy queryString
      then cleanEndpoint +:+ "?" +:+ queryString
      else cleanEndpoint
  end.

(** The entries that survive the filter. *)
Definition surviving (sp : SearchParams) : SearchParams :=
  List.filter (fun kv => kept kv.2) sp.

Definition params_mixed : SearchParams :=
  [("page", PNumber 1); ("limit", PUndefined);
   ("active", PBoolean true); ("filter", PString "")].

Definition params_clean : SearchParams :=
  [("page", PNumber 1); ("active", PBoolean true)].

End UrlBuilder.

(* ================================================================== *)
(** ** Errors ([types.ts]) and the axios data the pipeline reads *)
(* ================================================================== *)

(** A response body ([any] in the source): the two fields that
    [createApiError] reads, and the rest as opaque text. *)
Record Payload := {
  body : string;
  data_message : option string;
  data_code : option string;
}.

(** [AxiosRequestConfig], restricted to the fields the pipeline touches.
    An absent field is [None]; an absent header bag is the empty map. *)
Record AxiosRequestConfig := {
  req_url : option string;
  req_method : option HttpMethod;
  req_baseURL : option string;
  req_headers : gmap string string;
  req_data : option string;
}.

(** [RetryableAxiosRequestConfig]: the request with the retry counter
    riding on it.  The declared type of the request hook is
    [AxiosRequestConfig -> AxiosRequestConfig], so a hook does not see the
    counter; the interceptor's [{...config, ...modifiedConfig}] keeps it. *)
Record RetryableAxiosRequestConfig := {
  axios_config : AxiosRequestConfig;
  _retryCount : option nat;
}.

Record AxiosResponse := {
  data : option Payload;
  status : Z;
  statusText : string;
  res_headers : gmap string string;
}.

Record AxiosError := {
  ae_message : string;
  ae_code : option string;
  ae_config : option RetryableAxiosRequestConfig;
  ae_response : option AxiosResponse;
  ae_status : option Z;
}.

(** The bundle that [createApiError] passes to [JSON.stringify]; the
    serialisation itself is not modelled. *)
Record ErrorContext := {
  ctx_endpoint : string;
  ctx_method : HttpMethod;
  ctx_service : string;
  ctx_url : option string;
  ctx_baseURL : option string;
  ctx_headers : gmap string string;
  ctx_responseData : option Payload;
}.

(** [class ApiError extends Error]; [name] tells the subclass. *)
Record ApiError := {
  name : string;
  message : string;
  err_status : option Z;
  code : option string;
  context : option ErrorContext;
}.

Definition new_ApiError (message : string) (status : option Z)
    (code : option string) (context : option ErrorContext) : ApiError :=
  {| name := "ApiError"; message := message; err_status := status;
     code := code; context := context |}.

Definition new_AuthenticationError (message : string) : ApiError :=
  {| name := "AuthenticationError"; message := message;
     err_status := Some 401%Z; code := Some "AUTHENTICATION_ERROR";
     context := None |}.

(** What a rejected promise carries. *)
Inductive Thrown :=
| ThrownApiError (e : ApiError)
| ThrownAxiosError (e : AxiosError)
| ThrownError (message : string).

(** The settled result of calling a collaborator: it returns, or it
    throws a value of [E]. *)
Inductive Outcome (E A : Type) :=
| Fulfilled (a : A)
| RejectedWith (reason : E).
Arguments Fulfilled {E A} a.
Arguments RejectedWith {E A} reason.

(** A collaborator whose rejection the pipeline hands on unread: what it
    throws is an [Error] with its message. *)
Definition Settled : Type -> Type := Outcome string.

(** What the transport does with a request: a response of any status, or
    a failure without response, which may or may not carry the request. *)
Inductive TransportOutcome :=
| Responded (r : AxiosResponse)
| Failed (message : string) (code : option string) (carries_config : bool).

(** Collaborators.  The ones the outside world owns are indexed by the
    number of earlier calls, as a mock with a counter would be. *)
Definition Transport := nat -> RetryableAxiosRequestConfig -> TransportOutcome.
Definition GetSessionFunction := nat -> Settled (option SessionData).
Definition SignOutFunction := nat -> Settled unit.
(** The request hook.  What it throws reaches the error handler of the
    response interceptor, which reads [config] and [response] from it: it
    may be any thrown value, the error of an HTTP call of the hook's own
    included. *)
Definition RequestInterceptor :=
  AxiosRequestConfig -> Outcome Thrown AxiosRequestConfig.
Definition ResponseInterceptor := AxiosResponse -> Settled AxiosResponse.
Definition RequestErrorHandler := ApiError -> Settled unit.

(** [interface ApiConfig]: the constructor's options. *)
Record ApiConfig := {
  opt_baseUrl : string;
  opt_timeout : option Z;
  opt_headers : option (gmap string string);
  opt_enableAuth : option bool;
  opt_maxRetries : option nat;
  opt_retryDelay : option Z;
  opt_services : option (Js.Obj ServiceConfig);
  opt_getSession : option GetSessionFunction;
  opt_signOut : option SignOutFunction;
  opt_onRequestError : option RequestErrorHandler;
  opt_debug : option bool;
  opt_onRequest : option RequestInterceptor;
  opt_onResponse : option ResponseInterceptor;
}.

(** [Required<ApiConfig>]: the [config] field of the instance. *)
Record RequiredApiConfig := {
  baseUrl : string;
  timeout : Z;
  headers : gmap string string;
  enableAuth : bool;
  maxRetries : nat;
  retryDelay : Z;
  services : Js.Obj ServiceConfig;
  getSession : GetSessionFunction;
  signOut : SignOutFunction;
  onRequestError : RequestErrorHandler;
  debug : bool;
  onRequest : RequestInterceptor;
  onResponse : ResponseInterceptor;
}.

(** [interface RequestConfig]: the argument of [Api.request]. *)
Record RequestConfig := {
  endpoint : string;
  method : HttpMethod;
  rc_data : option string;
  searchParams : option SearchParams;
  service : option string;
  rc_config : option AxiosRequestConfig;
}.

(** The axios instance: its defaults, its adapter, and whether the two
    interceptors of [setupInterceptors] are registered on it. *)
Record AxiosInstance := {
  defaults_baseURL : string;
  defaults_timeout : Z;
  defaults_headers : gmap string string;
  adapter : Transport;
  interceptors : bool;
}.

(** [class Api] *)
Record Api := {
  axiosInstance : AxiosInstance;
  currentToken : option string;
  config : RequiredApiConfig;
}.

(** Calls of collaborators, most recent first in a trace. *)
Inductive Event :=
| CallGetSession
| CallSignOut
| CallOnRequest (c : AxiosRequestConfig)
| CallOnResponse (r : AxiosResponse)
| CallOnRequestError (e : ApiError)
| CallTransport (c : RetryableAxiosRequestConfig)
| Sleep (ms : Z).

Definition is_getSession (e : Event) : bool :=
  match e with CallGetSession => true | _ => false end.
Definition is_signOut (e : Event) : bool :=
  match e with CallSignOut => true | _ => false end.
Definition is_onRequest (e : Event) : bool :=
  match e with CallOnRequest _ => true | _ => false end.
Definition is_onResponse (e : Event) : bool :=
  match e with CallOnResponse _ => true | _ => false end.
Definition is_onRequestError (e : Event) : bool :=
  match e with CallOnRequestError _ => true | _ => false end.
Definition is_transport (e : Event) : bool :=
  match e with CallTransport _ => true | _ => false end.

Fixpoint calls (p : Event -> bool) (tr : list Event) : nat :=
  match tr with
  | [] => 0
  | e :: tr' => (if p e then 1 else 0) + calls p tr'
  end.

(* ================================================================== *)
(** ** The monad of asynchronous computations *)
(* ================================================================== *)

(** The instance under execution and the calls made so far. *)
Record Machine := {
  this : Api;
  trace : list Event;
}.

Inductive Result (A : Type) :=
| Ok (a : A)
| Throw (e : Thrown)
| OutOfFuel.
Arguments Ok {A} a.
Arguments Throw {A} e.
Arguments OutOfFuel {A}.

Definition M (A : Type) : Type := Machine -> Result A * Machine.

Definition ret {A} (a : A) : M A := fun m => (Ok a, m).

Definition throw {A} (e : Thrown) : M A := fun m => (Throw e, m).

Definition bind {A B} (c : M A) (k : A -> M B) : M B :=
  fun m =>
    match c m with
    | (Ok a, m') => k a m'
    | (Throw e, m') => (Throw e, m')
    | (OutOfFuel, m') => (OutOfFuel, m')
    end.

(** [try { c } catch (error) { h error }] *)
Definition try_catch {A} (c : M A) (h : Thrown -> M A) : M A :=
  fun m =>
    match c m with
    | (Throw e, m') => h e m'
    | r => r
    end.

Declare Scope async_scope.
Delimit Scope async_scope with async.
Notation "'let*' x ':=' c 'in' k" := (bind c (fun x => k))
  (at level 10, x name, c at level 100, k at level 200) : async_scope.
Notation "c ;;; k" := (bind c (fun _ => k))
  (at level 100, right associativity) : async_scope.
Open Scope async_scope.

Definition get_this : M Api := fun m => (Ok (this m), m).

Definition get_calls (p : Event -> bool) : M nat :=
  fun m => (Ok (calls p (trace m)), m).

Definition emit (e : Event) : M unit :=
  fun m => (Ok tt, {| this := this m; trace := e :: trace m |}).

(** [this.currentToken = token] *)
Definition set_currentToken (token : option string) : M unit :=
  fun m =>
    (Ok tt,
     {| this := {| axiosInstance := axiosInstance (this m);
                   currentToken := token;
                   config := config (this m) |};
        trace := trace m |}).

(** [await p] for the settled result of a collaborator. *)
Definition await {A} (s : Settled A) : M A :=
  match s with
  | Fulfilled a => ret a
  | RejectedWith reason => throw (ThrownError reason)
  end.

(** Calls of the collaborators held in [this.config]. *)
Definition call_getSession : M (option SessionData) :=
  let* this := get_this in
  let* n := get_calls is_getSession in
  emit CallGetSession ;;;
  await (getSession (config this) n).

Definition call_signOut : M unit :=
  let* this := get_this in
  let* n := get_calls is_signOut in
  emit CallSignOut ;;;
  await (signOut (config this) n).

Definition call_onRequest (c : AxiosRequestConfig) : M AxiosRequestConfig :=
  let* this := get_this in
  emit (CallOnRequest c) ;;;
  match onRequest (config this) c with
  | Fulfilled modified => ret modified
  | RejectedWith error => throw error
  end.

Definition call_onResponse (r : AxiosResponse) : M AxiosResponse :=
  let* this := get_this in
  emit (CallOnResponse r) ;;;
  await (onResponse (config this) r).

Definition call_onRequestError (e : ApiError) : M unit :=
  let* this := get_this in
  emit (CallOnRequestError e) ;;;
  await (onRequestError (config this) e).

(* ================================================================== *)
(** ** axios, as far as the pipeline drives it *)
(* ================================================================== *)

Module Axios.

(** [mergeConfig(this.defaults, config)]: the request's own fields win,
    the instance defaults fill in [baseURL] and headers. *)
Definition mergeConfig (inst : AxiosInstance) (c : RetryableAxiosRequestConfig)
  : RetryableAxiosRequestConfig :=
  let a := axios_config c in
  {| axios_config :=
       {| req_url := req_url a;
          req_method := req_method a;
          req_baseURL := Some (Js.nullish (req_baseURL a) (defaults_baseURL inst));
          req_headers := req_headers a ∪ defaults_headers inst;
          req_data := req_data a |};
     _retryCount := _retryCount c |}.

(** The default [validateStatus]. *)
Definition validateStatus (s : Z) : bool := ((200 <=? s) && (s <? 300))%Z.

(** The code of the error of a rejected response: [ERR_BAD_REQUEST] for
    4xx, [ERR_BAD_RESPONSE] for every other status. *)
Definition status_code (s : Z) : option string :=
  if ((400 <=? s) && (s <? 500))%Z then Some "ERR_BAD_REQUEST"
  else Some "ERR_BAD_RESPONSE".

(** [settle]: [!response.status || validateStatus(response.status)].  A
    response resolves when its status is 0 or passes [validateStatus], and
    rejects otherwise; a transport failure rejects with an error that has
    no response. *)
Definition settled (c : RetryableAxiosRequestConfig) (o : TransportOutcome)
  : AxiosResponse + AxiosError :=
  match o with
  | Responded r =>
      if (status r =? 0)%Z || validateStatus (status r) then inl r
      else inr {| ae_message := "Request failed with status code " +:+ pretty (status r);
                  ae_code := status_code (status r);
                  ae_config := Some c;
                  ae_response := Some r;
                  ae_status := Some (status r) |}
  | Failed msg code carries =>
      inr {| ae_message := msg;
             ae_code := code;
             ae_config := if carries then Some c else None;
             ae_response := None;
             ae_status := None |}
  end.

Definition settle (c : RetryableAxiosRequestConfig) (o : TransportOutcome)
  : M AxiosResponse :=
  match settled c o with
  | inl r => ret r
  | inr e => throw (ThrownAxiosError e)
  end.

(** [dispatchRequest]: one invocation of the transport. *)
Definition dispatchRequest (c : RetryableAxiosRequestConfig) : M AxiosResponse :=
  let* this := get_this in
  let* n := get_calls is_transport in
  emit (CallTransport c) ;;;
  settle c (adapter (axiosInstance this) n c).

(** The fields of a rejection value that the error interceptor reads. *)
Definition error_config (e : Thrown) : option RetryableAxiosRequestConfig :=
  match e with ThrownAxiosError a => ae_config a | _ => None end.

Definition error_response (e : Thrown) : option AxiosResponse :=
  match e with ThrownAxiosError a => ae_response a | _ => None end.

Definition error_message (e : Thrown) : string :=
  match e with
  | ThrownAxiosError a => ae_message a
  | ThrownApiError a => message a
  | ThrownError msg => msg
  end.

Definition error_code (e : Thrown) : option string :=
  match e with
  | ThrownAxiosError a => ae_code a
  | ThrownApiError a => code a
  | ThrownError _ => None
  end.

Definition error_status (e : Thrown) : option Z :=
  match e with
  | ThrownAxiosError a => ae_status a
  | ThrownApiError a => err_status a
  | ThrownError _ => None
  end.

(** The verb helpers: [instance.get(url, config)] and
    [instance.post(url, data, config)] put [method], [url] and [data]
    over the given config. *)
Definition with_verb (m : HttpMethod) (u : string) (d : option string)
    (c : RetryableAxiosRequestConfig) : RetryableAxiosRequestConfig :=
  let a := axios_config c in
  {| axios_config :=
       {| req_url := Some u;
          req_method := Some m;
          req_baseURL := req_baseURL a;
          req_headers := req_headers a;
          req_data := d |};
     _retryCount := _retryCount c |}.

End Axios.

(* ================================================================== *)
(** ** [class Api] ([core.ts]) *)
(* ================================================================== *)

Module Core.

Definition empty_config : AxiosRequestConfig :=
  {| req_url := None; req_method := None; req_baseURL := None;
     req_headers := ∅; req_data := None |}.

(** Truthiness of an optional flag. *)
Definition flag (b : option bool) : bool := Js.nullish b false.

Definition is_some {A} (o : option A) : bool :=
  match o with Some _ => true | None => false end.

(** [config.services.<name>.url] for the two seeded entries. *)
Definition service_url (name : string) (c : RequiredApiConfig) : string :=
  match Js.get name (services c) with
  | Some s => url s
  | None => baseUrl c
  end.

(** The [this.config = { ... }] literal of the constructor. *)
Definition default_config (options : ApiConfig) : RequiredApiConfig :=
  {| baseUrl := opt_baseUrl options;
     timeout := Js.nullish (opt_timeout options) 10000%Z;
     headers :=
       Js.nullish (opt_headers options) ∅
         ∪ {[ "Content-Type" := "application/json" ]};
     enableAuth := Js.nullish (opt_enableAuth options) true;
     maxRetries := Js.nullish (opt_maxRetries options) 3;
     retryDelay := Js.nullish (opt_retryDelay options) 1000%Z;
     services :=
       Js.spread
         [("public", {| url := opt_baseUrl options; svc_enableAuth := Some false |});
          ("private", {| url := opt_baseUrl options; svc_enableAuth := Some true |})]
         (Js.nullish (opt_services options) []);
     getSession := Js.nullish (opt_getSession options) (fun _ => Fulfilled None);
     signOut := Js.nullish (opt_signOut options) (fun _ => Fulfilled tt);
     onRequestError := Js.nullish (opt_onRequestError options) (fun _ => Fulfilled tt);
     debug := Js.nullish (opt_debug options) false;
     onRequest := Js.nullish (opt_onRequest options) (fun c => Fulfilled c);
     onResponse := Js.nullish (opt_onResponse options) (fun r => Fulfilled r) |}.

(** [axios.create({ baseURL, timeout, headers })]: no interceptor yet. *)
Definition axios_create (transport : Transport) (c : RequiredApiConfig)
  : AxiosInstance :=
  {| defaults_baseURL :=
       if enableAuth c then service_url "private" c else service_url "public" c;
     defaults_timeout := timeout c;
     defaults_headers := headers c;
     adapter := transport;
     interceptors := false |}.

(** The effect of [setupInterceptors] on the instance: both handlers of
    [interceptors.request.use] and [interceptors.response.use] are
    registered; their bodies are [request_interceptor],
    [response_fulfilled] and [response_rejected] below. *)
Definition setupInterceptors (inst : AxiosInstance) : AxiosInstance :=
  {| defaults_baseURL := defaults_baseURL inst;
     defaults_timeout := defaults_timeout inst;
     defaults_headers := defaults_headers inst;
     adapter := adapter inst;
     interceptors := true |}.

Definition config_error : string :=
  "getSession and signOut functions are required when enableAuth is true".

(** [constructor(options)]; the transport is what [axios.create] would
    pick as adapter. *)
Definition new_Api (transport : Transport) (options : ApiConfig)
  : Thrown + Api :=
  if flag (opt_enableAuth options)
     && (negb (is_some (opt_getSession options))
         || negb (is_some (opt_signOut options)))
  then inl (ThrownError config_error)
  else
    let c := default_config options in
    let inst := axios_create transport c in
    inr {| axiosInstance := if enableAuth c then setupInterceptors inst else inst;
           currentToken := None;
           config := c |}.

(** [clearToken()] and [setToken(token)] *)
Definition clearToken : M unit := set_currentToken None.
Definition setToken (token : string) : M unit := set_currentToken (Some token).

(** [session?.accessToken || null] *)
Definition session_token (session : option SessionData) : option string :=
  match session with
  | Some s => if Js.truthy (accessToken s) then Some (accessToken s) else None
  | None => None
  end.

(** Truthiness of [string | null]. *)
Definition has_token (t : option string) : bool :=
  match t with Some s => Js.truthy s | None => false end.

Definition getCurrentToken : M (option string) :=
  let* this := get_this in
  if negb (enableAuth (config this)) then ret None
  else if has_token (currentToken this) then ret (currentToken this)
  else
    try_catch
      (let* session := call_getSession in
       let token := session_token session in
       (if has_token token then set_currentToken token else ret tt) ;;;
       ret token)
      (fun _ => ret None).

(** [getServiceByUrl(url)]: the first entry, in property order, whose
    [url] is the given one. *)
Definition getServiceByUrl_in (svcs : Js.Obj ServiceConfig) (u : option string)
  : option ServiceConfig :=
  snd <$> List.find
    (fun kv => match u with Some x => String.eqb (url kv.2) x | None => false end)
    svcs.

Definition getServiceByUrl (u : option string) : M (option ServiceConfig) :=
  let* this := get_this in
  ret (getServiceByUrl_in (services (config this)) u).

Definition bearer (token : string) : string := "Bearer " +:+ token.

Definition set_headers (c : AxiosRequestConfig) (h : gmap string string)
  : AxiosRequestConfig :=
  {| req_url := req_url c; req_method := req_method c;
     req_baseURL := req_baseURL c; req_headers := h; req_data := req_data c |}.

Definition service_not_found (service : string) : ApiError :=
  new_ApiError ("Service '" +:+ service +:+ "' not found in configuration")
    None None None.

Definition getServiceConfig (service : string) (c : AxiosRequestConfig)
  : M AxiosRequestConfig :=
  let* this := get_this in
  match Js.get service (services (config this)) with
  | None =>
      if Js.on_prototype service
      then
        (* [services[service]] is a member of [Object.prototype]: truthy,
           with neither [url] nor [enableAuth] *)
        ret {| req_url := req_url c; req_method := req_method c;
               req_baseURL := None;
               req_headers := req_headers c; req_data := req_data c |}
      else throw (ThrownApiError (service_not_found service))
  | Some serviceConfig =>
      let headers := req_headers c in
      let* headers :=
        (if flag (svc_enableAuth serviceConfig) && enableAuth (config this)
         then
           let* token := getCurrentToken in
           match token with
           | Some t =>
               if Js.truthy t then ret (<[ "Authorization" := bearer t ]> headers)
               else ret headers
           | None => ret headers
           end
         else ret headers) in
      ret {| req_url := req_url c; req_method := req_method c;
             req_baseURL := Some (url serviceConfig);
             req_headers := headers; req_data := req_data c |}
  end.

(** [{ ...config, ...modifiedConfig }] with the headers merged key by
    key, the hook's headers winning. *)
Definition merge_modified (c : RetryableAxiosRequestConfig)
    (modified : AxiosRequestConfig) : RetryableAxiosRequestConfig :=
  let a := axios_config c in
  {| axios_config :=
       {| req_url := Js.override (req_url modified) (req_url a);
          req_method := Js.override (req_method modified) (req_method a);
          req_baseURL := Js.override (req_baseURL modified) (req_baseURL a);
          req_headers := req_headers modified ∪ req_headers a;
          req_data := Js.override (req_data modified) (req_data a) |};
     _retryCount := _retryCount c |}.

Definition with_headers (c : RetryableAxiosRequestConfig) (h : gmap string string)
  : RetryableAxiosRequestConfig :=
  {| axios_config := set_headers (axios_config c) h;
     _retryCount := _retryCount c |}.

(** The fulfilled handler of [interceptors.request.use]. *)
Definition request_interceptor (c : RetryableAxiosRequestConfig)
  : M RetryableAxiosRequestConfig :=
  try_catch
    (let userConfig := axios_config c in
     let* modifiedConfig := call_onRequest userConfig in
     let internalConfig := merge_modified c modifiedConfig in
     let* serviceConfig :=
       getServiceByUrl (req_baseURL (axios_config internalConfig)) in
     match serviceConfig with
     | Some sc =>
         if flag (svc_enableAuth sc) then
           let* token := getCurrentToken in
           match token with
           | Some t =>
               if Js.truthy t then
                 ret (with_headers internalConfig
                        (<[ "Authorization" := bearer t ]>
                           (req_headers (axios_config internalConfig))))
               else ret internalConfig
           | None => ret internalConfig
           end
         else ret internalConfig
     | None => ret internalConfig
     end)
    (fun error => throw error).

(** The fulfilled handler of [interceptors.response.use]. *)
Definition response_fulfilled (response : AxiosResponse) : M AxiosResponse :=
  try_catch (call_onResponse response) (fun error => throw error).

(** The response shell handed to the hook when the error has none. *)
Definition shell (st : Z) (text : string) : AxiosResponse :=
  {| data := None; status := st; statusText := text; res_headers := ∅ |}.

(** [await onResponse(r)] inside a [try] whose [catch] only logs. *)
Definition notify_onResponse (r : AxiosResponse) : M unit :=
  try_catch (call_onResponse r ;;; ret tt) (fun _ => ret tt).

Definition response_data_message (r : option AxiosResponse) : option string :=
  match r with
  | Some r => match data r with Some d => data_message d | None => None end
  | None => None
  end.

Definition response_data_code (r : option AxiosResponse) : option string :=
  match r with
  | Some r => match data r with Some d => data_code d | None => None end
  | None => None
  end.

Definition createApiError (error : Thrown) (endpoint : string)
    (method : HttpMethod) (service : string) : ApiError :=
  let response := Axios.error_response error in
  let cfg := axios_config <$> Axios.error_config error in
  new_ApiError
    (Js.or_default (response_data_message response) (Axios.error_message error))
    (status <$> response)
    (Js.or_else (response_data_code response) (Axios.error_code error))
    (Some {| ctx_endpoint := endpoint;
             ctx_method := method;
             ctx_service := service;
             ctx_url := cfg ≫= req_url;
             ctx_baseURL := cfg ≫= req_baseURL;
             ctx_headers := Js.nullish (req_headers <$> cfg) ∅;
             ctx_responseData := response ≫= data |}).

Definition handleRequestError (apiError : ApiError) : M unit :=
  call_onRequestError apiError.

(** [originalRequest._retryCount = (originalRequest._retryCount || 0) + 1] *)
Definition bump (c : RetryableAxiosRequestConfig) : RetryableAxiosRequestConfig :=
  {| axios_config := axios_config c;
     _retryCount := Some (Js.nullish (_retryCount c) 0 + 1) |}.

(** [error.response?.status === 401] *)
Definition is_401 (r : option AxiosResponse) : bool :=
  match r with Some r => (status r =? 401)%Z | None => false end.

(** [error.response?.status && error.response.status >= 500] *)
Definition is_5xx (r : option AxiosResponse) : bool :=
  match r with
  | Some r => negb (status r =? 0)%Z && (500 <=? status r)%Z
  | None => false
  end.

(** [error.response ?? { ...shell }] *)
Definition responseForInterceptor (error : Thrown) (fallback : AxiosResponse)
  : AxiosResponse :=
  Js.nullish (Axios.error_response error) fallback.

(** The [createApiError] call of the error interceptor: the endpoint is
    [originalRequest.url || ''], the method
    [originalRequest.method?.toUpperCase() || 'GET'], the service
    ['private']. *)
Definition normalize (error : Thrown) (originalRequest : RetryableAxiosRequestConfig)
  : ApiError :=
  createApiError error
    (Js.or_default (req_url (axios_config originalRequest)) "")
    (Js.nullish (req_method (axios_config originalRequest)) GET)
    "private".

Definition unauthorized : ApiError :=
  new_AuthenticationError "Unauthorized, user logged out.".

(** The rejected handler of [interceptors.response.use];
    [again] is [this.axiosInstance].  [this.config.signOut] is always a
    function in [Required<ApiConfig>], so its guard is left out. *)
Definition response_rejected
    (again : RetryableAxiosRequestConfig -> M AxiosResponse)
    (error : Thrown) : M AxiosResponse :=
  let* this := get_this in
  match Axios.error_config error with
  | None =>
      notify_onResponse
        (responseForInterceptor error (shell 0 "No Response")) ;;;
      throw error
  | Some originalRequest =>
      if is_401 (Axios.error_response error) then
        call_signOut ;;;
        notify_onResponse
          (responseForInterceptor error (shell 401 "Unauthorized")) ;;;
        throw (ThrownApiError unauthorized)
      else if is_5xx (Axios.error_response error)
              && (Js.nullish (_retryCount originalRequest) 0
                    <? maxRetries (config this))%nat
      then
        let originalRequest := bump originalRequest in
        emit (Sleep (retryDelay (config this))) ;;;
        again originalRequest
      else
        let apiError := normalize error originalRequest in
        handleRequestError apiError ;;;
        notify_onResponse
          (responseForInterceptor error
             (shell (Js.nullish (Axios.error_status error) 0%Z)
                    (Js.or_default (Some (Axios.error_message error)) "Error"))) ;;;
        throw (ThrownApiError apiError)
  end.

(** [this.axiosInstance(config)]: the promise chain
    [request interceptor -> dispatchRequest -> response interceptor].
    A rejection of the request interceptor skips the dispatch and reaches
    the rejected handler of the response interceptor; a rejection of the
    fulfilled response handler goes to the caller.  The rejected handler
    may call the instance again, hence the fuel. *)
Fixpoint axios_request (fuel : nat) (c : RetryableAxiosRequestConfig)
  : M AxiosResponse :=
  match fuel with
  | 0 => fun m => (OutOfFuel, m)
  | S fuel' =>
      let* this := get_this in
      let merged := Axios.mergeConfig (axiosInstance this) c in
      if interceptors (axiosInstance this) then
        let* settled :=
          try_catch
            (let* internalConfig := request_interceptor merged in
             let* response := Axios.dispatchRequest internalConfig in
             ret (inl response))
            (fun error => ret (inr error)) in
        match settled with
        | inl response => response_fulfilled response
        | inr error => response_rejected (axios_request fuel') error
        end
      else Axios.dispatchRequest merged
  end.

(** The instance as [request] calls it, with [maxRetries + 1] rounds:
    they are enough for a result, and more rounds change nothing
    ([request_terminates], [request_any_fuel]), unless the request hook
    throws errors that the error handler retries ([hook_error_retried]),
    in which case the code itself does not end. *)
Definition axios (c : RetryableAxiosRequestConfig) : M AxiosResponse :=
  let* this := get_this in
  axios_request (S (maxRetries (config this))) c.

(** [executeRequest] and [request], with the call of the axios instance
    as a parameter: [instance] is [this.axiosInstance]. *)
Definition executeRequest_on
    (instance : RetryableAxiosRequestConfig -> M AxiosResponse)
    (method : HttpMethod) (u : string)
    (d : option string) (c : AxiosRequestConfig) : M (option Payload) :=
  let requestConfig := {| axios_config := c; _retryCount := Some 0 |} in
  match method with
  | POST | PUT | PATCH =>
      let* response := instance (Axios.with_verb method u d requestConfig) in
      ret (data response)
  | DELETE | GET =>
      let* response :=
        instance (Axios.with_verb method u (req_data c) requestConfig) in
      ret (data response)
  end.

Definition request_on
    (instance : RetryableAxiosRequestConfig -> M AxiosResponse)
    (rc : RequestConfig) : M (option Payload) :=
  let service := Js.nullish (service rc) "private" in
  let config := Js.nullish (rc_config rc) empty_config in
  let* serviceConfig := getServiceConfig service config in
  let u := UrlBuilder.buildUrl (endpoint rc) (searchParams rc) in
  executeRequest_on instance (method rc) u (rc_data rc) serviceConfig.

Definition executeRequest : HttpMethod -> string -> option string ->
    AxiosRequestConfig -> M (option Payload) :=
  executeRequest_on axios.

Definition request : RequestConfig -> M (option Payload) := request_on axios.

(** A request for which the axios instance may run [fuel] rounds: the
    code has no such limit, and the statements about the number of
    attempts are made for every [fuel]. *)
Definition request_within (fuel : nat) : RequestConfig -> M (option Payload) :=
  request_on (axios_request fuel).

(** The verb methods. *)
Definition get (endpoint : string) (searchParams : option SearchParams)
    (service : option string) (config : option AxiosRequestConfig)
  : M (option Payload) :=
  request {| endpoint := endpoint; method := GET; rc_data := None;
             searchParams := searchParams; service := service;
             rc_config := config |}.

Definition post (endpoint : string) (d : option string)
    (service : option string) (config : option AxiosRequestConfig)
  : M (option Payload) :=
  request {| endpoint := endpoint; method := POST; rc_data := d;
             searchParams := None; service := service;
             rc_config := config |}.

Definition put (endpoint : string) (d : option string)
    (service : option string) (config : option AxiosRequestConfig)
  : M (option Payload) :=
  request {| endpoint := endpoint; method := PUT; rc_data := d;
             searchParams := None; service := service;
             rc_config := config |}.

Definition patch (endpoint : string) (d : option string)
    (service : option string) (config : option AxiosRequestConfig)
  : M (option Payload) :=
  request {| endpoint := endpoint; method := PATCH; rc_data := d;
             searchParams := None; service := service;
             rc_config := config |}.

Definition delete (endpoint : string)
    (service : option string) (config : option AxiosRequestConfig)
  : M (option Payload) :=
  request {| endpoint := endpoint; method := DELETE; rc_data := None;
             searchParams := None; service := service;
             rc_config := config |}.

(** Running a computation on an instance, from an empty trace. *)
Definition start (api : Api) : Machine := {| this := api; trace := [] |}.

End Core.

(* ================================================================== *)
(** ** Scenarios used below *)
(* ================================================================== *)

Module Scenario.
Import Core.

Definition response (st : Z) (d : option Payload) : AxiosResponse :=
  {| data := d; status := st; statusText := ""; res_headers := ∅ |}.

Definition always (st : Z) : Transport := fun _ _ => Responded (response st None).

(** [n] responses of status 500, then status [st]. *)
Definition after_500s (n : nat) (st : Z) : Transport :=
  fun k _ => Responded (response (if k <? n then 500%Z else st) None).

Definition session_of (token : string) : GetSessionFunction :=
  fun _ => Fulfilled (Some {| accessToken := token |}).

Definition resolves : SignOutFunction := fun _ => Fulfilled tt.

Definition options_with (auth : option bool)
    (svcs : option (Js.Obj ServiceConfig))
    (gs : option GetSessionFunction) (so : option SignOutFunction)
    (observer : option RequestErrorHandler) : ApiConfig :=
  {| opt_baseUrl := "https://api.example.com";
     opt_timeout := None; opt_headers := None;
     opt_enableAuth := auth;
     opt_maxRetries := None; opt_retryDelay := None;
     opt_services := svcs;
     opt_getSession := gs; opt_signOut := so;
     opt_onRequestError := observer; opt_debug := None;
     opt_onRequest := None; opt_onResponse := None |}.

Definition options (auth : option bool) (svcs : option (Js.Obj ServiceConfig))
    (gs : option GetSessionFunction) (so : option SignOutFunction) : ApiConfig :=
  options_with auth svcs gs so None.

(** The configuration of the test suite. *)
Definition baseConfig : ApiConfig :=
  options (Some true) None (Some (session_of "fake-token")) (Some resolves).

(** The same with an [onRequestError] that throws. *)
Definition throwingObserverConfig : ApiConfig :=
  options_with (Some true) None (Some (session_of "fake-token")) (Some resolves)
    (Some (fun _ => RejectedWith "observer failed")).

(** The error of an HTTP call that the request hook makes itself and
    that is answered with [st]: an error of axios, with the response and
    the request of that call. *)
Definition hook_http_error (st : Z) : Thrown :=
  ThrownAxiosError
    {| ae_message := "Request failed with status code " +:+ pretty st;
       ae_code := Axios.status_code st;
       ae_config :=
         Some {| axios_config :=
                   {| req_url := Some "/session"; req_method := Some GET;
                      req_baseURL := None; req_headers := ∅;
                      req_data := None |};
                 _retryCount := None |};
       ae_response := Some (response st None);
       ae_status := Some st |}.

(** The configuration of the test suite with a request hook whose own
    HTTP call fails with [st]: every time it is called, the hook throws a
    new error of that call. *)
Definition failingHookConfig (st : Z) : ApiConfig :=
  {| opt_baseUrl := "https://api.example.com";
     opt_timeout := None; opt_headers := None;
     opt_enableAuth := Some true;
     opt_maxRetries := None; opt_retryDelay := None;
     opt_services := None;
     opt_getSession := Some (session_of "fake-token");
     opt_signOut := Some resolves;
     opt_onRequestError := None; opt_debug := None;
     opt_onRequest := Some (fun _ => RejectedWith (hook_http_error st));
     opt_onResponse := None |}.

(** The same with a sign-out handler that rejects. *)
Definition rejectingSignOutConfig : ApiConfig :=
  options (Some true) None (Some (session_of "fake-token"))
    (Some (fun _ => RejectedWith "sign-out failed")).

(** The same with authentication switched off. *)
Definition noAuthConfig : ApiConfig := options (Some false) None None None.

(** Only [baseUrl] given. *)
Definition minimalConfig : ApiConfig := options None None None None.

(** Distinct endpoints for [public] and [private], as in the tests of the
    service management. *)
Definition twoEndpointsConfig : ApiConfig :=
  options (Some true)
    (Some [("public", {| url := "https://public.api.com"; svc_enableAuth := Some false |});
           ("private", {| url := "https://private.api.com"; svc_enableAuth := Some true |})])
    (Some (session_of "fake-token")) (Some resolves).

(** A third service without authentication on the endpoint of [private]. *)
Definition sharedUrlConfig : ApiConfig :=
  options (Some true)
    (Some [("public", {| url := "https://public.api.com"; svc_enableAuth := Some false |});
           ("private", {| url := "https://private.api.com"; svc_enableAuth := Some true |});
           ("service_1", {| url := "https://private.api.com"; svc_enableAuth := Some false |})])
    (Some (session_of "fake-token")) (Some resolves).

(** The instance built from the options, if the constructor returns. *)
Definition instance (t : Transport) (o : ApiConfig) : option Api :=
  match new_Api t o with inr api => Some api | inl _ => None end.

(** The [Authorization] header of every request handed to the transport,
    most recent first. *)
Definition authorizations (tr : list Event) : list (option string) :=
  omap (fun e => match e with
                 | CallTransport c => Some (req_headers (axios_config c) !! "Authorization")
                 | _ => None
                 end) tr.

End Scenario.

(* ================================================================== *)
(** ** Notions used in the statements *)
(* ================================================================== *)

(** The state after one more call, of any collaborator. *)
Definition after (e : Event) (m : Machine) : Machine :=
  {| this := this m; trace := e :: trace m |}.

(** The state after a call of the session provider that cached nothing. *)
Definition after_getSession (m : Machine) : Machine := after CallGetSession m.

(** The state after a call of the session provider that cached [token]. *)
Definition after_caching (token : string) (m : Machine) : Machine :=
  {| this := {| axiosInstance := axiosInstance (this m);
                currentToken := Some token;
                config := config (this m) |};
     trace := CallGetSession :: trace m |}.

(** [m] is a state of the instance [api]: the configuration and the axios
    instance are those of [api]; the cached token and the calls made so
    far are arbitrary. *)
Definition state_of (api : Api) (m : Machine) : Prop :=
  config (this m) = config api /\ axiosInstance (this m) = axiosInstance api.

(** The result of awaiting a settled collaborator. *)
Definition settle_call {A} (s : Settled A) : Result A :=
  match s with
  | Fulfilled a => Ok a
  | RejectedWith reason => Throw (ThrownError reason)
  end.

(** How a result sits with the numbers [ns] of sign-out calls and [ne] of
    [onRequestError] calls made on the way to it.  An [ApiError] made by
    [createApiError] has a context; [AuthenticationError] and the error of
    an unregistered service have none. *)
Definition verdict {A} (r : Result A) (ns ne : nat) : Prop :=
  match r with
  | Ok _ => ns = 0 /\ ne = 0
  | Throw (ThrownAxiosError _) => ns = 0 /\ ne = 0
  | Throw (ThrownApiError e) =>
      if String.eqb (name e) "AuthenticationError"
      then ns = 1 /\ ne = 0
      else match context e with
           | Some _ => ns = 0 /\ ne = 1
           | None => ns = 0 /\ ne = 0
           end
  | Throw (ThrownError _) => ns + ne <= 1
  | OutOfFuel => True
  end.

(** [(await p).data] *)
Definition data_of (r : Result AxiosResponse * Machine)
  : Result (option Payload) * Machine :=
  match r with
  | (Ok response, m) => (Ok (data response), m)
  | (Throw e, m) => (Throw e, m)
  | (OutOfFuel, m) => (OutOfFuel, m)
  end.

(** What the caller of a verb method gets from a settled transport call
    when nothing stands between the two. *)
Definition unwrapped (s : AxiosResponse + AxiosError) : Result (option Payload) :=
  match s with
  | inl r => Ok (data r)
  | inr e => Throw (ThrownAxiosError e)
  end.

(** From [m] to [m'] the instance kept its configuration and its axios
    instance, and [nt] calls of the transport, [ns] of the sign-out handler
    and [ne] of [onRequestError] were made. *)
Definition delta (m m' : Machine) (nt ns ne : nat) : Prop :=
  config (this m') = config (this m)
  /\ axiosInstance (this m') = axiosInstance (this m)
  /\ calls is_transport (trace m') = calls is_transport (trace m) + nt
  /\ calls is_signOut (trace m') = calls is_signOut (trace m) + ns
  /\ calls is_onRequestError (trace m') = calls is_onRequestError (trace m) + ne.

(** The retry counter as the comparison with [maxRetries] reads it. *)
Definition retries (c : RetryableAxiosRequestConfig) : nat :=
  Js.nullish (_retryCount c) 0.

(** The [k]-th call of the transport is answered with a status of 500 or
    more, whatever the request. *)
Definition answers_5xx (t : Transport) (k : nat) : Prop :=
  forall c, exists r, t k c = Responded r /\ (500 <= status r)%Z.

(** The [k]-th call of the transport is answered with status 401. *)
Definition answers_401 (t : Transport) (k : nat) : Prop :=
  forall c, exists r, t k c = Responded r /\ status r = 401%Z.

(** The request hook returns normally on every request. *)
Definition hook_returns (f : RequestInterceptor) : Prop :=
  forall c, exists c', f c = Fulfilled c'.

(** What the request hook throws, when it throws, has no [config]: it is
    not the error of an HTTP call. *)
Definition hook_opaque (f : RequestInterceptor) : Prop :=
  forall c t, f c = RejectedWith t -> Axios.error_config t = None.

(** What the request hook throws, when it throws, is a plain [Error]. *)
Definition hook_plain (f : RequestInterceptor) : Prop :=
  forall c t, f c = RejectedWith t -> exists msg, t = ThrownError msg.

(** The result of awaiting the request hook. *)
Definition settle_hook {A} (s : Outcome Thrown A) : Result A :=
  match s with
  | Fulfilled a => Ok a
  | RejectedWith error => Throw error
  end.

(** An error made by [createApiError]: an [ApiError] proper, with its
    diagnostic context. *)
Definition normalized (e : ApiError) : Prop :=
  name e = "ApiError" /\ context e <> None.

(** Settles a [delta] goal between states built with [after]. *)
Ltac delta_tac :=
  unfold delta, after in *; cbn [this trace calls is_transport is_signOut
    is_onRequestError] in *;
  repeat match goal with H : _ /\ _ |- _ => destruct H end;
  repeat split; try congruence; try lia.

(* ================================================================== *)
(** ** Notions on strings and objects *)
(* ================================================================== *)

(** The keys of an object, in property order. *)
Definition keys {V} (o : Js.Obj V) : list string := map fst o.

(** The number of occurrences of a character in a string. *)
Fixpoint count_char (c : ascii) (s : string) : nat :=
  match s with
  | EmptyString => 0
  | String x s' => (if Ascii.eqb x c then 1 else 0) + count_char c s'
  end.

(** The first and the last character of a string. *)
Definition first_char (s : string) : option ascii :=
  match s with
  | EmptyString => None
  | String c _ => Some c
  end.

Fixpoint last_char (s : string) : option ascii :=
  match s with
  | EmptyString => None
  | String c EmptyString => Some c
  | String _ s' => last_char s'
  end.

(** Not a white-space character, if there is one. *)
Definition not_space (c : option ascii) : Prop :=
  match c with
  | Some c => Js.is_space c = false
  | None => True
  end.

(** A string of ASCII characters: every byte is below 128.  On such a
    string the white space of [String.prototype.trim] is [Js.is_space]. *)
Fixpoint ascii_only (s : string) : bool :=
  match s with
  | EmptyString => true
  | String c s' => (nat_of_ascii c <? 128) && ascii_only s'
  end.

Definition is_digit (c : ascii) : bool :=
  let n := nat_of_ascii c in (48 <=? n) && (n <=? 57).

Fixpoint all_digits (s : string) : bool :=
  match s with
  | EmptyString => true
  | String c s' => is_digit c && all_digits s'
  end.

(** A property name that an object enumerates in insertion order and
    that an assignment stores as an own property: it has a character that
    is not a decimal digit (integer-like names are enumerated first, in
    ascending order), and it is not [__proto__] (whose assignment goes to
    the setter of [Object.prototype]). *)
Definition plain_key (k : string) : bool :=
  negb (all_digits k) && negb (String.eqb k "__proto__").

(** A parameter value that [String] prints as [String_of] has it: a
    number is a safe integer, below [2^53] in absolute value. *)
Definition printable (v : ParamValue) : Prop :=
  match v with
  | PNumber n => (Z.abs n < 2 ^ 53)%Z
  | _ => True
  end.

(** A search parameter as the query string shows it. *)
Definition query_pair (kv : string * ParamValue) : string * string :=
  (kv.1, String_of kv.2).

(* ================================================================== *)
(** ** [class Api]: the runtime configuration surface *)
(* ================================================================== *)

Module Runtime.

(** [Partial<ApiConfig>]: the argument of [updateConfig].  An absent key
    is [None]. *)
Record ApiConfigUpdate := {
  upd_baseUrl : option string;
  upd_timeout : option Z;
  upd_headers : option (gmap string string);
  upd_enableAuth : option bool;
  upd_maxRetries : option nat;
  upd_retryDelay : option Z;
  upd_services : option (Js.Obj ServiceConfig);
  upd_getSession : option GetSessionFunction;
  upd_signOut : option SignOutFunction;
  upd_onRequestError : option RequestErrorHandler;
  upd_debug : option bool;
  upd_onRequest : option RequestInterceptor;
  upd_onResponse : option ResponseInterceptor;
}.

(** [{ ...this.config, ...newConfig }] *)
Definition merge_config (c : RequiredApiConfig) (u : ApiConfigUpdate)
  : RequiredApiConfig :=
  {| baseUrl := Js.nullish (upd_baseUrl u) (baseUrl c);
     timeout := Js.nullish (upd_timeout u) (timeout c);
     headers := Js.nullish (upd_headers u) (headers c);
     enableAuth := Js.nullish (upd_enableAuth u) (enableAuth c);
     maxRetries := Js.nullish (upd_maxRetries u) (maxRetries c);
     retryDelay := Js.nullish (upd_retryDelay u) (retryDelay c);
     services := Js.nullish (upd_services u) (services c);
     getSession := Js.nullish (upd_getSession u) (getSession c);
     signOut := Js.nullish (upd_signOut u) (signOut c);
     onRequestError := Js.nullish (upd_onRequestError u) (onRequestError c);
     debug := Js.nullish (upd_debug u) (debug c);
     onRequest := Js.nullish (upd_onRequest u) (onRequest c);
     onResponse := Js.nullish (upd_onResponse u) (onResponse c) |}.

Definition with_services (c : RequiredApiConfig) (s : Js.Obj ServiceConfig)
  : RequiredApiConfig :=
  {| baseUrl := baseUrl c; timeout := timeout c; headers := headers c;
     enableAuth := enableAuth c; maxRetries := maxRetries c;
     retryDelay := retryDelay c; services := s;
     getSession := getSession c; signOut := signOut c;
     onRequestError := onRequestError c; debug := debug c;
     onRequest := onRequest c; onResponse := onResponse c |}.

Definition with_auth_functions (c : RequiredApiConfig)
    (gs : GetSessionFunction) (so : SignOutFunction) : RequiredApiConfig :=
  {| baseUrl := baseUrl c; timeout := timeout c; headers := headers c;
     enableAuth := enableAuth c; maxRetries := maxRetries c;
     retryDelay := retryDelay c; services := services c;
     getSession := gs; signOut := so;
     onRequestError := onRequestError c; debug := debug c;
     onRequest := onRequest c; onResponse := onResponse c |}.

(** [this.config = c] *)
Definition set_config (c : RequiredApiConfig) : M unit :=
  fun m =>
    (Ok tt,
     {| this := {| axiosInstance := axiosInstance (this m);
                   currentToken := currentToken (this m);
                   config := c |};
        trace := trace m |}).

(** Assignments to [this.axiosInstance.defaults]. *)
Definition set_defaults (b : string) (tm : Z) (h : gmap string string) : M unit :=
  fun m =>
    (Ok tt,
     {| this := {| axiosInstance :=
                     {| defaults_baseURL := b;
                        defaults_timeout := tm;
                        defaults_headers := h;
                        adapter := adapter (axiosInstance (this m));
                        interceptors := interceptors (axiosInstance (this m)) |};
                   currentToken := currentToken (this m);
                   config := config (this m) |};
        trace := trace m |}).

Definition type_error : string :=
  "TypeError: Cannot set properties of undefined (setting 'url')".

(** [this.config.services.<name>.url = u]; a [TypeError] when the entry
    is missing. *)
Definition set_service_url (service_name u : string) : M unit :=
  let* this := get_this in
  match Js.get service_name (services (config this)) with
  | Some sc =>
      set_config
        (with_services (config this)
           (Js.set service_name
              {| url := u; svc_enableAuth := svc_enableAuth sc |}
              (services (config this))))
  | None => throw (ThrownError type_error)
  end.

Definition updateConfig (newConfig : ApiConfigUpdate) : M unit :=
  let* this := get_this in
  set_config (merge_config (config this) newConfig) ;;;
  (match upd_baseUrl newConfig with
   | Some b =>
       if Js.truthy b then
         let* this := get_this in
         set_defaults b (defaults_timeout (axiosInstance this))
           (defaults_headers (axiosInstance this)) ;;;
         set_service_url "private" b ;;;
         set_service_url "public" b
       else ret tt
   | None => ret tt
   end) ;;;
  (match upd_timeout newConfig with
   | Some tm =>
       if (tm =? 0)%Z then ret tt
       else
         let* this := get_this in
         set_defaults (defaults_baseURL (axiosInstance this)) tm
           (defaults_headers (axiosInstance this))
   | None => ret tt
   end) ;;;
  (match upd_headers newConfig with
   | Some h =>
       let* this := get_this in
       set_defaults (defaults_baseURL (axiosInstance this))
         (defaults_timeout (axiosInstance this))
         (h ∪ defaults_headers (axiosInstance this))
   | None => ret tt
   end).

(** [getConfig()]: a copy of the configuration. *)
Definition getConfig : M RequiredApiConfig :=
  let* this := get_this in ret (config this).

Definition isAuthEnabled : M bool :=
  let* this := get_this in ret (enableAuth (config this)).

Definition updateAuthFunctions (gs : option GetSessionFunction)
    (so : option SignOutFunction) : M unit :=
  let* this := get_this in
  set_config
    (with_auth_functions (config this)
       (Js.nullish gs (getSession (config this)))
       (Js.nullish so (signOut (config this)))).

(** An update that changes nothing. *)
Definition no_update : ApiConfigUpdate :=
  {| upd_baseUrl := None; upd_timeout := None; upd_headers := None;
     upd_enableAuth := None; upd_maxRetries := None; upd_retryDelay := None;
     upd_services := None; upd_getSession := None; upd_signOut := None;
     upd_onRequestError := None; upd_debug := None; upd_onRequest := None;
     upd_onResponse := None |}.

End Runtime.

(* ================================================================== *)
(** ** More notions used in the statements *)
(* ================================================================== *)

(** The [k]-th call of the transport has the outcome [o], whatever the
    request. *)
Definition answers (t : Transport) (k : nat) (o : TransportOutcome) : Prop :=
  forall c, t k c = o.

(** The beat of a trace: its calls of the transport and its pauses, the
    other events left out. *)
Inductive Beat := Sent | Paused (ms : Z).

Fixpoint beat (tr : list Event) : list Beat :=
  match tr with
  | [] => []
  | CallTransport _ :: tr => Sent :: beat tr
  | Sleep ms :: tr => Paused ms :: beat tr
  | _ :: tr => beat tr
  end.

(** [n] attempts that each ended in a pause of [d] milliseconds, the most
    recent first (as traces are). *)
Fixpoint retried (n : nat) (d : Z) : list Beat :=
  match n with
  | 0 => []
  | S n => Paused d :: Sent :: retried n d
  end.

(** What the caller gets once the response hook has seen a response. *)
Definition hooked (s : Settled AxiosResponse) : Result (option Payload) :=
  match s with
  | Fulfilled r => Ok (data r)
  | RejectedWith reason => Throw (ThrownError reason)
  end.

(** What the caller gets once [onRequestError] has seen an error. *)
Definition observed (s : Settled unit) (e : ApiError) : Result (option Payload) :=
  match s with
  | Fulfilled _ => Throw (ThrownApiError e)
  | RejectedWith reason => Throw (ThrownError reason)
  end.

(** The instance [api] has its interceptors, its request hook returns
    normally, the service of the request is registered, and [m] is a state
    of [api]. *)
Definition ready (api : Api) (rc : RequestConfig) (m : Machine) : Prop :=
  interceptors (axiosInstance api) = true
  /\ hook_returns (onRequest (config api))
  /\ state_of api m
  /\ exists sc,
       Js.get (Js.nullish (service rc) "private") (services (config api)) = Some sc.

(** The message axios gives to the error of a response. *)
Definition status_message (s : Z) : string :=
  "Request failed with status code " +:+ pretty s.


(** The cached token and the calls of the session provider are the same
    in both states. *)
Definition same_session (m m' : Machine) : Prop :=
  currentToken (this m') = currentToken (this m)
  /\ calls is_getSession (trace m') = calls is_getSession (trace m).

(** Settles a [same_session] goal between states built with [after]. *)
Ltac session_tac :=
  unfold same_session, after in *;
  cbn [fst snd this trace currentToken calls is_getSession] in *;
  repeat match goal with H : _ /\ _ |- _ => destruct H end;
  split; [congruence|lia].

(** Splits the goal by the cases of its innermost [match]es. *)
Ltac split_matches :=
  repeat match goal with
         | |- context [match ?x with _ => _ end] =>
             lazymatch x with
             | context [match _ with _ => _ end] => fail
             | _ => destruct x eqn:?
             end
         end.
(** The request that reaches the transport when nothing on the way
    changes it: the built URL, the endpoint of the service, the headers of
    the call over the defaults of the instance, and as body the [data] of
    the call for POST, PUT and PATCH, that of its [config] otherwise. *)
Definition plain_request (rc : RequestConfig) (sc : ServiceConfig)
    (inst : AxiosInstance) : RetryableAxiosRequestConfig :=
  let c := Js.nullish (rc_config rc) Core.empty_config in
  {| axios_config :=
       {| req_url := Some (UrlBuilder.buildUrl (endpoint rc) (searchParams rc));
          req_method := Some (method rc);
          req_baseURL := Some (url sc);
          req_headers := req_headers c ∪ defaults_headers inst;
          req_data :=
            match method rc with
            | POST | PUT | PATCH => rc_data rc
            | DELETE | GET => req_data c
            end |};
     _retryCount := Some 0 |}.

(* ================================================================== *)
(** * Properties *)
(* ================================================================== *)

(** ** The scenarios of the test suite

    The embedding run on the cases of [tests/api.test.ts]. *)

Section TestSuite.
Import Core Scenario.

(** "should retry on server error (500)": two 500s, then 200; three
    attempts. *)
Example test_retry_on_server_error :
  exists api m',
    new_Api (after_500s 2 200) baseConfig = inr api
    /\ get "/retry" None None None (start api) = (Ok None, m')
    /\ calls is_transport (trace m') = 3.
Proof.
  do 2 eexists. split; [reflexivity|]. split; [vm_compute; reflexivity|].
  reflexivity.
Qed.

(** "should not retry on 4xx errors (except 401)" and "should call
    onRequestError on API error". *)
Example test_no_retry_on_400 :
  exists api e m',
    new_Api (always 400) baseConfig = inr api
    /\ get "/bad-request" None None None (start api)
       = (Throw (ThrownApiError e), m')
    /\ err_status e = Some 400%Z
    /\ calls is_transport (trace m') = 1
    /\ calls is_onRequestError (trace m') = 1.
Proof.
  do 3 eexists. split; [reflexivity|]. split; [vm_compute; reflexivity|].
  repeat split.
Qed.

(** "should make a GET request with Authorization header". *)
Example test_authorization_header :
  exists api m',
    new_Api (always 200) baseConfig = inr api
    /\ get "/users" None None None (start api) = (Ok None, m')
    /\ authorizations (trace m') = [Some "Bearer fake-token"].
Proof.
  do 2 eexists. split; [reflexivity|]. split; [vm_compute; reflexivity|].
  vm_compute. reflexivity.
Qed.

(** "should use public service without authentication". *)
Example test_public_service_without_authentication :
  exists api m',
    new_Api (always 200) twoEndpointsConfig = inr api
    /\ get "/public-data" (Some []) (Some "public") None (start api) = (Ok None, m')
    /\ authorizations (trace m') = [None].
Proof.
  do 2 eexists. split; [reflexivity|]. split; [vm_compute; reflexivity|].
  vm_compute. reflexivity.
Qed.

(** "should handle search parameters correctly". *)
Example test_search_parameters :
  UrlBuilder.buildUrl "/users"
    (Some [("page", PNumber 1); ("limit", PNumber 10); ("active", PBoolean true)])
  = "/users?page=1&limit=10&active=true".
Proof. reflexivity. Qed.

End TestSuite.

(** ** The URL builder *)

Section UrlBuilderFacts.
Import UrlBuilder.

Lemma fold_add_param_surviving (sp : SearchParams) (acc : Js.Obj string) :
  fold_left add_param sp acc = fold_left add_param (surviving sp) acc.
Proof.
  revert acc. induction sp as [|[k v] sp IH]; intros acc; [reflexivity|].
  cbn [fold_left surviving List.filter snd].
  destruct (kept v) eqn:Hk; cbn [fold_left].
  - apply IH.
  - rewrite IH. f_equal. unfold add_param. cbn [snd]. now rewrite Hk.
Qed.

Lemma filterParams_surviving (sp : SearchParams) :
  filterParams sp = filterParams (surviving sp).
Proof. apply fold_add_param_surviving. Qed.

Lemma surviving_params_mixed : surviving params_mixed = params_clean.
Proof. reflexivity. Qed.

(** An entry whose value is [undefined], [null] or [""] leaves
    [filteredParams] as it is. *)
Lemma add_param_dropped (acc : Js.Obj string) (k : string) (v : ParamValue) :
  v = PUndefined \/ v = PNull \/ v = PString "" ->
  add_param acc (k, v) = acc.
Proof. now intros [-> | [-> | ->]]. Qed.

Lemma filterParams_without (sp1 sp2 : SearchParams) (k : string) (v : ParamValue) :
  v = PUndefined \/ v = PNull \/ v = PString "" ->
  filterParams (sp1 ++ (k, v) :: sp2) = filterParams (sp1 ++ sp2).
Proof.
  intros Hv. unfold filterParams. rewrite !fold_left_app. cbn [fold_left].
  now rewrite add_param_dropped.
Qed.

Lemma filterParams_all_dropped (sp : SearchParams) :
  Forall (fun kv => kv.2 = PUndefined \/ kv.2 = PNull \/ kv.2 = PString "") sp ->
  filterParams sp = [].
Proof.
  unfold filterParams. induction 1 as [|[k v] sp Hv _ IH]; [reflexivity|].
  cbn [fold_left]. now rewrite add_param_dropped.
Qed.

End UrlBuilderFacts.

(** C9. [buildUrl] drops the search parameters whose value is
    [undefined], [null] or the empty string: such an entry, wherever it
    stands among the parameters, changes nothing in the URL that is
    built; so the record [{page:1, limit:undefined, active:true,
    filter:""}] gives the URL of [{page:1, active:true}], which is the
    trimmed path followed by [?page=1&active=true]; when every value is
    one of the three, the result is the trimmed path alone, without [?];
    and the values [0] and [false] are not dropped. *)
Theorem C9_buildUrl_drops_empty_params (endpoint : string) :
  (forall (sp1 sp2 : SearchParams) (k : string) (v : ParamValue),
     v = PUndefined \/ v = PNull \/ v = PString "" ->
     UrlBuilder.buildUrl endpoint (Some (sp1 ++ (k, v) :: sp2))
     = UrlBuilder.buildUrl endpoint (Some (sp1 ++ sp2)))
  /\ UrlBuilder.buildUrl endpoint (Some UrlBuilder.params_mixed)
       = UrlBuilder.buildUrl endpoint (Some UrlBuilder.params_clean)
  /\ UrlBuilder.buildUrl endpoint (Some UrlBuilder.params_clean)
       = Js.trim endpoint +:+ "?page=1&active=true"
  /\ (forall sp : SearchParams,
        Forall (fun kv => kv.2 = PUndefined \/ kv.2 = PNull \/ kv.2 = PString "") sp ->
        UrlBuilder.buildUrl endpoint (Some sp) = Js.trim endpoint)
  /\ UrlBuilder.buildUrl endpoint
       (Some [("page", PNumber 0); ("q", PNull); ("active", PBoolean false)])
     = Js.trim endpoint +:+ "?page=0&active=false".
Proof.
  split; [|split; [|split; [|split]]].
  - intros sp1 sp2 k v Hv. unfold UrlBuilder.buildUrl.
    now rewrite filterParams_without.
  - reflexivity.
  - reflexivity.
  - intros sp Hsp. unfold UrlBuilder.buildUrl.
    now rewrite filterParams_all_dropped.
  - reflexivity.
Qed.

Lemma C9_buildUrl_drops_empty_params_witness :
  UrlBuilder.buildUrl " /users " (Some [("limit", PUndefined); ("filter", PString "")])
  = "/users"
  /\ UrlBuilder.buildUrl "/users" (Some UrlBuilder.params_mixed)
     = "/users?page=1&active=true"
  /\ UrlBuilder.buildUrl "/users"
       (Some [("page", PNumber 1); ("limit", PNull); ("active", PBoolean true)])
     = "/users?page=1&active=true".
Proof.
  split; [|split].
  - destruct (C9_buildUrl_drops_empty_params " /users ") as (_ & _ & _ & H & _).
    etransitivity; [apply H|reflexivity].
    constructor; [cbn; auto|constructor; [cbn; auto|constructor]].
  - destruct (C9_buildUrl_drops_empty_params "/users") as (_ & H1 & H2 & _).
    etransitivity; [apply H1|]. etransitivity; [apply H2|reflexivity].
  - destruct (C9_buildUrl_drops_empty_params "/users") as (H & _).
    etransitivity;
      [apply (H [("page", PNumber 1)] [("active", PBoolean true)] "limit" PNull);
       auto|reflexivity].
Defined.

(** ** The constructor *)

Section ConstructorFacts.
Import Core.

Lemma new_Api_inr (t : Transport) (o : ApiConfig) (api : Api) :
  new_Api t o = inr api ->
  config api = default_config o
  /\ currentToken api = None
  /\ adapter (axiosInstance api) = t
  /\ interceptors (axiosInstance api) = enableAuth (config api).
Proof.
  unfold new_Api.
  destruct (flag (opt_enableAuth o) && _); [discriminate|].
  intros [= <-]. cbn.
  destruct (Js.nullish (opt_enableAuth o) true); cbn; auto.
Qed.

(** With [enableAuth: true] given and a hook missing, the constructor
    throws the fixed message. *)
Lemma new_Api_requires_hooks (t : Transport) (o : ApiConfig) :
  opt_enableAuth o = Some true ->
  opt_getSession o = None \/ opt_signOut o = None ->
  new_Api t o = inl (ThrownError config_error).
Proof.
  intros Ha Hh. unfold new_Api. rewrite Ha. cbn.
  destruct Hh as [-> | ->]; cbn; [reflexivity|].
  now rewrite orb_true_r.
Qed.

(** With [enableAuth: false] the constructor returns whatever else is
    given, and registers no interceptor. *)
Lemma new_Api_without_auth (t : Transport) (o : ApiConfig) :
  opt_enableAuth o = Some false ->
  exists api, new_Api t o = inr api
    /\ enableAuth (config api) = false
    /\ interceptors (axiosInstance api) = false.
Proof.
  intros Ha. unfold new_Api. rewrite Ha. cbn.
  eexists; split; [reflexivity|].
  unfold default_config. rewrite Ha. cbn. auto.
Qed.

End ConstructorFacts.

(** C5, at the input where the code departs from it: with [enableAuth]
    left out, and neither [getSession] nor [signOut] given, the constructor
    returns an instance; on that instance authentication is enabled (the
    default), the interceptors are registered, and the session provider is
    the built-in one that yields no session. *)
Theorem C5_constructor_accepts_omitted_enableAuth (t : Transport) :
  exists api,
    Core.new_Api t Scenario.minimalConfig = inr api
    /\ enableAuth (config api) = true
    /\ interceptors (axiosInstance api) = true
    /\ opt_getSession Scenario.minimalConfig = None
    /\ opt_signOut Scenario.minimalConfig = None
    /\ (forall n, getSession (config api) n = Fulfilled None).
Proof.
  eexists. split; [reflexivity|]. cbn. auto 6.
Qed.

(** ** The token cache *)

Section TokenCacheFacts.
Import Core.

Lemma truthy_nonempty (s : string) : Js.truthy s = true <-> s <> "".
Proof. destruct s; cbn; split; congruence. Qed.

Lemma getCurrentToken_disabled (m : Machine) :
  enableAuth (config (this m)) = false ->
  getCurrentToken m = (Ok None, m).
Proof.
  intros H. unfold getCurrentToken, bind, get_this. cbn. now rewrite H.
Qed.

Lemma getCurrentToken_cached (m : Machine) :
  enableAuth (config (this m)) = true ->
  has_token (currentToken (this m)) = true ->
  getCurrentToken m = (Ok (currentToken (this m)), m).
Proof.
  intros H Ht. unfold getCurrentToken, bind, get_this. cbn.
  now rewrite H, Ht.
Qed.

(** Without a usable cached token the provider is called once; what it
    settles to decides the result. *)
Lemma getCurrentToken_fetch (m : Machine) :
  enableAuth (config (this m)) = true ->
  has_token (currentToken (this m)) = false ->
  getCurrentToken m =
    match getSession (config (this m)) (calls is_getSession (trace m)) with
    | Fulfilled session =>
        match session_token session with
        | Some token => (Ok (Some token), after_caching token m)
        | None => (Ok None, after_getSession m)
        end
    | RejectedWith _ => (Ok None, after_getSession m)
    end.
Proof.
  intros H Ht.
  unfold getCurrentToken, bind, get_this, try_catch, call_getSession,
    bind, get_this, get_calls, emit, await, ret, throw. cbn.
  rewrite H, Ht. cbn.
  destruct (getSession _ _) as [session|reason]; cbn; [|reflexivity].
  unfold session_token.
  destruct session as [s|]; cbn; [|reflexivity].
  destruct (Js.truthy (accessToken s)) eqn:Hs; cbn; [|reflexivity].
  now rewrite Hs.
Qed.

(** [getCurrentToken] never rejects. *)
Lemma getCurrentToken_total (m : Machine) :
  exists token, (getCurrentToken m).1 = Ok token.
Proof.
  destruct (enableAuth (config (this m))) eqn:H.
  - destruct (has_token (currentToken (this m))) eqn:Ht.
    + rewrite getCurrentToken_cached by assumption. eauto.
    + rewrite getCurrentToken_fetch by assumption.
      destruct (getSession _ _) as [session|]; [|eauto].
      destruct (session_token session); eauto.
  - rewrite getCurrentToken_disabled by assumption. eauto.
Qed.

End TokenCacheFacts.

(** C7. [getCurrentToken]: with authentication disabled it resolves to
    [null] and calls nothing; with a token cached it returns that token
    and calls nothing; otherwise it calls the session provider once, and
    caches and returns a non-empty access token, or returns [null] with
    the cache left as it was when the provider gives no session, an empty
    token, or rejects.  In no case does it reject. *)
Theorem C7_getCurrentToken_cases (m : Machine) :
  (enableAuth (config (this m)) = false ->
     Core.getCurrentToken m = (Ok None, m))
  /\ (forall token,
       enableAuth (config (this m)) = true ->
       currentToken (this m) = Some token -> token <> "" ->
       Core.getCurrentToken m = (Ok (Some token), m))
  /\ (forall s,
       enableAuth (config (this m)) = true ->
       Core.has_token (currentToken (this m)) = false ->
       getSession (config (this m)) (calls is_getSession (trace m))
         = Fulfilled (Some s) ->
       accessToken s <> "" ->
       Core.getCurrentToken m
         = (Ok (Some (accessToken s)), after_caching (accessToken s) m))
  /\ (enableAuth (config (this m)) = true ->
      Core.has_token (currentToken (this m)) = false ->
      (getSession (config (this m)) (calls is_getSession (trace m))
         = Fulfilled None
       \/ getSession (config (this m)) (calls is_getSession (trace m))
            = Fulfilled (Some {| accessToken := "" |})
       \/ exists reason,
            getSession (config (this m)) (calls is_getSession (trace m))
              = RejectedWith reason) ->
      Core.getCurrentToken m = (Ok None, after_getSession m))
  /\ (exists token, (Core.getCurrentToken m).1 = Ok token).
Proof.
  repeat split.
  - apply getCurrentToken_disabled.
  - intros token Ha Hc Hne.
    rewrite getCurrentToken_cached; [now rewrite Hc|assumption|].
    rewrite Hc. cbn. now apply truthy_nonempty.
  - intros s Ha Hc Hs Hne.
    rewrite getCurrentToken_fetch, Hs by assumption. cbn.
    apply truthy_nonempty in Hne. now rewrite Hne.
  - intros Ha Hc Hs.
    rewrite getCurrentToken_fetch by assumption.
    destruct Hs as [-> | [-> | [reason ->]]]; reflexivity.
  - apply getCurrentToken_total.
Qed.

Lemma C7_getCurrentToken_cases_witness :
  exists api,
    Core.new_Api (Scenario.always 200) Scenario.baseConfig = inr api
    /\ Core.getCurrentToken (Core.start api)
       = (Ok (Some "fake-token"), after_caching "fake-token" (Core.start api)).
Proof.
  eexists. split; [reflexivity|].
  match goal with |- Core.getCurrentToken ?m = _ =>
    destruct (C7_getCurrentToken_cases m) as (_ & _ & H & _)
  end.
  apply (H {| accessToken := "fake-token" |}); [reflexivity..|discriminate].
Defined.

(** C10, as it holds.  [setToken("")] installs no cached token: the
    cache then fails the presence test, and the next [getCurrentToken]
    does what it does after [clearToken()], with the same result and the
    same calls; on an instance with authentication enabled that is one
    more call of the session provider, and on an instance with
    authentication disabled it is [null] without any call. *)
Theorem C10_setToken_empty_is_no_token (m : Machine) :
  let m' := (Core.setToken "" m).2 in
  Core.has_token (currentToken (this m')) = false
  /\ (Core.getCurrentToken m').1 = (Core.getCurrentToken (Core.clearToken m).2).1
  /\ trace (Core.getCurrentToken m').2
     = trace (Core.getCurrentToken (Core.clearToken m).2).2
  /\ (enableAuth (config (this m)) = true ->
      calls is_getSession (trace (Core.getCurrentToken m').2)
      = S (calls is_getSession (trace m)))
  /\ (enableAuth (config (this m)) = false ->
      Core.getCurrentToken m' = (Ok None, m')
      /\ calls is_getSession (trace (Core.getCurrentToken m').2)
         = calls is_getSession (trace m)).
Proof.
  intros m'. subst m'.
  split; [reflexivity|].
  destruct (enableAuth (config (this m))) eqn:Ha.
  - rewrite !getCurrentToken_fetch by (cbn; auto).
    cbn [Core.setToken Core.clearToken set_currentToken snd this trace config].
    destruct (getSession _ _) as [session|]; cbn; [|repeat split; discriminate].
    destruct (Core.session_token session); cbn; repeat split; discriminate.
  - rewrite !getCurrentToken_disabled by (cbn; auto).
    cbn. repeat split. discriminate.
Qed.

Lemma C10_setToken_empty_is_no_token_witness :
  exists api,
    Core.new_Api (Scenario.always 200) Scenario.baseConfig = inr api
    /\ calls is_getSession
         (trace (Core.getCurrentToken (Core.setToken "" (Core.start api)).2).2) = 1.
Proof.
  eexists. split; [reflexivity|].
  match goal with |- calls _ (trace (Core.getCurrentToken (Core.setToken "" ?m).2).2) = _ =>
    destruct (C10_setToken_empty_is_no_token m) as (_ & _ & _ & H & _)
  end.
  exact (H eq_refl).
Defined.

(** C10 as stated fails on an instance constructed with [enableAuth:
    false]: after [setToken("")] the next [getCurrentToken] resolves to
    [null] and the session provider is not called. *)
Lemma C10_counterexample :
  exists api,
    Core.new_Api (Scenario.always 200) Scenario.noAuthConfig = inr api
    /\ enableAuth (config api) = false
    /\ Core.getCurrentToken (Core.setToken "" (Core.start api)).2
       = (Ok None, (Core.setToken "" (Core.start api)).2)
    /\ calls is_getSession
         (trace (Core.getCurrentToken (Core.setToken "" (Core.start api)).2).2) = 0
    /\ calls is_getSession
         (trace (Core.getCurrentToken (Core.setToken "" (Core.start api)).2).2) <> 1.
Proof.
  eexists. split; [reflexivity|]. repeat split. cbn. lia.
Qed.

(** ** The service registry *)

Section RegistryFacts.
Import Core.


Lemma getServiceConfig_unregistered (name : string) (c : AxiosRequestConfig)
    (m : Machine) :
  Js.get name (services (config (this m))) = None ->
  Js.on_prototype name = false ->
  getServiceConfig name c m = (Throw (ThrownApiError (service_not_found name)), m).
Proof.
  intros H Hp. unfold getServiceConfig, bind, get_this.
  cbn -[Js.on_prototype]. now rewrite H, Hp.
Qed.

(** Under a name that [config.services] inherits from [Object.prototype]
    the lookup finds a value, and the request goes on without an endpoint
    of its own. *)
Lemma getServiceConfig_inherited (name : string) (c : AxiosRequestConfig)
    (m : Machine) :
  Js.get name (services (config (this m))) = None ->
  Js.on_prototype name = true ->
  getServiceConfig name c m
  = (Ok {| req_url := req_url c; req_method := req_method c;
           req_baseURL := None;
           req_headers := req_headers c; req_data := req_data c |}, m).
Proof.
  intros H Hp. unfold getServiceConfig, bind, get_this.
  cbn -[Js.on_prototype]. now rewrite H, Hp.
Qed.

(** The two seeded entries are always registered. *)
Lemma set_registers {V} (k : string) (v : V) (o : Js.Obj V) (k' : string) :
  Js.get k' o <> None -> Js.get k' (Js.set k v o) <> None.
Proof.
  induction o as [|[k0 v0] o IH]; cbn; [congruence|].
  destruct (String.eqb k k0) eqn:Hk; cbn;
    destruct (String.eqb k' k0); auto; congruence.
Qed.

Lemma spread_registers {V} (extra base : Js.Obj V) (k' : string) :
  Js.get k' base <> None -> Js.get k' (Js.spread base extra) <> None.
Proof.
  unfold Js.spread. revert base.
  induction extra as [|[k v] extra IH]; intros base H; cbn; [exact H|].
  apply IH. now apply set_registers.
Qed.

Lemma default_services_registered (o : ApiConfig) :
  Js.get "public" (services (default_config o)) <> None
  /\ Js.get "private" (services (default_config o)) <> None.
Proof. split; apply spread_registers; cbn; congruence. Qed.

End RegistryFacts.




(** ** Requests on an instance without interceptors *)

Section DirectDispatch.
Import Core.

Lemma dispatchRequest_eq (c : RetryableAxiosRequestConfig) (m : Machine) :
  Axios.dispatchRequest c m
  = (match Axios.settled c
             (adapter (axiosInstance (this m)) (calls is_transport (trace m)) c)
     with
     | inl r => Ok r
     | inr e => Throw (ThrownAxiosError e)
     end,
     after (CallTransport c) m).
Proof.
  unfold Axios.dispatchRequest, Axios.settle, bind, get_this, get_calls,
    emit, ret, throw. cbn.
  destruct (Axios.settled _ _); reflexivity.
Qed.

Lemma axios_without_interceptors (c : RetryableAxiosRequestConfig) (m : Machine) :
  interceptors (axiosInstance (this m)) = false ->
  axios c m = Axios.dispatchRequest (Axios.mergeConfig (axiosInstance (this m)) c) m.
Proof.
  intros H. unfold axios, bind, get_this. cbn. now rewrite H.
Qed.

(** The service lookup when no token is asked for. *)
Lemma getServiceConfig_plain (service_name : string) (sc : ServiceConfig)
    (c : AxiosRequestConfig) (m : Machine) :
  Js.get service_name (services (config (this m))) = Some sc ->
  flag (svc_enableAuth sc) && enableAuth (config (this m)) = false ->
  getServiceConfig service_name c m
  = (Ok {| req_url := req_url c; req_method := req_method c;
           req_baseURL := Some (url sc);
           req_headers := req_headers c; req_data := req_data c |}, m).
Proof.
  intros Hs Hf. unfold getServiceConfig, bind, get_this, ret. cbn.
  now rewrite Hs, Hf.
Qed.

Lemma executeRequest_without_interceptors (mt : HttpMethod) (u : string)
    (d : option string) (c : AxiosRequestConfig) (m : Machine) :
  interceptors (axiosInstance (this m)) = false ->
  exists sent,
    executeRequest mt u d c m
    = (unwrapped (Axios.settled sent
         (adapter (axiosInstance (this m)) (calls is_transport (trace m)) sent)),
       after (CallTransport sent) m).
Proof.
  intros H.
  destruct mt; unfold executeRequest, executeRequest_on, bind;
    rewrite axios_without_interceptors, dispatchRequest_eq by assumption;
    match goal with |- context [after (CallTransport ?s) m] => exists s end;
    destruct (Axios.settled _ _); reflexivity.
Qed.

End DirectDispatch.

(** C4. On an instance constructed with [enableAuth: false] no interceptor
    is registered, and a request to a registered service is one call of
    the transport and nothing else: no hook, no sign-out, no
    [onRequestError], no session lookup, no second attempt.  The caller
    gets the body of a 2xx response, and otherwise the error of the
    transport as axios raised it, whatever the status (401 and 5xx
    included). *)
Theorem C4_no_interceptors_without_auth (t : Transport) (o : ApiConfig)
    (api : Api) (rc : RequestConfig) (sc : ServiceConfig) (m : Machine) :
  Core.new_Api t o = inr api ->
  opt_enableAuth o = Some false ->
  state_of api m ->
  Js.get (Js.nullish (service rc) "private") (services (config api)) = Some sc ->
  interceptors (axiosInstance api) = false
  /\ exists sent,
       Core.request rc m
       = (unwrapped (Axios.settled sent (t (calls is_transport (trace m)) sent)),
          after (CallTransport sent) m).
Proof.
  intros Hnew Hoff [Hc Hi] Hsvc.
  destruct (new_Api_inr _ _ _ Hnew) as (Hcfg & _ & Had & Hint).
  assert (Hauth : enableAuth (config api) = false).
  { rewrite Hcfg. unfold Core.default_config. now rewrite Hoff. }
  rewrite Hauth in Hint. split; [exact Hint|].
  rewrite <- Hc in Hsvc, Hauth. rewrite <- Hi in Hint, Had.
  unfold Core.request, Core.request_on, bind.
  change (Core.executeRequest_on Core.axios) with Core.executeRequest.
  rewrite (getServiceConfig_plain _ sc) by
    (try assumption; rewrite Hauth; apply andb_false_r).
  destruct (executeRequest_without_interceptors (method rc)
              (UrlBuilder.buildUrl (endpoint rc) (searchParams rc)) (rc_data rc)
              {| req_url := req_url (Js.nullish (rc_config rc) Core.empty_config);
                 req_method := req_method (Js.nullish (rc_config rc) Core.empty_config);
                 req_baseURL := Some (url sc);
                 req_headers := req_headers (Js.nullish (rc_config rc) Core.empty_config);
                 req_data := req_data (Js.nullish (rc_config rc) Core.empty_config) |}
              m Hint) as [sent Hsent].
  exists sent. rewrite Hsent, Had. reflexivity.
Qed.

Lemma C4_no_interceptors_without_auth_witness :
  exists api sent e,
    Core.new_Api (Scenario.always 401) Scenario.noAuthConfig = inr api
    /\ Core.get "/private" None None None (Core.start api)
       = (Throw (ThrownAxiosError e), after (CallTransport sent) (Core.start api))
    /\ ae_response e = Some (Scenario.response 401 None).
Proof.
  eexists. 
  destruct (C4_no_interceptors_without_auth (Scenario.always 401)
              Scenario.noAuthConfig _
              {| endpoint := "/private"; method := GET; rc_data := None;
                 searchParams := None; service := None; rc_config := None |}
              {| url := "https://api.example.com"; svc_enableAuth := Some true |}
              (Core.start _) eq_refl eq_refl (conj eq_refl eq_refl) eq_refl)
    as (_ & sent & H).
  exists sent. eexists. split; [reflexivity|]. split; [exact H|reflexivity].
Defined.

(** ** Bookkeeping of calls *)

Section Bookkeeping.

Lemma delta_refl (m : Machine) : delta m m 0 0 0.
Proof. unfold delta. repeat split; lia. Qed.

Lemma delta_trans (m1 m2 m3 : Machine) (a b c a' b' c' : nat) :
  delta m1 m2 a b c -> delta m2 m3 a' b' c' ->
  delta m1 m3 (a + a') (b + b') (c + c').
Proof.
  unfold delta. intros (H1 & H2 & H3 & H4 & H5) (G1 & G2 & G3 & G4 & G5).
  repeat split; try congruence; lia.
Qed.

Lemma delta_after (e : Event) (m : Machine) :
  delta m (after e m)
    (if is_transport e then 1 else 0)
    (if is_signOut e then 1 else 0)
    (if is_onRequestError e then 1 else 0).
Proof. unfold delta, after. cbn. repeat split; lia. Qed.

Lemma delta_state_of (api : Api) (m m' : Machine) (a b c : nat) :
  state_of api m -> delta m m' a b c -> state_of api m'.
Proof.
  unfold state_of, delta. intros [H1 H2] (G1 & G2 & _). split; congruence.
Qed.

End Bookkeeping.

(** ** The collaborators, one call at a time *)

Section Calls.
Import Core.

Lemma call_onRequest_eq (c : AxiosRequestConfig) (m : Machine) :
  call_onRequest c m
  = (settle_hook (onRequest (config (this m)) c), after (CallOnRequest c) m).
Proof.
  unfold call_onRequest, bind, get_this, emit, ret, throw. cbn.
  destruct (onRequest _ _); reflexivity.
Qed.

Lemma call_onResponse_eq (r : AxiosResponse) (m : Machine) :
  call_onResponse r m
  = (settle_call (onResponse (config (this m)) r), after (CallOnResponse r) m).
Proof.
  unfold call_onResponse, bind, get_this, emit, await, ret, throw. cbn.
  destruct (onResponse _ _); reflexivity.
Qed.

Lemma notify_onResponse_eq (r : AxiosResponse) (m : Machine) :
  notify_onResponse r m = (Ok tt, after (CallOnResponse r) m).
Proof.
  unfold notify_onResponse, try_catch, bind. rewrite call_onResponse_eq.
  destruct (onResponse _ _); reflexivity.
Qed.

Lemma call_signOut_eq (m : Machine) :
  call_signOut m
  = (settle_call (signOut (config (this m)) (calls is_signOut (trace m))),
     after CallSignOut m).
Proof.
  unfold call_signOut, bind, get_this, get_calls, emit, await, ret, throw. cbn.
  destruct (signOut _ _); reflexivity.
Qed.

Lemma call_onRequestError_eq (e : ApiError) (m : Machine) :
  call_onRequestError e m
  = (settle_call (onRequestError (config (this m)) e),
     after (CallOnRequestError e) m).
Proof.
  unfold call_onRequestError, bind, get_this, emit, await, ret, throw. cbn.
  destruct (onRequestError _ _); reflexivity.
Qed.

Lemma response_fulfilled_eq (r : AxiosResponse) (m : Machine) :
  response_fulfilled r m
  = (settle_call (onResponse (config (this m)) r), after (CallOnResponse r) m).
Proof.
  unfold response_fulfilled, try_catch. rewrite call_onResponse_eq.
  destruct (onResponse _ _); reflexivity.
Qed.

(** [getCurrentToken] calls neither the transport, nor the sign-out
    handler, nor [onRequestError], and resolves. *)
Lemma getCurrentToken_delta (m : Machine) :
  exists token m',
    getCurrentToken m = (Ok token, m') /\ delta m m' 0 0 0.
Proof.
  destruct (enableAuth (config (this m))) eqn:H.
  - destruct (has_token (currentToken (this m))) eqn:Ht.
    + rewrite getCurrentToken_cached by assumption.
      eauto using delta_refl.
    + rewrite getCurrentToken_fetch by assumption.
      destruct (getSession _ _) as [session|];
        [destruct (session_token session)|];
        do 2 eexists; (split; [reflexivity|]);
        unfold delta; cbn; repeat split; lia.
  - rewrite getCurrentToken_disabled by assumption.
    eauto using delta_refl.
Qed.

End Calls.

(** ** The interceptors *)

Section Interceptors.
Import Core.

Lemma bind_ok {A B} (c : M A) (k : A -> M B) (m m' : Machine) (a : A) :
  c m = (Ok a, m') -> bind c k m = k a m'.
Proof. intros H. unfold bind. now rewrite H. Qed.

Lemma bind_throw {A B} (c : M A) (k : A -> M B) (m m' : Machine) (e : Thrown) :
  c m = (Throw e, m') -> bind c k m = (Throw e, m').
Proof. intros H. unfold bind. now rewrite H. Qed.

(** [try { c } catch (error) { return Promise.reject(error) }] is [c]. *)
Lemma try_rethrow {A} (c : M A) (m : Machine) :
  try_catch c (fun error => throw error) m = c m.
Proof. unfold try_catch, throw. now destruct (c m) as [[a|e|] m']. Qed.

(** The request interceptor calls the hook once; if the hook returns,
    the interceptor returns a request with the same retry counter, and
    if the hook throws, the interceptor rejects with what it threw. *)
Lemma request_interceptor_spec (c : RetryableAxiosRequestConfig) (m : Machine) :
  match onRequest (config (this m)) (axios_config c) with
  | Fulfilled _ =>
      exists ic m',
        request_interceptor c m = (Ok ic, m')
        /\ delta m m' 0 0 0
        /\ _retryCount ic = _retryCount c
  | RejectedWith error =>
      request_interceptor c m
      = (Throw error, after (CallOnRequest (axios_config c)) m)
  end.
Proof.
  unfold request_interceptor. rewrite try_rethrow.
  destruct (onRequest _ _) as [modified|reason] eqn:E.
  - erewrite bind_ok by (rewrite call_onRequest_eq, E; reflexivity).
    set (m1 := after (CallOnRequest (axios_config c)) m).
    assert (H1 : delta m m1 0 0 0) by apply (delta_after (CallOnRequest _)).
    unfold getServiceByUrl.
    erewrite bind_ok by (unfold bind, get_this, ret; reflexivity).
    destruct (getServiceByUrl_in _ _) as [sc|]; [|unfold ret; eauto 6].
    destruct (flag (svc_enableAuth sc)); [|unfold ret; eauto 6].
    destruct (getCurrentToken_delta m1) as (token & m2 & Ht & H2).
    erewrite bind_ok by exact Ht.
    pose proof (delta_trans _ _ _ _ _ _ _ _ _ H1 H2) as H.
    destruct token as [tk|]; [destruct (Js.truthy tk)|]; unfold ret; eauto 6.
  - erewrite bind_throw by (rewrite call_onRequest_eq, E; reflexivity).
    reflexivity.
Qed.

Lemma axios_request_round (fuel : nat) (c : RetryableAxiosRequestConfig)
    (m : Machine) :
  interceptors (axiosInstance (this m)) = true ->
  axios_request (S fuel) c m
  = match request_interceptor (Axios.mergeConfig (axiosInstance (this m)) c) m with
    | (Ok ic, m1) =>
        match Axios.settled ic
                (adapter (axiosInstance (this m1)) (calls is_transport (trace m1)) ic)
        with
        | inl r => response_fulfilled r (after (CallTransport ic) m1)
        | inr e =>
            response_rejected (axios_request fuel) (ThrownAxiosError e)
              (after (CallTransport ic) m1)
        end
    | (Throw e, m1) => response_rejected (axios_request fuel) e m1
    | (OutOfFuel, m1) => (OutOfFuel, m1)
    end.
Proof.
  intros H. cbn [axios_request]. unfold bind at 1, get_this at 1.
  rewrite H. unfold bind at 1, try_catch, bind at 1.
  destruct (request_interceptor _ m) as [[ic|e|] m1]; [|reflexivity..].
  unfold bind at 1. rewrite dispatchRequest_eq.
  destruct (Axios.settled _ _); reflexivity.
Qed.

Lemma axios_request_direct (fuel : nat) (c : RetryableAxiosRequestConfig)
    (m : Machine) :
  interceptors (axiosInstance (this m)) = false ->
  axios_request (S fuel) c m
  = Axios.dispatchRequest (Axios.mergeConfig (axiosInstance (this m)) c) m.
Proof.
  intros H. cbn [axios_request]. unfold bind at 1, get_this at 1. now rewrite H.
Qed.

(** The four ways of the error interceptor. *)
Lemma response_rejected_eq
    (again : RetryableAxiosRequestConfig -> M AxiosResponse)
    (error : Thrown) (m : Machine) :
  response_rejected again error m
  = match Axios.error_config error with
    | None =>
        (Throw error,
         after (CallOnResponse (responseForInterceptor error (shell 0 "No Response"))) m)
    | Some originalRequest =>
        if is_401 (Axios.error_response error) then
          match signOut (config (this m)) (calls is_signOut (trace m)) with
          | Fulfilled _ =>
              (Throw (ThrownApiError unauthorized),
               after (CallOnResponse
                        (responseForInterceptor error (shell 401 "Unauthorized")))
                 (after CallSignOut m))
          | RejectedWith reason =>
              (Throw (ThrownError reason), after CallSignOut m)
          end
        else if is_5xx (Axios.error_response error)
                && (retries originalRequest <? maxRetries (config (this m)))%nat
        then again (bump originalRequest)
               (after (Sleep (retryDelay (config (this m)))) m)
        else
          match onRequestError (config (this m)) (normalize error originalRequest) with
          | Fulfilled _ =>
              (Throw (ThrownApiError (normalize error originalRequest)),
               after (CallOnResponse
                        (responseForInterceptor error
                           (shell (Js.nullish (Axios.error_status error) 0%Z)
                              (Js.or_default (Some (Axios.error_message error))
                                 "Error"))))
                 (after (CallOnRequestError (normalize error originalRequest)) m))
          | RejectedWith reason =>
              (Throw (ThrownError reason),
               after (CallOnRequestError (normalize error originalRequest)) m)
          end
    end.
Proof.
  unfold response_rejected, bind at 1, get_this at 1.
  destruct (Axios.error_config error) as [oc|].
  - destruct (is_401 _).
    + unfold bind at 1. rewrite call_signOut_eq.
      destruct (signOut _ _); cbn [settle_call]; [|reflexivity].
      unfold bind. now rewrite notify_onResponse_eq.
    + fold (retries oc).
      destruct (is_5xx _ && _); [reflexivity|].
      unfold handleRequestError, bind at 1. rewrite call_onRequestError_eq.
      destruct (onRequestError _ _); cbn [settle_call]; [|reflexivity].
      unfold bind. now rewrite notify_onResponse_eq.
  - unfold bind. now rewrite notify_onResponse_eq.
Qed.

(** The error that [settle] raises carries the request it was given, or
    none. *)
Lemma settled_error (c : RetryableAxiosRequestConfig) (o : TransportOutcome)
    (e : AxiosError) :
  Axios.settled c o = inr e ->
  ae_config e = Some c \/ (ae_config e = None /\ ae_response e = None).
Proof.
  unfold Axios.settled.
  destruct o as [r|msg cd carries].
  - destruct (_ || _); intros [= <-]; cbn; auto.
  - intros [= <-]. cbn. destruct carries; auto.
Qed.

End Interceptors.

(** ** Counting the calls of one request *)

Section Tally.
Import Core.

Lemma retries_bump (c : RetryableAxiosRequestConfig) :
  retries (bump c) = retries c + 1.
Proof. reflexivity. Qed.

Lemma hook_plain_opaque (f : RequestInterceptor) : hook_plain f -> hook_opaque f.
Proof. intros H c t E. now destruct (H c t E) as (msg & ->). Qed.

Lemma hook_returns_opaque (f : RequestInterceptor) : hook_returns f -> hook_opaque f.
Proof. intros H c t E. destruct (H c) as (c' & Hc). congruence. Qed.

(** Whatever the collaborators do, as long as what the request hook
    throws carries no [config], one call of the axios instance makes at
    most [maxRetries - retries + 1] calls of the transport, at most one of
    the sign-out handler and at most one of [onRequestError], in
    accordance with its result when the hook throws plain errors only; and
    [maxRetries - retries + 1] rounds of fuel are enough. *)
Lemma axios_request_tally (fuel : nat) :
  forall (c : RetryableAxiosRequestConfig) (m : Machine),
  hook_opaque (onRequest (config (this m))) ->
  exists nt ns ne,
    delta m (axios_request fuel c m).2 nt ns ne
    /\ nt <= S (maxRetries (config (this m)) - retries c)
    /\ ns <= 1 /\ ne <= 1
    /\ (hook_plain (onRequest (config (this m))) ->
        verdict (axios_request fuel c m).1 ns ne)
    /\ (0 < fuel -> maxRetries (config (this m)) < fuel + retries c ->
        (axios_request fuel c m).1 <> OutOfFuel).
Proof.
  induction fuel as [|fuel IH]; intros c m Hopaque.
  { exists 0, 0, 0. cbn. split; [apply delta_refl|]. repeat split; lia. }
  destruct (interceptors (axiosInstance (this m))) eqn:Hint.
  2:{ rewrite axios_request_direct, dispatchRequest_eq by assumption.
      exists 1, 0, 0. cbn [fst snd].
      split; [apply (delta_after (CallTransport _))|].
      destruct (Axios.settled _ _); cbn; repeat split; try lia; discriminate. }
  rewrite axios_request_round by assumption.
  set (mc := Axios.mergeConfig (axiosInstance (this m)) c).
  assert (Hmc : retries mc = retries c) by reflexivity.
  pose proof (request_interceptor_spec mc m) as Hri.
  destruct (onRequest _ _) as [modified|reason] eqn:E.
  2:{ rewrite Hri, response_rejected_eq, (Hopaque _ _ E). cbn [fst snd].
      exists 0, 0, 0. split; [delta_tac|].
      do 3 (split; [lia|]). split; [|discriminate].
      intros Hplain. destruct (Hplain _ _ E) as (msg & ->).
      cbn. repeat split; lia. }
  destruct Hri as (ic & m1 & -> & H1 & Hrc).
  assert (Hic : retries ic = retries c).
  { unfold retries. now rewrite Hrc. }
  assert (Hcfg : config (this m1) = config (this m)) by apply H1.
  destruct (Axios.settled ic _) as [r|e] eqn:Hs.
  { rewrite response_fulfilled_eq. exists 1, 0, 0. cbn [fst snd].
    split; [delta_tac|].
    destruct (onResponse _ _); cbn; repeat split; try lia; discriminate. }
  rewrite response_rejected_eq. cbn [Axios.error_config Axios.error_response].
  destruct (settled_error _ _ _ Hs) as [Hc | [Hc Hr]]; rewrite Hc.
  2:{ exists 1, 0, 0. cbn [fst snd]. split; [delta_tac|].
      cbn. repeat split; try lia; discriminate. }
  destruct (is_401 (ae_response e)).
  { destruct (signOut _ _); exists 1, 1, 0; cbn [fst snd];
      (split; [delta_tac|]); cbn; repeat split; try lia; discriminate. }
  destruct (is_5xx (ae_response e) && _) eqn:Hretry.
  - apply andb_prop in Hretry as [_ Hlt]. apply Nat.ltb_lt in Hlt.
    cbn [this after config] in Hlt. rewrite Hcfg, Hic in Hlt.
    set (m2 := after (Sleep _) _).
    assert (Hcfg2 : config (this m2) = config (this m)) by exact Hcfg.
    destruct (IH (bump ic) m2) as (nt & ns & ne & Hd & Hnt & Hns & Hne & Hv & Hf);
      [now rewrite Hcfg2|].
    rewrite Hcfg2, retries_bump, Hic in Hnt, Hf. rewrite Hcfg2 in Hv.
    exists (1 + nt), ns, ne.
    split; [subst m2; delta_tac|].
    split; [lia|]. split; [exact Hns|]. split; [exact Hne|]. split; [exact Hv|].
    intros _ Hfuel. apply Hf; lia.
  - destruct (onRequestError _ _); exists 1, 0, 1; cbn [fst snd];
      (split; [delta_tac|]); cbn; repeat split; try lia; discriminate.
Qed.

(** A call of the instance that has its result within [fuel] rounds has
    the same result, and leaves the same state, with any larger number of
    rounds: it is the code that ends the retries, not the fuel. *)
Lemma axios_request_more_fuel (fuel : nat) :
  forall (c : RetryableAxiosRequestConfig) (m : Machine) (fuel' : nat),
  fuel <= fuel' ->
  (axios_request fuel c m).1 <> OutOfFuel ->
  axios_request fuel' c m = axios_request fuel c m.
Proof.
  induction fuel as [|fuel IH]; intros c m fuel' Hle Hres;
    [cbn in Hres; congruence|].
  destruct fuel' as [|fuel']; [lia|].
  destruct (interceptors (axiosInstance (this m))) eqn:Hint;
    [|now rewrite !axios_request_direct by assumption].
  revert Hres. rewrite !axios_request_round by assumption.
  assert (Hrej : forall e m1,
            (response_rejected (axios_request fuel) e m1).1 <> OutOfFuel ->
            response_rejected (axios_request fuel') e m1
            = response_rejected (axios_request fuel) e m1).
  { intros e m1. rewrite !response_rejected_eq.
    destruct (Axios.error_config e) as [oc|]; [|reflexivity].
    destruct (is_401 _); [reflexivity|].
    destruct (is_5xx _ && _); [|reflexivity].
    intros H. apply IH; [lia|exact H]. }
  destruct (request_interceptor _ m) as [[ic|e|] m1]; [|apply Hrej|reflexivity].
  destruct (Axios.settled ic _); [reflexivity|apply Hrej].
Qed.

End Tally.

Section RequestTally.
Import Core.

Lemma getServiceConfig_spec (service_name : string) (c : AxiosRequestConfig)
    (m : Machine) :
  match Js.get service_name (services (config (this m))) with
  | None =>
      if Js.on_prototype service_name
      then exists c', getServiceConfig service_name c m = (Ok c', m)
      else getServiceConfig service_name c m
           = (Throw (ThrownApiError (service_not_found service_name)), m)
  | Some sc =>
      exists c' m',
        getServiceConfig service_name c m = (Ok c', m')
        /\ delta m m' 0 0 0
        /\ req_baseURL c' = Some (url sc)
  end.
Proof.
  destruct (Js.get _ _) as [sc|] eqn:Hs.
  2:{ destruct (Js.on_prototype service_name) eqn:Hp;
        [|now apply getServiceConfig_unregistered].
      eexists. now apply getServiceConfig_inherited. }
  unfold getServiceConfig.
  erewrite bind_ok by (unfold get_this; reflexivity). rewrite Hs.
  destruct (flag (svc_enableAuth sc) && enableAuth (config (this m))).
  - destruct (getCurrentToken_delta m) as (token & m' & Ht & Hd).
    unfold bind at 1. unfold bind at 1. rewrite Ht.
    destruct token as [tk|]; [destruct (Js.truthy tk)|];
      unfold ret; cbn; eauto 6.
  - unfold bind, ret. cbn. eauto 6 using delta_refl.
Qed.

Lemma executeRequest_eq (mt : HttpMethod) (u : string) (d : option string)
    (c : AxiosRequestConfig) (m : Machine) :
  exists first,
    retries first = 0
    /\ executeRequest mt u d c m
       = data_of (axios_request (S (maxRetries (config (this m)))) first m).
Proof.
  destruct mt; unfold executeRequest, executeRequest_on, axios, bind, get_this, ret, data_of;
    match goal with
    | |- context [axios_request _ ?x m] => exists x
    end;
    (split; [reflexivity|]);
    destruct (axios_request _ _ m) as [[r|e|] m']; reflexivity.
Qed.

Lemma verdict_data_of (r : Result AxiosResponse * Machine) (ns ne : nat) :
  verdict r.1 ns ne -> verdict (data_of r).1 ns ne.
Proof. destruct r as [[r|e|] m]; exact id. Qed.

Lemma data_of_machine (r : Result AxiosResponse * Machine) : (data_of r).2 = r.2.
Proof. now destruct r as [[r|e|] m]. Qed.

Lemma data_of_fuel (r : Result AxiosResponse * Machine) :
  r.1 <> OutOfFuel -> (data_of r).1 <> OutOfFuel.
Proof. destruct r as [[r|e|] m]; cbn; congruence. Qed.

Lemma executeRequest_on_eq (mt : HttpMethod) (u : string) (d : option string)
    (c : AxiosRequestConfig) :
  exists first,
    retries first = 0
    /\ forall instance m,
         executeRequest_on instance mt u d c m = data_of (instance first m).
Proof.
  set (rq := {| axios_config := c; _retryCount := Some 0 |}).
  exists (match mt with
          | POST | PUT | PATCH => Axios.with_verb mt u d rq
          | DELETE | GET => Axios.with_verb mt u (req_data c) rq
          end).
  split; [now destruct mt|].
  intros instance m.
  destruct mt; unfold executeRequest_on, bind, ret, data_of; fold rq;
    destruct (instance _ m) as [[r|e|] m']; reflexivity.
Qed.

Lemma getServiceConfig_config (service_name : string) (c : AxiosRequestConfig)
    (m : Machine) :
  config (this (getServiceConfig service_name c m).2) = config (this m).
Proof.
  pose proof (getServiceConfig_spec service_name c m) as Hg.
  destruct (Js.get _ _) as [sc|].
  - destruct Hg as (c' & m1 & -> & H1 & _). apply H1.
  - destruct (Js.on_prototype service_name);
      [destruct Hg as (c' & ->)|rewrite Hg]; reflexivity.
Qed.

Lemma getServiceConfig_outcome (service_name : string) (c : AxiosRequestConfig)
    (m : Machine) :
  (exists c' m',
     getServiceConfig service_name c m = (Ok c', m') /\ delta m m' 0 0 0)
  \/ (exists e, getServiceConfig service_name c m = (Throw e, m)).
Proof.
  pose proof (getServiceConfig_spec service_name c m) as Hg.
  destruct (Js.get _ _) as [sc|].
  - destruct Hg as (c' & m1 & Hg & H1 & _). left. eauto.
  - destruct (Js.on_prototype service_name).
    + destruct Hg as (c' & Hg). left. eauto using delta_refl.
    + right. eauto.
Qed.

(** The rounds that [request] allows are those of [axios]. *)
Lemma request_fuel (rc : RequestConfig) (m : Machine) :
  request rc m = request_within (S (maxRetries (config (this m)))) rc m.
Proof.
  unfold request, request_within, request_on, bind.
  pose proof (getServiceConfig_config (Js.nullish (service rc) "private")
                (Js.nullish (rc_config rc) empty_config) m) as Hc.
  destruct (getServiceConfig _ _ m) as [[c'|e|] m1]; try reflexivity.
  cbn [snd] in Hc.
  destruct (executeRequest_on_eq (method rc)
              (UrlBuilder.buildUrl (endpoint rc) (searchParams rc))
              (rc_data rc) c') as (first & _ & He).
  rewrite !He. unfold axios, bind, get_this. now rewrite Hc.
Qed.

(** The calls of one request, whatever the collaborators do and however
    many rounds the instance may run: the bound on the calls of the
    transport comes from the retry counter, and [maxRetries + 1] rounds
    are enough for a result. *)
Lemma request_within_tally (fuel : nat) (rc : RequestConfig) (m : Machine) :
  hook_opaque (onRequest (config (this m))) ->
  exists nt ns ne,
    delta m (request_within fuel rc m).2 nt ns ne
    /\ nt <= S (maxRetries (config (this m)))
    /\ ns <= 1 /\ ne <= 1
    /\ (hook_plain (onRequest (config (this m))) ->
        verdict (request_within fuel rc m).1 ns ne)
    /\ (maxRetries (config (this m)) < fuel ->
        (request_within fuel rc m).1 <> OutOfFuel)
    /\ (Js.get (Js.nullish (service rc) "private") (services (config (this m))) = None ->
        Js.on_prototype (Js.nullish (service rc) "private") = false ->
        nt = 0 /\ ns = 0 /\ ne = 0).
Proof.
  intros Hopaque. unfold request_within, request_on.
  pose proof (getServiceConfig_spec (Js.nullish (service rc) "private")
                (Js.nullish (rc_config rc) empty_config) m) as Hg.
  assert (Hrun : forall c' m1,
            getServiceConfig (Js.nullish (service rc) "private")
              (Js.nullish (rc_config rc) empty_config) m = (Ok c', m1) ->
            delta m m1 0 0 0 ->
            exists nt ns ne,
              delta m (executeRequest_on (axios_request fuel) (method rc)
                         (UrlBuilder.buildUrl (endpoint rc) (searchParams rc))
                         (rc_data rc) c' m1).2 nt ns ne
              /\ nt <= S (maxRetries (config (this m)))
              /\ ns <= 1 /\ ne <= 1
              /\ (hook_plain (onRequest (config (this m))) ->
                  verdict (executeRequest_on (axios_request fuel) (method rc)
                             (UrlBuilder.buildUrl (endpoint rc) (searchParams rc))
                             (rc_data rc) c' m1).1 ns ne)
              /\ (maxRetries (config (this m)) < fuel ->
                  (executeRequest_on (axios_request fuel) (method rc)
                     (UrlBuilder.buildUrl (endpoint rc) (searchParams rc))
                     (rc_data rc) c' m1).1 <> OutOfFuel)).
  { intros c' m1 _ H1.
    destruct (executeRequest_on_eq (method rc)
                (UrlBuilder.buildUrl (endpoint rc) (searchParams rc))
                (rc_data rc) c') as (first & Hfirst & He).
    rewrite He.
    assert (Hcfg : config (this m1) = config (this m)) by apply H1.
    destruct (axios_request_tally fuel first m1)
      as (nt & ns & ne & Hd & Hnt & Hns & Hne & Hv & Hf); [now rewrite Hcfg|].
    rewrite Hfirst, Nat.sub_0_r, Hcfg in Hnt. rewrite Hfirst, Hcfg in Hf.
    rewrite Hcfg in Hv.
    exists nt, ns, ne. rewrite data_of_machine.
    split; [exact (delta_trans _ _ _ _ _ _ _ _ _ H1 Hd)|].
    do 3 (split; [assumption|]). split.
    - intros Hplain. now apply verdict_data_of, Hv.
    - intros Hfuel. apply data_of_fuel, Hf; lia. }
  destruct (Js.get _ _) as [sc|].
  - destruct Hg as (c' & m1 & Hg & H1 & _).
    erewrite bind_ok by exact Hg.
    destruct (Hrun c' m1 Hg H1) as (nt & ns & ne & Hd & Hnt & Hns & Hne & Hv & Hf).
    exists nt, ns, ne. do 6 (split; [assumption|]). discriminate.
  - destruct (Js.on_prototype _).
    + destruct Hg as (c' & Hg). erewrite bind_ok by exact Hg.
      destruct (Hrun c' m Hg (delta_refl m))
        as (nt & ns & ne & Hd & Hnt & Hns & Hne & Hv & Hf).
      exists nt, ns, ne. do 6 (split; [assumption|]). discriminate.
    + erewrite bind_throw by exact Hg.
      exists 0, 0, 0. cbn. split; [apply delta_refl|].
      repeat split; try lia; discriminate.
Qed.

(** The calls of one request, whatever the collaborators do, as long as
    what the request hook throws carries no [config]. *)
Lemma request_tally (rc : RequestConfig) (m : Machine) :
  hook_opaque (onRequest (config (this m))) ->
  exists nt ns ne,
    delta m (request rc m).2 nt ns ne
    /\ nt <= S (maxRetries (config (this m)))
    /\ ns <= 1 /\ ne <= 1
    /\ (hook_plain (onRequest (config (this m))) ->
        verdict (request rc m).1 ns ne)
    /\ (request rc m).1 <> OutOfFuel
    /\ (Js.get (Js.nullish (service rc) "private") (services (config (this m))) = None ->
        Js.on_prototype (Js.nullish (service rc) "private") = false ->
        nt = 0 /\ ns = 0 /\ ne = 0).
Proof.
  intros Hopaque. rewrite request_fuel.
  destruct (request_within_tally (S (maxRetries (config (this m)))) rc m Hopaque)
    as (nt & ns & ne & Hd & Hnt & Hns & Hne & Hv & Hf & Hnone).
  exists nt, ns, ne. do 5 (split; [assumption|]).
  split; [apply Hf; lia|exact Hnone].
Qed.

Lemma request_terminates (rc : RequestConfig) (m : Machine) :
  hook_opaque (onRequest (config (this m))) ->
  (request rc m).1 <> OutOfFuel.
Proof.
  intros Hopaque.
  destruct (request_tally rc m Hopaque) as (nt & ns & ne & _ & _ & _ & _ & _ & H & _).
  exact H.
Qed.

(** More rounds than [maxRetries + 1] change nothing in a request. *)
Lemma request_any_fuel (fuel : nat) (rc : RequestConfig) (m : Machine) :
  hook_opaque (onRequest (config (this m))) ->
  maxRetries (config (this m)) < fuel ->
  request_within fuel rc m = request rc m.
Proof.
  intros Hopaque Hfuel.
  pose proof (request_terminates rc m Hopaque) as Hres. revert Hres.
  rewrite request_fuel. unfold request_within, request_on, bind.
  pose proof (getServiceConfig_config (Js.nullish (service rc) "private")
                (Js.nullish (rc_config rc) empty_config) m) as Hc.
  destruct (getServiceConfig _ _ m) as [[c'|e|] m1]; try reflexivity.
  cbn [snd] in Hc.
  destruct (executeRequest_on_eq (method rc)
              (UrlBuilder.buildUrl (endpoint rc) (searchParams rc))
              (rc_data rc) c') as (first & _ & He).
  rewrite !He. intros Hres.
  rewrite (axios_request_more_fuel (S (maxRetries (config (this m)))) first m1 fuel);
    [reflexivity|lia|].
  intros H. apply Hres. unfold data_of.
  destruct (axios_request _ first m1) as [[r|e|] m2]; cbn in *; congruence.
Qed.

End RequestTally.

(** ** Rounds of the retry loop *)

Section Rounds.
Import Core.

Variable api : Api.
Hypothesis installed : interceptors (axiosInstance api) = true.
Hypothesis returns : hook_returns (onRequest (config api)).

(** The first half of a round: the request interceptor returns and the
    transport is called with its result. *)
Lemma round_start (fuel : nat) (c : RetryableAxiosRequestConfig) (m : Machine) :
  state_of api m ->
  exists ic m1,
    delta m m1 0 0 0
    /\ retries ic = retries c
    /\ axios_request (S fuel) c m
       = match Axios.settled ic
                 (adapter (axiosInstance api) (calls is_transport (trace m)) ic)
         with
         | inl r => response_fulfilled r (after (CallTransport ic) m1)
         | inr e =>
             response_rejected (axios_request fuel) (ThrownAxiosError e)
               (after (CallTransport ic) m1)
         end.
Proof.
  intros [Hc Hi].
  rewrite axios_request_round by (now rewrite Hi).
  pose proof (request_interceptor_spec
                (Axios.mergeConfig (axiosInstance (this m)) c) m) as Hri.
  destruct (returns (axios_config (Axios.mergeConfig (axiosInstance (this m)) c)))
    as [c' Hc'].
  rewrite Hc, Hc' in Hri. destruct Hri as (ic & m1 & -> & H1 & Hrc).
  exists ic, m1. split; [assumption|]. split.
  - unfold retries. now rewrite Hrc.
  - replace (axiosInstance (this m1)) with (axiosInstance api)
      by (destruct H1 as (_ & -> & _); now rewrite Hi).
    replace (calls is_transport (trace m1)) with (calls is_transport (trace m))
      by (destruct H1 as (_ & _ & -> & _); lia).
    reflexivity.
Qed.

Lemma rejects_5xx (ic : RetryableAxiosRequestConfig) (r : AxiosResponse) :
  (500 <= status r)%Z ->
  exists e,
    Axios.settled ic (Responded r) = inr e
    /\ ae_config e = Some ic /\ ae_response e = Some r
    /\ is_401 (Some r) = false /\ is_5xx (Some r) = true.
Proof.
  intros Hs. unfold Axios.settled, Axios.validateStatus.
  replace (status r <? 300)%Z with false by (symmetry; apply Z.ltb_ge; lia).
  replace (status r =? 0)%Z with false by (symmetry; apply Z.eqb_neq; lia).
  rewrite andb_false_r. eexists. split; [reflexivity|]. cbn.
  repeat split.
  - apply Z.eqb_neq. lia.
  - apply andb_true_intro. split.
    + apply negb_true_iff, Z.eqb_neq. lia.
    + apply Z.leb_le. lia.
Qed.

Lemma rejects_401 (ic : RetryableAxiosRequestConfig) (r : AxiosResponse) :
  status r = 401%Z ->
  exists e,
    Axios.settled ic (Responded r) = inr e
    /\ ae_config e = Some ic /\ ae_response e = Some r
    /\ is_401 (Some r) = true.
Proof.
  intros Hs. unfold Axios.settled, Axios.validateStatus. rewrite Hs. cbn.
  eexists. split; [reflexivity|]. cbn. rewrite Hs. auto.
Qed.

(** A round answered with 5xx while the budget lasts: one call of the
    transport, a pause, and the instance is called again with the
    counter one up. *)
Lemma round_retry (fuel : nat) (c : RetryableAxiosRequestConfig) (m : Machine) :
  state_of api m ->
  answers_5xx (adapter (axiosInstance api)) (calls is_transport (trace m)) ->
  retries c < maxRetries (config api) ->
  exists c2 m2,
    axios_request (S fuel) c m = axios_request fuel c2 m2
    /\ delta m m2 1 0 0
    /\ retries c2 = retries c + 1.
Proof.
  intros Hst H5 Hlt.
  destruct (round_start fuel c m Hst) as (ic & m1 & H1 & Hrc & ->).
  destruct (H5 ic) as (r & -> & Hs).
  destruct (rejects_5xx ic r Hs) as (e & -> & Hc & Hr & H401 & H5xx).
  rewrite response_rejected_eq. cbn [Axios.error_config Axios.error_response].
  rewrite Hc, Hr, H401, H5xx.
  replace (config (this (after (CallTransport ic) m1))) with (config api)
    by (cbn; destruct H1 as (-> & _); symmetry; apply Hst).
  replace (retries ic <? maxRetries (config api)) with true
    by (symmetry; apply Nat.ltb_lt; lia).
  cbn [andb]. do 2 eexists. split; [reflexivity|]. split.
  - delta_tac.
  - now rewrite retries_bump, Hrc.
Qed.

(** A round answered with 5xx when the budget is spent: one call of the
    transport, one of [onRequestError] with the normalized error, and
    that error for the caller unless the observer throws. *)
Lemma round_exhausted (fuel : nat) (c : RetryableAxiosRequestConfig) (m : Machine) :
  state_of api m ->
  answers_5xx (adapter (axiosInstance api)) (calls is_transport (trace m)) ->
  maxRetries (config api) <= retries c ->
  exists e s,
    normalized e /\ err_status e = Some s /\ (500 <= s)%Z
    /\ delta m (axios_request (S fuel) c m).2 1 0 1
    /\ (axios_request (S fuel) c m).1
       = match onRequestError (config api) e with
         | Fulfilled _ => Throw (ThrownApiError e)
         | RejectedWith reason => Throw (ThrownError reason)
         end.
Proof.
  intros Hst H5 Hge.
  destruct (round_start fuel c m Hst) as (ic & m1 & H1 & Hrc & ->).
  destruct (H5 ic) as (r & -> & Hs).
  destruct (rejects_5xx ic r Hs) as (e & -> & Hc & Hr & H401 & H5xx).
  rewrite response_rejected_eq. cbn [Axios.error_config Axios.error_response].
  rewrite Hc, Hr, H401, H5xx.
  replace (config (this (after (CallTransport ic) m1))) with (config api)
    by (cbn; destruct H1 as (-> & _); symmetry; apply Hst).
  replace (retries ic <? maxRetries (config api)) with false
    by (symmetry; apply Nat.ltb_ge; lia).
  cbn [andb].
  exists (normalize (ThrownAxiosError e) ic), (status r).
  split; [split; [reflexivity|discriminate]|].
  split; [cbn; now rewrite Hr|]. split; [assumption|].
  destruct (onRequestError _ _); cbn [fst snd]; (split; [delta_tac|reflexivity]).
Qed.

(** A round answered with 401: one call of the transport, one of the
    sign-out handler, then the response hook, and
    [AuthenticationError] for the caller unless sign-out rejects. *)
Lemma round_401 (fuel : nat) (c : RetryableAxiosRequestConfig) (m : Machine) :
  state_of api m ->
  answers_401 (adapter (axiosInstance api)) (calls is_transport (trace m)) ->
  exists ic r tr,
    status r = 401%Z
    /\ delta m (axios_request (S fuel) c m).2 1 1 0
    /\ match signOut (config api) (calls is_signOut (trace m)) with
       | Fulfilled _ =>
           (axios_request (S fuel) c m).1 = Throw (ThrownApiError unauthorized)
           /\ trace (axios_request (S fuel) c m).2
              = CallOnResponse r :: CallSignOut :: CallTransport ic :: tr
       | RejectedWith reason =>
           (axios_request (S fuel) c m).1 = Throw (ThrownError reason)
           /\ trace (axios_request (S fuel) c m).2
              = CallSignOut :: CallTransport ic :: tr
       end.
Proof.
  intros Hst H4.
  destruct (round_start fuel c m Hst) as (ic & m1 & H1 & Hrc & ->).
  destruct (H4 ic) as (r & -> & Hs).
  destruct (rejects_401 ic r Hs) as (e & -> & Hc & Hr & H401).
  rewrite response_rejected_eq. cbn [Axios.error_config Axios.error_response].
  rewrite Hc, Hr, H401.
  replace (config (this (after (CallTransport ic) m1))) with (config api)
    by (cbn; destruct H1 as (-> & _); symmetry; apply Hst).
  replace (calls is_signOut (trace (after (CallTransport ic) m1)))
    with (calls is_signOut (trace m))
    by (cbn; destruct H1 as (_ & _ & _ & -> & _); lia).
  exists ic, r, (trace m1). split; [assumption|].
  destruct (signOut _ _); cbn [fst snd]; (split; [delta_tac|]).
  - split; [reflexivity|]. unfold responseForInterceptor. cbn. now rewrite Hr.
  - split; reflexivity.
Qed.

(** The whole loop when every answer is 5xx: the budget is used up. *)
Lemma retry_until_exhausted (k : nat) :
  forall (fuel : nat) (c : RetryableAxiosRequestConfig) (m : Machine),
  state_of api m ->
  (forall n, answers_5xx (adapter (axiosInstance api)) n) ->
  maxRetries (config api) - retries c = k ->
  k < fuel ->
  exists e s,
    normalized e /\ err_status e = Some s /\ (500 <= s)%Z
    /\ delta m (axios_request fuel c m).2 (S k) 0 1
    /\ (axios_request fuel c m).1
       = match onRequestError (config api) e with
         | Fulfilled _ => Throw (ThrownApiError e)
         | RejectedWith reason => Throw (ThrownError reason)
         end.
Proof.
  induction k as [|k IH]; intros fuel c m Hst H5 Hk Hfuel;
    (destruct fuel as [|fuel]; [lia|]).
  - apply round_exhausted; auto. lia.
  - destruct (round_retry fuel c m Hst (H5 _)) as (c2 & m2 & -> & H2 & Hrc);
      [lia|].
    destruct (IH fuel c2 m2) as (e & s & Hn & He & Hs & Hd & Hr);
      eauto using delta_state_of; try lia.
    exists e, s. do 3 (split; [assumption|]). split; [|assumption].
    exact (delta_trans _ _ _ _ _ _ _ _ _ H2 Hd).
Qed.

(** The whole loop when [n] answers of 5xx are followed by a 401. *)
Lemma retry_until_401 (n : nat) :
  forall (fuel : nat) (c : RetryableAxiosRequestConfig) (m : Machine),
  state_of api m ->
  (forall i, i < n ->
     answers_5xx (adapter (axiosInstance api)) (calls is_transport (trace m) + i)) ->
  answers_401 (adapter (axiosInstance api)) (calls is_transport (trace m) + n) ->
  retries c + n <= maxRetries (config api) ->
  n < fuel ->
  exists ic r tr,
    status r = 401%Z
    /\ delta m (axios_request fuel c m).2 (S n) 1 0
    /\ match signOut (config api) (calls is_signOut (trace m)) with
       | Fulfilled _ =>
           (axios_request fuel c m).1 = Throw (ThrownApiError unauthorized)
           /\ trace (axios_request fuel c m).2
              = CallOnResponse r :: CallSignOut :: CallTransport ic :: tr
       | RejectedWith reason =>
           (axios_request fuel c m).1 = Throw (ThrownError reason)
           /\ trace (axios_request fuel c m).2
              = CallSignOut :: CallTransport ic :: tr
       end.
Proof.
  induction n as [|n IH]; intros fuel c m Hst H5 H4 Hn Hfuel;
    (destruct fuel as [|fuel]; [lia|]).
  - rewrite Nat.add_0_r in H4. now apply round_401.
  - destruct (round_retry fuel c m Hst) as (c2 & m2 & -> & H2 & Hrc);
      [rewrite <- (Nat.add_0_r (calls _ _)); apply H5; lia | lia |].
    assert (Ht : calls is_transport (trace m2) = calls is_transport (trace m) + 1)
      by apply H2.
    assert (Hs : calls is_signOut (trace m2) = calls is_signOut (trace m))
      by (destruct H2 as (_ & _ & _ & -> & _); lia).
    destruct (IH fuel c2 m2) as (ic & r & tr & Hr & Hd & Hres).
    + eauto using delta_state_of.
    + intros i Hi. rewrite Ht.
      replace (calls is_transport (trace m) + 1 + i)
        with (calls is_transport (trace m) + S i) by lia.
      apply H5. lia.
    + rewrite Ht.
      replace (calls is_transport (trace m) + 1 + n)
        with (calls is_transport (trace m) + S n) by lia.
      exact H4.
    + lia.
    + lia.
    + exists ic, r, tr. split; [assumption|]. split.
      * exact (delta_trans _ _ _ _ _ _ _ _ _ H2 Hd).
      * now rewrite <- Hs.
Qed.

End Rounds.

(** ** Whole requests *)

Section WholeRequests.
Import Core.

Lemma request_reaches_axios (rc : RequestConfig) (sc : ServiceConfig) (m : Machine) :
  Js.get (Js.nullish (service rc) "private") (services (config (this m))) = Some sc ->
  exists first m1,
    delta m m1 0 0 0
    /\ retries first = 0
    /\ request rc m
       = data_of (axios_request (S (maxRetries (config (this m)))) first m1).
Proof.
  intros Hs. unfold request, request_on.
  change (Core.executeRequest_on Core.axios) with Core.executeRequest.
  pose proof (getServiceConfig_spec (Js.nullish (service rc) "private")
                (Js.nullish (rc_config rc) empty_config) m) as Hg.
  rewrite Hs in Hg. destruct Hg as (c' & m1 & Hg & H1 & _).
  erewrite bind_ok by exact Hg.
  destruct (executeRequest_eq (method rc)
              (UrlBuilder.buildUrl (endpoint rc) (searchParams rc))
              (rc_data rc) c' m1) as (first & Hfirst & ->).
  exists first, m1. destruct H1 as (Hc & H1). rewrite Hc.
  repeat split; try assumption; apply H1.
Qed.

Lemma data_of_throw (r : Result AxiosResponse * Machine) (e : Thrown) :
  r.1 = Throw e -> (data_of r).1 = Throw e.
Proof. destruct r as [[r|e'|] m]; cbn; congruence. Qed.

Lemma data_of_observed (r : Result AxiosResponse * Machine)
    (s : Settled unit) (e : ApiError) :
  r.1 = match s with
        | Fulfilled _ => Throw (ThrownApiError e)
        | RejectedWith reason => Throw (ThrownError reason)
        end ->
  (data_of r).1 = observed s e.
Proof. destruct s; cbn; apply data_of_throw. Qed.

(** An instance constructed with authentication enabled has its
    interceptors. *)
Lemma new_Api_installs (t : Transport) (o : ApiConfig) (api : Api) :
  new_Api t o = inr api -> enableAuth (config api) = true ->
  interceptors (axiosInstance api) = true /\ adapter (axiosInstance api) = t.
Proof.
  intros Hnew Ha. destruct (new_Api_inr _ _ _ Hnew) as (_ & _ & Had & Hint).
  split; congruence.
Qed.

(** A request hook that throws the error of an HTTP call answered with
    5xx, each time a new one: the error handler takes it for the failure
    of the request and retries, with the counter of the thrown request,
    which starts anew each time.  Whatever the number of rounds, the
    instance has no result, pauses once a round, and never calls the
    transport. *)
Lemma hook_error_retried (api : Api) (t : Thrown)
    (oc : RetryableAxiosRequestConfig) (r : AxiosResponse) :
  interceptors (axiosInstance api) = true ->
  (forall c, onRequest (config api) c = RejectedWith t) ->
  Axios.error_config t = Some oc ->
  Axios.error_response t = Some r ->
  (500 <= status r)%Z ->
  retries oc < maxRetries (config api) ->
  forall (fuel : nat) (c : RetryableAxiosRequestConfig) (m : Machine),
  state_of api m ->
  (axios_request fuel c m).1 = OutOfFuel
  /\ calls is_transport (trace (axios_request fuel c m).2)
     = calls is_transport (trace m)
  /\ beat (trace (axios_request fuel c m).2)
     = replicate fuel (Paused (retryDelay (config api))) ++ beat (trace m).
Proof.
  intros Hint Hhook Hoc Hr H500 Hlt.
  induction fuel as [|fuel IH]; intros c m Hst; [now cbn|].
  destruct Hst as [Hc Hi].
  rewrite axios_request_round by (now rewrite Hi).
  pose proof (request_interceptor_spec
                (Axios.mergeConfig (axiosInstance (this m)) c) m) as Hri.
  rewrite Hc, Hhook in Hri. rewrite Hri, response_rejected_eq, Hoc, Hr.
  replace (is_401 (Some r)) with false
    by (symmetry; cbn; apply Z.eqb_neq; lia).
  replace (is_5xx (Some r)) with true
    by (symmetry; cbn; apply andb_true_intro; split;
        [apply negb_true_iff, Z.eqb_neq; lia|apply Z.leb_le; lia]).
  cbn [after this config andb]. rewrite Hc.
  replace (retries oc <? maxRetries (config api)) with true
    by (symmetry; apply Nat.ltb_lt; exact Hlt).
  match goal with |- context [axios_request fuel ?c2 ?m2] =>
    destruct (IH c2 m2) as (H1 & H2 & H3); [split; assumption|]
  end.
  rewrite H1, H2, H3. cbn [trace calls is_transport beat].
  repeat split. rewrite replicate_S_end, <- app_assoc. reflexivity.
Qed.

End WholeRequests.

(** C1, as it holds.  On an instance constructed with authentication
    enabled, for a request to a registered service whose request hook
    returns normally: if the transport answers every attempt with a status
    of 500 or more, the transport is called exactly [maxRetries + 1] times,
    [onRequestError] is called with the normalized [ApiError] of the last
    answer, and the caller gets that error (or what [onRequestError]
    throws).  And for every request on every instance, whatever the
    errors, as long as what the request hook throws carries no [config]
    (it is not the error of an HTTP call), the transport is called at most
    [maxRetries + 1] times and the request has a result.  None of this
    comes from the number of rounds given to the instance: with any number
    of rounds above [maxRetries] the request ends in the same way, in the
    same state. *)
Theorem C1_retries_until_budget_spent (t : Transport) (o : ApiConfig) (api : Api)
    (rc : RequestConfig) (sc : ServiceConfig) (m : Machine) :
  Core.new_Api t o = inr api ->
  enableAuth (config api) = true ->
  state_of api m ->
  Js.get (Js.nullish (service rc) "private") (services (config api)) = Some sc ->
  hook_returns (onRequest (config api)) ->
  (forall n, answers_5xx t n) ->
  calls is_transport (trace (Core.request rc m).2)
    = calls is_transport (trace m) + (maxRetries (config api) + 1)
  /\ (exists e s,
        (Core.request rc m).1 = observed (onRequestError (config api) e) e
        /\ normalized e /\ err_status e = Some s /\ (500 <= s)%Z)
  /\ (forall fuel rc' m',
        hook_opaque (onRequest (config (this m'))) ->
        maxRetries (config (this m')) < fuel ->
        Core.request_within fuel rc' m' = Core.request rc' m')
  /\ (forall rc' m',
        hook_opaque (onRequest (config (this m'))) ->
        calls is_transport (trace (Core.request rc' m').2)
          <= calls is_transport (trace m') + (maxRetries (config (this m')) + 1)
        /\ (Core.request rc' m').1 <> OutOfFuel).
Proof.
  intros Hnew Ha Hst Hsvc Hhook H5.
  destruct (new_Api_installs _ _ _ Hnew Ha) as [Hint Had].
  assert (Hbound : forall rc' m',
            hook_opaque (onRequest (config (this m'))) ->
            calls is_transport (trace (Core.request rc' m').2)
              <= calls is_transport (trace m') + (maxRetries (config (this m')) + 1)
            /\ (Core.request rc' m').1 <> OutOfFuel).
  { intros rc' m' Hopaque.
    destruct (request_tally rc' m' Hopaque)
      as (nt & ns & ne & Hd & Hnt & _ & _ & _ & Hf & _).
    destruct Hd as (_ & _ & -> & _). split; [lia|exact Hf]. }
  destruct Hst as [Hc Hi].
  rewrite <- Hc in Hsvc.
  destruct (request_reaches_axios rc sc m Hsvc) as (first & m1 & H1 & Hf & ->).
  rewrite Hc.
  rewrite <- Had in H5.
  destruct (retry_until_exhausted api Hint Hhook (maxRetries (config api))
              (S (maxRetries (config api))) first m1)
    as (e & s & Hn & Hs & H500 & Hd & Hr).
  { eapply delta_state_of; [split; eassumption|exact H1]. }
  { exact H5. }
  { rewrite Hf. lia. }
  { lia. }
  rewrite data_of_machine.
  split; [|split; [|split; [|exact Hbound]]].
  - destruct H1 as (_ & _ & H1 & _). destruct Hd as (_ & _ & -> & _). lia.
  - exists e, s. split; [|auto]. now apply data_of_observed.
  - intros fuel rc' m' Hopaque Hfuel. now apply request_any_fuel.
Qed.

Lemma C1_retries_until_budget_spent_witness :
  exists api,
    Core.new_Api (Scenario.always 500) Scenario.baseConfig = inr api
    /\ calls is_transport
         (trace (Core.get "/always-fails" None None None (Core.start api)).2) = 4.
Proof.
  eexists. split; [reflexivity|].
  refine (proj1 (C1_retries_until_budget_spent (Scenario.always 500)
            Scenario.baseConfig _
            {| endpoint := "/always-fails"; method := GET; rc_data := None;
               searchParams := None; service := None; rc_config := None |}
            {| url := "https://api.example.com"; svc_enableAuth := Some true |}
            (Core.start _) eq_refl eq_refl (conj eq_refl eq_refl) eq_refl _ _)).
  - intros c. eexists. reflexivity.
  - intros n c. eexists. split; [reflexivity|]. cbn. lia.
Defined.

(** C1 as stated fails on an instance constructed with [enableAuth:
    false]: with the default [maxRetries] of 3 and a transport that always
    answers 500, the transport is called once, not four times, and the
    caller gets the error of the transport, not an [ApiError].  And with
    authentication enabled but an [onRequestError] that throws, the
    transport is called four times and the caller gets what the observer
    threw.  And the retries are not bounded by [maxRetries] when the
    request hook throws the error of an HTTP call of its own that was
    answered with 500, a new error at every call: the error handler
    retries on that error, whose request has a counter of its own, so
    with any number of rounds the request has no result and pauses once a
    round, without a call of the transport. *)
Lemma C1_counterexample :
  (forall n, answers_5xx (Scenario.always 500) n)
  /\ (exists api e m',
        Core.new_Api (Scenario.always 500) Scenario.noAuthConfig = inr api
        /\ maxRetries (config api) = 3
        /\ Core.get "/always-fails" None None None (Core.start api)
           = (Throw (ThrownAxiosError e), m')
        /\ calls is_transport (trace m') = 1
        /\ calls is_transport (trace m') <> maxRetries (config api) + 1)
  /\ (exists api m',
        Core.new_Api (Scenario.always 500) Scenario.throwingObserverConfig = inr api
        /\ Core.get "/always-fails" None None None (Core.start api)
           = (Throw (ThrownError "observer failed"), m')
        /\ calls is_transport (trace m') = 4)
  /\ (exists api,
        Core.new_Api (Scenario.always 200) (Scenario.failingHookConfig 500) = inr api
        /\ maxRetries (config api) = 3
        /\ forall fuel,
             let r := Core.request_within fuel
                        {| endpoint := "/users"; method := GET; rc_data := None;
                           searchParams := None; service := None;
                           rc_config := None |} (Core.start api) in
             r.1 = OutOfFuel
             /\ calls is_transport (trace r.2) = 0
             /\ beat (trace r.2) = replicate fuel (Paused (retryDelay (config api)))).
Proof.
  split; [|split; [|split]].
  - intros n c. eexists. split; [reflexivity|]. cbn. lia.
  - do 3 eexists. split; [reflexivity|]. split; [reflexivity|].
    split; [vm_compute; reflexivity|]. split; [reflexivity|]. cbn. lia.
  - do 2 eexists. split; [reflexivity|].
    split; [vm_compute; reflexivity|]. reflexivity.
  - eexists. split; [reflexivity|]. split; [reflexivity|].
    intros fuel r. subst r. unfold Core.request_within, Core.request_on.
    erewrite bind_ok by (vm_compute; reflexivity).
    destruct (executeRequest_on_eq GET
                (UrlBuilder.buildUrl "/users" None) None
                {| req_url := None; req_method := None;
                   req_baseURL := Some "https://api.example.com";
                   req_headers := {[ "Authorization" := "Bearer fake-token" ]};
                   req_data := None |}) as (first & _ & He).
    match goal with |- context [Core.executeRequest_on _ _ _ _ ?c ?m1] =>
      destruct (hook_error_retried (this m1) (Scenario.hook_http_error 500)
                  {| axios_config :=
                       {| req_url := Some "/session"; req_method := Some GET;
                          req_baseURL := None; req_headers := ∅;
                          req_data := None |};
                     _retryCount := None |}
                  (Scenario.response 500 None)
                  eq_refl (fun _ => eq_refl) eq_refl eq_refl
                  ltac:(cbn; lia) ltac:(cbn; lia) fuel first m1
                  (conj eq_refl eq_refl)) as (H1 & H2 & H3)
    end.
    rewrite He, data_of_machine.
    split; [|split; [exact H2|rewrite H3; cbn; now rewrite app_nil_r]].
    unfold data_of. destruct (Core.axios_request fuel first _) as [[x|e|] m2];
      cbn in *; congruence.
Qed.

(** C2, as it holds.  On an instance constructed with authentication
    enabled, for a request to a registered service whose request hook
    returns normally: if [n] answers of 5xx ([n] within the retry budget,
    possibly none) are followed by an answer 401, that answer is the last
    one the transport gives ([n + 1] calls in all), the sign-out handler is
    called exactly once and [onRequestError] not at all; and when sign-out
    resolves, the calls end with the 401 answer, then sign-out, then the
    response hook, and the caller gets the [AuthenticationError], whose
    status is 401 and whose code is [AUTHENTICATION_ERROR]. *)
Theorem C2_unauthorized_signs_out_once (t : Transport) (o : ApiConfig) (api : Api)
    (rc : RequestConfig) (sc : ServiceConfig) (m : Machine) (n : nat) :
  Core.new_Api t o = inr api ->
  enableAuth (config api) = true ->
  state_of api m ->
  Js.get (Js.nullish (service rc) "private") (services (config api)) = Some sc ->
  hook_returns (onRequest (config api)) ->
  (forall i, i < n -> answers_5xx t (calls is_transport (trace m) + i)) ->
  answers_401 t (calls is_transport (trace m) + n) ->
  n <= maxRetries (config api) ->
  calls is_transport (trace (Core.request rc m).2)
    = calls is_transport (trace m) + (n + 1)
  /\ calls is_signOut (trace (Core.request rc m).2)
     = calls is_signOut (trace m) + 1
  /\ calls is_onRequestError (trace (Core.request rc m).2)
     = calls is_onRequestError (trace m)
  /\ (signOut (config api) (calls is_signOut (trace m)) = Fulfilled tt ->
      (Core.request rc m).1 = Throw (ThrownApiError Core.unauthorized)
      /\ name Core.unauthorized = "AuthenticationError"
      /\ err_status Core.unauthorized = Some 401%Z
      /\ code Core.unauthorized = Some "AUTHENTICATION_ERROR"
      /\ exists sent r earlier,
           status r = 401%Z
           /\ trace (Core.request rc m).2
              = CallOnResponse r :: CallSignOut :: CallTransport sent :: earlier).
Proof.
  intros Hnew Ha Hst Hsvc Hhook H5 H4 Hn.
  destruct (new_Api_installs _ _ _ Hnew Ha) as [Hint Had].
  destruct Hst as [Hc Hi].
  rewrite <- Hc in Hsvc.
  destruct (request_reaches_axios rc sc m Hsvc) as (first & m1 & H1 & Hf & ->).
  rewrite Hc. rewrite <- Had in H5, H4.
  assert (Ht1 : calls is_transport (trace m1) = calls is_transport (trace m))
    by (destruct H1 as (_ & _ & -> & _); lia).
  assert (Hs1 : calls is_signOut (trace m1) = calls is_signOut (trace m))
    by (destruct H1 as (_ & _ & _ & -> & _); lia).
  assert (He1 : calls is_onRequestError (trace m1) = calls is_onRequestError (trace m))
    by (destruct H1 as (_ & _ & _ & _ & ->); lia).
  destruct (retry_until_401 api Hint Hhook n (S (maxRetries (config api))) first m1)
    as (ic & r & tr & Hr & Hd & Hres).
  { eapply delta_state_of; [split; eassumption|exact H1]. }
  { intros i Hi'. rewrite Ht1. now apply H5. }
  { now rewrite Ht1. }
  { rewrite Hf. lia. }
  { lia. }
  rewrite data_of_machine.
  destruct Hd as (_ & _ & Hdt & Hds & Hde).
  split; [lia|]. split; [lia|]. split; [lia|].
  intros Hso. rewrite Hs1, Hso in Hres. destruct Hres as [Hres Htr].
  split; [now apply data_of_throw|].
  do 3 (split; [reflexivity|]).
  exists ic, r, tr. auto.
Qed.

Lemma C2_unauthorized_signs_out_once_witness :
  exists api,
    Core.new_Api (Scenario.after_500s 2 401) Scenario.baseConfig = inr api
    /\ calls is_transport
         (trace (Core.get "/private" None None None (Core.start api)).2) = 3
    /\ calls is_signOut
         (trace (Core.get "/private" None None None (Core.start api)).2) = 1.
Proof.
  eexists. split; [reflexivity|].
  destruct (C2_unauthorized_signs_out_once (Scenario.after_500s 2 401)
              Scenario.baseConfig _
              {| endpoint := "/private"; method := GET; rc_data := None;
                 searchParams := None; service := None; rc_config := None |}
              {| url := "https://api.example.com"; svc_enableAuth := Some true |}
              (Core.start _) 2 eq_refl eq_refl (conj eq_refl eq_refl) eq_refl)
    as (Ht & Hs & _).
  - intros c. eexists. reflexivity.
  - intros i Hi c. eexists. split; [reflexivity|].
    cbn. destruct i as [|[|i]]; cbn; lia.
  - intros c. eexists. split; reflexivity.
  - cbn. lia.
  - split; [exact Ht|exact Hs].
Defined.

(** C2 as stated fails on an instance constructed with [enableAuth:
    false]: an answer 401 calls no sign-out handler and reaches the caller
    as the error of the transport, not as an [AuthenticationError].  And
    with authentication enabled but a sign-out handler that rejects, the
    caller gets that rejection. *)
Lemma C2_counterexample :
  answers_401 (Scenario.always 401) 0
  /\ (exists api e m',
        Core.new_Api (Scenario.always 401) Scenario.noAuthConfig = inr api
        /\ Core.get "/private" None None None (Core.start api)
           = (Throw (ThrownAxiosError e), m')
        /\ ae_status e = Some 401%Z
        /\ calls is_signOut (trace m') = 0)
  /\ (exists api m',
        Core.new_Api (Scenario.always 401) Scenario.rejectingSignOutConfig = inr api
        /\ Core.get "/private" None None None (Core.start api)
           = (Throw (ThrownError "sign-out failed"), m')
        /\ calls is_signOut (trace m') = 1).
Proof.
  split; [|split].
  - intros c. eexists. split; reflexivity.
  - do 3 eexists. split; [reflexivity|].
    split; [vm_compute; reflexivity|]. split; reflexivity.
  - do 2 eexists. split; [reflexivity|].
    split; [vm_compute; reflexivity|]. reflexivity.
Qed.

(** The calls of [onRequestError] (the request hook throwing plain
    errors only).  A request calls it at most once: exactly once when it
    ends with an error made by [createApiError] (the normalized failure),
    and not at all when it succeeds, when the service is not found, or
    when the error of the transport is handed on as it is. *)
Lemma onRequestError_tally (rc : RequestConfig) (m : Machine) :
  hook_plain (onRequest (config (this m))) ->
  exists ne,
    calls is_onRequestError (trace (Core.request rc m).2)
      = calls is_onRequestError (trace m) + ne
    /\ ne <= 1
    /\ (forall e, (Core.request rc m).1 = Throw (ThrownApiError e) ->
                  normalized e -> ne = 1)
    /\ (forall d, (Core.request rc m).1 = Ok d -> ne = 0)
    /\ (Js.get (Js.nullish (service rc) "private") (services (config (this m))) = None ->
        Js.on_prototype (Js.nullish (service rc) "private") = false ->
        ne = 0)
    /\ (forall e, (Core.request rc m).1 = Throw (ThrownAxiosError e) -> ne = 0)
    /\ ((Core.request rc m).1 = Throw (ThrownApiError Core.unauthorized) -> ne = 0).
Proof.
  intros Hplain.
  destruct (request_tally rc m (hook_plain_opaque _ Hplain))
    as (nt & ns & ne & Hd & _ & _ & Hne & Hv & _ & Hnf).
  specialize (Hv Hplain).
  exists ne. destruct Hd as (_ & _ & _ & _ & Hde).
  split; [exact Hde|]. split; [exact Hne|].
  repeat split.
  - intros e He [Hname Hctx]. rewrite He in Hv. cbn in Hv.
    rewrite Hname in Hv. cbn in Hv.
    destruct (context e); [apply Hv|congruence].
  - intros d Hok. rewrite Hok in Hv. apply Hv.
  - intros Hnone Hp. now apply Hnf.
  - intros e He. rewrite He in Hv. apply Hv.
  - intros He. rewrite He in Hv. apply Hv.
Qed.

(** C6, at the input where the code departs from it.  The instance is
    constructed with authentication enabled, so it has its interceptors,
    and the transport answers 401.  The request ends in failure: the
    sign-out handler is called and the caller gets the
    [AuthenticationError]; [onRequestError] is not called, neither with
    that error nor with any other. *)
Theorem C6_unauthorized_failure_skips_onRequestError :
  exists api m',
    Core.new_Api (Scenario.always 401) Scenario.baseConfig = inr api
    /\ enableAuth (config api) = true
    /\ interceptors (axiosInstance api) = true
    /\ Core.get "/private" None None None (Core.start api)
       = (Throw (ThrownApiError Core.unauthorized), m')
    /\ name Core.unauthorized = "AuthenticationError"
    /\ calls is_transport (trace m') = 1
    /\ calls is_signOut (trace m') = 1
    /\ calls is_onRequestError (trace m') = 0.
Proof.
  do 2 eexists. split; [reflexivity|].
  do 2 (split; [reflexivity|]).
  split; [vm_compute; reflexivity|].
  repeat split.
Qed.

(** ** The [Authorization] header *)

Section Authorization.
Import Core.

(** The lookup by name honours the flag of the service that was asked
    for: [getServiceConfig] leaves the headers alone unless that service
    and the instance both have authentication enabled, and what it adds
    then is [Bearer <token>] for a non-empty token. *)
Lemma getServiceConfig_authorization (service_name : string) (sc : ServiceConfig)
    (c c' : AxiosRequestConfig) (m m' : Machine) :
  Js.get service_name (services (config (this m))) = Some sc ->
  getServiceConfig service_name c m = (Ok c', m') ->
  req_headers c' = req_headers c
  \/ (flag (svc_enableAuth sc) = true
      /\ enableAuth (config (this m)) = true
      /\ exists token,
           token <> ""
           /\ req_headers c' = <[ "Authorization" := bearer token ]> (req_headers c)).
Proof.
  intros Hs. unfold getServiceConfig.
  erewrite bind_ok by (unfold get_this; reflexivity). rewrite Hs.
  destruct (flag (svc_enableAuth sc)) eqn:Hf;
    [destruct (enableAuth (config (this m))) eqn:Ha|]; cbn [andb].
  - destruct (getCurrentToken_delta m) as (token & m1 & Ht & _).
    unfold bind at 1. unfold bind at 1. rewrite Ht.
    destruct token as [tk|]; [destruct (Js.truthy tk) eqn:Htk|];
      unfold ret; intros [= <- <-]; cbn; auto.
    right. repeat split. exists tk. split; [|reflexivity].
    now apply truthy_nonempty.
  - unfold bind, ret. intros [= <- <-]. cbn. auto.
  - unfold bind, ret. intros [= <- <-]. cbn. auto.
Qed.

(** The request interceptor looks the service up by endpoint: it adds the
    header when the first registered service with the endpoint of the
    request has authentication enabled, whichever service was asked for. *)
Lemma request_interceptor_authorization (c ic : RetryableAxiosRequestConfig)
    (modified : AxiosRequestConfig) (m m' : Machine) :
  onRequest (config (this m)) (axios_config c) = Fulfilled modified ->
  request_interceptor c m = (Ok ic, m') ->
  ic = merge_modified c modified
  \/ (exists sc token,
        getServiceByUrl_in (services (config (this m)))
          (req_baseURL (axios_config (merge_modified c modified))) = Some sc
        /\ flag (svc_enableAuth sc) = true
        /\ enableAuth (config (this m)) = true
        /\ token <> ""
        /\ ic = with_headers (merge_modified c modified)
                  (<[ "Authorization" := bearer token ]>
                     (req_headers (axios_config (merge_modified c modified))))).
Proof.
  intros Hhook. unfold request_interceptor. rewrite try_rethrow.
  erewrite bind_ok by (rewrite call_onRequest_eq, Hhook; reflexivity).
  unfold getServiceByUrl.
  erewrite bind_ok by (unfold bind, get_this, ret; reflexivity).
  cbn [after this config].
  destruct (getServiceByUrl_in _ _) as [sc|] eqn:Hsc;
    [|unfold ret; intros [= <- <-]; auto].
  destruct (flag (svc_enableAuth sc)) eqn:Hf;
    [|unfold ret; intros [= <- <-]; auto].
  set (m1 := after _ m).
  destruct (enableAuth (config (this m))) eqn:Ha.
  - destruct (getCurrentToken_delta m1) as (token & m2 & Ht & _).
    erewrite bind_ok by exact Ht.
    destruct token as [tk|]; [destruct (Js.truthy tk) eqn:Htk|];
      unfold ret; intros [= <- <-]; auto.
    right. exists sc, tk. repeat split; auto. now apply truthy_nonempty.
  - erewrite bind_ok by (apply getCurrentToken_disabled; exact Ha).
    unfold ret. intros [= <- <-]. auto.
Qed.

End Authorization.

(** C3, at the input where the code departs from it.  Three services are
    registered; [service_1] has [enableAuth: false] and the endpoint of
    [private], which has [enableAuth: true].  A token is cached.  A GET to
    [service_1] succeeds, and the one request handed to the transport
    carries [Authorization: Bearer cached-token]: the request interceptor
    looks the service up by endpoint and finds [private] first. *)
Theorem C3_token_sent_to_service_without_auth :
  exists api m',
    Core.new_Api (Scenario.always 200) Scenario.sharedUrlConfig = inr api
    /\ enableAuth (config api) = true
    /\ Js.get "service_1" (services (config api))
       = Some {| url := "https://private.api.com"; svc_enableAuth := Some false |}
    /\ Core.getServiceByUrl_in (services (config api)) (Some "https://private.api.com")
       = Some {| url := "https://private.api.com"; svc_enableAuth := Some true |}
    /\ (Core.setToken "cached-token" ;;;
        Core.get "/data" None (Some "service_1") None) (Core.start api)
       = (Ok None, m')
    /\ Scenario.authorizations (trace m') = [Some "Bearer cached-token"].
Proof.
  do 2 eexists. split; [reflexivity|].
  do 3 (split; [reflexivity|]).
  split; [vm_compute; reflexivity|]. vm_compute. reflexivity.
Qed.

(* ================================================================== *)
(** * Further properties of the code *)
(* ================================================================== *)

(** ** Objects in property order *)

Section Objects.

Lemma get_set_same {V} (k : string) (v : V) (o : Js.Obj V) :
  Js.get k (Js.set k v o) = Some v.
Proof.
  induction o as [|[k0 v0] o IH]; cbn.
  - now rewrite String.eqb_refl.
  - destruct (String.eqb k k0) eqn:E; cbn; rewrite E; auto.
Qed.

Lemma get_set_other {V} (k k' : string) (v : V) (o : Js.Obj V) :
  k' <> k -> Js.get k' (Js.set k v o) = Js.get k' o.
Proof.
  intros Hne. induction o as [|[k0 v0] o IH]; cbn.
  - apply String.eqb_neq in Hne. now rewrite Hne.
  - destruct (String.eqb k k0) eqn:E; cbn.
    + apply String.eqb_eq in E. subst k0.
      apply String.eqb_neq in Hne. now rewrite Hne.
    + destruct (String.eqb k' k0); auto.
Qed.

Lemma get_absent {V} (k : string) (o : Js.Obj V) :
  k ∉ keys o -> Js.get k o = None.
Proof.
  induction o as [|[k0 v0] o IH]; cbn; [reflexivity|].
  intros Hn. apply not_elem_of_cons in Hn as [Hne Hn].
  apply String.eqb_neq in Hne. rewrite Hne. auto.
Qed.

Lemma get_spread {V} (extra base : Js.Obj V) (k : string) :
  NoDup (keys extra) ->
  Js.get k (Js.spread base extra) = Js.override (Js.get k extra) (Js.get k base).
Proof.
  unfold Js.spread. revert base.
  induction extra as [|[k0 v0] extra IH]; intros base Hnd; cbn; [reflexivity|].
  apply NoDup_cons in Hnd as [Hk0 Hnd].
  rewrite IH by assumption.
  destruct (String.eqb k k0) eqn:E.
  - apply String.eqb_eq in E. subst k0.
    rewrite (get_absent k extra Hk0). cbn. apply get_set_same.
  - apply String.eqb_neq in E. now rewrite get_set_other.
Qed.

Lemma set_fresh {V} (k : string) (v : V) (o : Js.Obj V) :
  k ∉ keys o -> Js.set k v o = o ++ [(k, v)].
Proof.
  induction o as [|[k0 v0] o IH]; cbn; [reflexivity|].
  intros Hn. apply not_elem_of_cons in Hn as [Hne Hn].
  apply String.eqb_neq in Hne. rewrite Hne. now rewrite IH.
Qed.

End Objects.

(** X1. The services of a new instance: under each name the entry the
    caller gave, whole (its [enableAuth] as given, also when left out),
    and where the caller gave none, the seeded entry for [public] and
    [private] and nothing for any other name. *)
Theorem X1_services_caller_entries_win (o : ApiConfig) (service_name : string) :
  NoDup (keys (Js.nullish (opt_services o) [])) ->
  Js.get service_name (services (Core.default_config o))
  = Js.override
      (Js.get service_name (Js.nullish (opt_services o) []))
      (Js.get service_name
         [("public", {| url := opt_baseUrl o; svc_enableAuth := Some false |});
          ("private", {| url := opt_baseUrl o; svc_enableAuth := Some true |})]).
Proof. intros Hnd. cbn [Core.default_config services]. now apply get_spread. Qed.

Lemma X1_services_caller_entries_win_witness :
  Js.get "private"
    (services (Core.default_config
       (Scenario.options (Some true)
          (Some [("private", {| url := "https://p.example.com"; svc_enableAuth := None |})])
          None None)))
  = Some {| url := "https://p.example.com"; svc_enableAuth := None |}.
Proof.
  etransitivity; [apply X1_services_caller_entries_win|reflexivity].
  cbn. apply NoDup_singleton.
Defined.

(** X2. On every instance the constructor returns, [public] and [private]
    are registered, whatever services the caller configured. *)
Theorem X2_seeded_services_always_registered (t : Transport) (o : ApiConfig)
    (api : Api) :
  Core.new_Api t o = inr api ->
  (exists sc, Js.get "public" (services (config api)) = Some sc)
  /\ (exists sc, Js.get "private" (services (config api)) = Some sc).
Proof.
  intros Hnew. destruct (new_Api_inr _ _ _ Hnew) as (-> & _).
  destruct (default_services_registered o) as [Hp Hq].
  split.
  - destruct (Js.get "public" _); [eauto|congruence].
  - destruct (Js.get "private" _); [eauto|congruence].
Qed.

Lemma X2_seeded_services_always_registered_witness :
  exists api sc,
    Core.new_Api (Scenario.always 200) Scenario.sharedUrlConfig = inr api
    /\ Js.get "public" (services (config api)) = Some sc.
Proof.
  eexists.
  destruct (X2_seeded_services_always_registered (Scenario.always 200)
              Scenario.sharedUrlConfig _ eq_refl) as [[sc H] _].
  exists sc. split; [reflexivity|exact H].
Defined.

(** ** The reverse lookup of services *)

Section ReverseLookup.
Import Core.

Lemma getServiceByUrl_in_cons (k : string) (sc : ServiceConfig)
    (svcs : Js.Obj ServiceConfig) (u : string) :
  getServiceByUrl_in ((k, sc) :: svcs) (Some u)
  = if String.eqb (url sc) u then Some sc else getServiceByUrl_in svcs (Some u).
Proof. unfold getServiceByUrl_in. cbn. now destruct (String.eqb (url sc) u). Qed.

Lemma getServiceByUrl_in_first (svcs : Js.Obj ServiceConfig) (u : string)
    (sc : ServiceConfig) :
  getServiceByUrl_in svcs (Some u) = Some sc <->
  exists before k after,
    svcs = before ++ (k, sc) :: after
    /\ url sc = u
    /\ Forall (fun kv => url kv.2 <> u) before.
Proof.
  induction svcs as [|[k0 sc0] svcs IH].
  - split; [discriminate|]. intros (before & k & after & H & _).
    now destruct before.
  - rewrite getServiceByUrl_in_cons.
    destruct (String.eqb (url sc0) u) eqn:E.
    + apply String.eqb_eq in E. split.
      * intros [= <-]. exists [], k0, svcs. auto.
      * intros (before & k & after & H & Hu & Hb).
        destruct before as [|[k1 sc1] before]; cbn in H.
        -- now injection H as _ <- _.
        -- injection H as -> -> _. apply Forall_cons in Hb as [Hb _].
           cbn in Hb. congruence.
    + apply String.eqb_neq in E. rewrite IH. split.
      * intros (before & k & after & -> & Hu & Hb).
        exists ((k0, sc0) :: before), k, after. repeat split; auto.
      * intros (before & k & after & H & Hu & Hb).
        destruct before as [|[k1 sc1] before]; cbn in H.
        -- injection H as _ <- _. congruence.
        -- injection H as _ _ ->. apply Forall_cons in Hb as [_ Hb].
           exists before, k, after. auto.
Qed.

Lemma getServiceByUrl_in_none (svcs : Js.Obj ServiceConfig) (u : string) :
  getServiceByUrl_in svcs (Some u) = None <->
  Forall (fun kv => url kv.2 <> u) svcs.
Proof.
  induction svcs as [|[k0 sc0] svcs IH].
  - split; auto.
  - rewrite getServiceByUrl_in_cons, Forall_cons. cbn.
    destruct (String.eqb (url sc0) u) eqn:E.
    + apply String.eqb_eq in E. split; [discriminate|]. intros [H _]. congruence.
    + apply String.eqb_neq in E. rewrite IH. tauto.
Qed.

Lemma get_elem_of {V} (k : string) (v : V) (o : Js.Obj V) :
  Js.get k o = Some v -> (k, v) ∈ o.
Proof.
  induction o as [|[k0 v0] o IH]; cbn; [discriminate|].
  destruct (String.eqb k k0) eqn:E.
  - apply String.eqb_eq in E. intros [= ->]. subst. left.
  - intros H. right. auto.
Qed.

End ReverseLookup.

(** X4. [getServiceByUrl] returns the first service, in property order,
    whose [url] is the one asked for, and [null] exactly when no service
    has that [url]; for an undefined [url] it returns [null]. *)
Theorem X4_getServiceByUrl_first_match (svcs : Js.Obj ServiceConfig) (u : string) :
  (forall sc,
     Core.getServiceByUrl_in svcs (Some u) = Some sc <->
     exists before k after,
       svcs = before ++ (k, sc) :: after
       /\ url sc = u
       /\ Forall (fun kv => url kv.2 <> u) before)
  /\ (Core.getServiceByUrl_in svcs (Some u) = None <->
      Forall (fun kv => url kv.2 <> u) svcs)
  /\ Core.getServiceByUrl_in svcs None = None
  /\ (forall m,
        services (config (this m)) = svcs ->
        Core.getServiceByUrl (Some u) m
        = (Ok (Core.getServiceByUrl_in svcs (Some u)), m)).
Proof.
  split; [intros sc; apply getServiceByUrl_in_first|].
  split; [apply getServiceByUrl_in_none|]. split.
  - unfold Core.getServiceByUrl_in. induction svcs as [|kv svcs IH]; auto.
  - intros m <-. reflexivity.
Qed.

(** X5. When the registered services have pairwise distinct endpoints,
    the lookup by endpoint agrees with the lookup by name: a service found
    under a name is the one found under its [url]. *)
Theorem X5_distinct_endpoints_round_trip (svcs : Js.Obj ServiceConfig)
    (service_name : string) (sc : ServiceConfig) :
  NoDup (map (fun kv => url kv.2) svcs) ->
  Js.get service_name svcs = Some sc ->
  Core.getServiceByUrl_in svcs (Some (url sc)) = Some sc.
Proof.
  intros Hnd Hget. apply get_elem_of in Hget.
  induction svcs as [|[k0 sc0] svcs IH]; [inversion Hget|].
  rewrite getServiceByUrl_in_cons.
  cbn in Hnd. apply NoDup_cons in Hnd as [Hfresh Hnd].
  apply elem_of_cons in Hget as [[= -> ->] | Hin].
  - now rewrite String.eqb_refl.
  - destruct (String.eqb (url sc0) (url sc)) eqn:E; [|auto].
    apply String.eqb_eq in E. exfalso. apply Hfresh. rewrite E.
    apply list_elem_of_In.
    apply (in_map (fun kv => url kv.2) _ (service_name, sc)).
    now apply list_elem_of_In.
Qed.

Lemma X5_distinct_endpoints_round_trip_witness :
  exists api,
    Core.new_Api (Scenario.always 200) Scenario.twoEndpointsConfig = inr api
    /\ Core.getServiceByUrl_in (services (config api)) (Some "https://public.api.com")
       = Some {| url := "https://public.api.com"; svc_enableAuth := Some false |}.
Proof.
  eexists. split; [reflexivity|].
  apply (X5_distinct_endpoints_round_trip _ "public"
           {| url := "https://public.api.com"; svc_enableAuth := Some false |});
    [|reflexivity].
  apply (bool_decide_unpack _). vm_compute. exact I.
Defined.

(** ** More on the URL builder *)

Section UrlBuilderMore.
Import UrlBuilder.






(** With distinct keys the filtered object lists the surviving entries in
    their order. *)
Lemma fold_add_param_distinct (sp : SearchParams) (acc : Js.Obj string) :
  NoDup (keys acc ++ keys sp) ->
  fold_left add_param sp acc = acc ++ map query_pair (surviving sp).
Proof.
  revert acc. induction sp as [|[k v] sp IH]; intros acc Hnd; cbn [fold_left].
  - cbn. now rewrite app_nil_r.
  - cbn [keys map fst] in Hnd. unfold add_param at 2. cbn [snd fst].
    cbn [surviving List.filter snd]. fold (surviving sp).
    assert (Hk : k ∉ keys acc).
    { apply NoDup_app in Hnd as (_ & Hd & _). intros Hin.
      apply (Hd k Hin). left. }
    assert (Hnd' : NoDup (keys acc ++ keys sp)).
    { apply NoDup_app in Hnd as (Ha & Hd & Hs). apply NoDup_app.
      apply NoDup_cons in Hs as [_ Hs]. repeat split; auto.
      intros x Hx Hy. apply (Hd x Hx). now right. }
    destruct (kept v).
    + rewrite IH.
      * rewrite set_fresh by assumption. now rewrite <- app_assoc.
      * rewrite set_fresh by assumption. unfold keys. rewrite map_app. cbn.
        rewrite <- app_assoc. exact Hnd.
    + now apply IH.
Qed.

End UrlBuilderMore.



(** X7. For search parameters with distinct keys, none of them
    integer-like or [__proto__], and whose numbers are safe integers, the
    query string lists the surviving parameters in the order they were
    given, each as [key=value] after form-encoding, joined by [&]. *)
Theorem X7_query_keeps_order (sp : SearchParams) :
  NoDup (keys sp) ->
  Forall (fun k => plain_key k = true) (keys sp) ->
  Forall (fun kv => printable kv.2) sp ->
  UrlBuilder.filterParams sp = map query_pair (UrlBuilder.surviving sp)
  /\ Js.URLSearchParams_toString (UrlBuilder.filterParams sp)
     = Js.join_amp
         (map (fun kv => Js.form_encode kv.1 +:+ "=" +:+ Js.form_encode (String_of kv.2))
              (UrlBuilder.surviving sp)).
Proof.
  intros Hnd _ _.
  assert (H : UrlBuilder.filterParams sp = map query_pair (UrlBuilder.surviving sp)).
  { unfold UrlBuilder.filterParams. now rewrite fold_add_param_distinct. }
  split; [exact H|]. rewrite H. unfold Js.URLSearchParams_toString.
  now rewrite map_map.
Qed.

Lemma X7_query_keeps_order_witness :
  Js.URLSearchParams_toString
    (UrlBuilder.filterParams
       [("page", PNumber 1); ("limit", PNull); ("active", PBoolean true)])
  = "page=1&active=true".
Proof.
  etransitivity; [apply X7_query_keeps_order|reflexivity].
  - apply (bool_decide_unpack _). vm_compute. exact I.
  - repeat constructor.
  - repeat constructor; cbn; lia.
Defined.

(** ** Form encoding and trimming *)

Section Strings.

Lemma count_char_append (c : ascii) (a b : string) :
  count_char c (a +:+ b) = count_char c a + count_char c b.
Proof.
  induction a as [|x a IH]; [reflexivity|].
  change (String x a +:+ b) with (String x (a +:+ b)).
  cbn [count_char]. rewrite IH. lia.
Qed.

(** No character is encoded to a separator of URLs or query strings. *)
Lemma form_encode_char_clean (c : ascii) :
  count_char "&" (Js.form_encode_char c) = 0
  /\ count_char "=" (Js.form_encode_char c) = 0
  /\ count_char "?" (Js.form_encode_char c) = 0
  /\ count_char "#" (Js.form_encode_char c) = 0
  /\ count_char " " (Js.form_encode_char c) = 0.
Proof.
  destruct c as [[] [] [] [] [] [] [] []]; vm_compute; repeat split.
Qed.

Lemma form_encode_clean (s : string) :
  count_char "&" (Js.form_encode s) = 0
  /\ count_char "=" (Js.form_encode s) = 0
  /\ count_char "?" (Js.form_encode s) = 0
  /\ count_char "#" (Js.form_encode s) = 0
  /\ count_char " " (Js.form_encode s) = 0.
Proof.
  induction s as [|c s (H1 & H2 & H3 & H4 & H5)]; [repeat split|].
  destruct (form_encode_char_clean c) as (G1 & G2 & G3 & G4 & G5).
  cbn [Js.form_encode]. rewrite !count_char_append.
  repeat split; lia.
Qed.

Lemma trim_start_fixed (s : string) :
  not_space (first_char s) -> Js.trim_start s = s.
Proof. destruct s as [|c s]; cbn; [reflexivity|]. now intros ->. Qed.

Lemma trim_start_first (s : string) : not_space (first_char (Js.trim_start s)).
Proof.
  induction s as [|c s IH]; cbn; [exact I|].
  destruct (Js.is_space c) eqn:E; [exact IH|]. cbn. exact E.
Qed.

Lemma trim_end_first (s : string) :
  not_space (first_char s) -> not_space (first_char (Js.trim_end s)).
Proof.
  destruct s as [|c s]; cbn; [auto|]. intros E.
  destruct (Js.trim_end s); [rewrite E|]; cbn; exact E.
Qed.

Lemma trim_end_last (s : string) : not_space (last_char (Js.trim_end s)).
Proof.
  induction s as [|c s IH]; cbn; [exact I|].
  destruct (Js.trim_end s) as [|x t] eqn:E.
  - destruct (Js.is_space c) eqn:Ec; cbn; auto.
  - cbn in IH |- *. exact IH.
Qed.

Lemma trim_end_fixed (s : string) :
  not_space (last_char s) -> Js.trim_end s = s.
Proof.
  induction s as [|c s IH]; [reflexivity|].
  intros H. cbn [Js.trim_end].
  destruct s as [|x s'].
  - cbn in H |- *. now rewrite H.
  - rewrite IH by exact H. reflexivity.
Qed.

End Strings.

(** X8. Form encoding produces none of the characters [&], [=], [?], [#]
    and space; so in the query string of a non-empty object there are as
    many [=] as entries and one [&] less, whatever the keys and values
    contain. *)
Theorem X8_query_separators (o : Js.Obj string) :
  o <> [] ->
  count_char "=" (Js.URLSearchParams_toString o) = length o
  /\ count_char "&" (Js.URLSearchParams_toString o) = length o - 1
  /\ count_char "?" (Js.URLSearchParams_toString o) = 0
  /\ count_char "#" (Js.URLSearchParams_toString o) = 0
  /\ count_char " " (Js.URLSearchParams_toString o) = 0.
Proof.
  unfold Js.URLSearchParams_toString.
  induction o as [|[k v] o IH]; [congruence|]. intros _.
  destruct (form_encode_clean k) as (K1 & K2 & K3 & K4 & K5).
  destruct (form_encode_clean v) as (V1 & V2 & V3 & V4 & V5).
  destruct o as [|kv o].
  - cbn [map Js.join_amp fst snd length]. rewrite !count_char_append. cbn.
    repeat split; lia.
  - destruct IH as (I1 & I2 & I3 & I4 & I5); [discriminate|].
    remember (kv :: o) as o' eqn:Ho.
    assert (Hj : Js.join_amp (map (fun kv => Js.form_encode kv.1 +:+ "=" +:+ Js.form_encode kv.2) ((k, v) :: o'))
                 = (Js.form_encode k +:+ "=" +:+ Js.form_encode v) +:+ "&"
                     +:+ Js.join_amp (map (fun kv => Js.form_encode kv.1 +:+ "=" +:+ Js.form_encode kv.2) o')).
    { subst o'. reflexivity. }
    rewrite Hj, !count_char_append, I1, I2, I3, I4, I5.
    assert (Hlen : length o' >= 1) by (subst o'; cbn; lia).
    cbn [length count_char Ascii.eqb Bool.eqb]. cbn. repeat split; lia.
Qed.

Lemma X8_query_separators_witness :
  count_char "&" (Js.URLSearchParams_toString [("q", "a&b=c"); ("r", "x y")]) = 1.
Proof.
  destruct (X8_query_separators [("q", "a&b=c"); ("r", "x y")]) as (_ & H & _);
    [discriminate|].
  exact H.
Defined.

(** X9. On an endpoint of ASCII characters, [trim] leaves no white
    space at either end, changes nothing in a string that has none there,
    and so is idempotent; [buildUrl] of an endpoint is that of the trimmed
    endpoint. *)
Theorem X9_trim_idempotent (s : string) (sp : option SearchParams) :
  ascii_only s = true ->
  not_space (first_char (Js.trim s))
  /\ not_space (last_char (Js.trim s))
  /\ (not_space (first_char s) -> not_space (last_char s) -> Js.trim s = s)
  /\ Js.trim (Js.trim s) = Js.trim s
  /\ UrlBuilder.buildUrl (Js.trim s) sp = UrlBuilder.buildUrl s sp.
Proof.
  intros _.
  assert (H1 : not_space (first_char (Js.trim s)))
    by apply trim_end_first, trim_start_first.
  assert (H2 : not_space (last_char (Js.trim s))) by apply trim_end_last.
  assert (H3 : forall x, not_space (first_char x) -> not_space (last_char x) ->
                         Js.trim x = x).
  { intros x Hf Hl. unfold Js.trim. rewrite trim_start_fixed by assumption.
    now apply trim_end_fixed. }
  assert (H4 : Js.trim (Js.trim s) = Js.trim s) by now apply H3.
  repeat split; auto.
  unfold UrlBuilder.buildUrl. now rewrite H4.
Qed.

Lemma X9_trim_idempotent_witness : Js.trim "/users/1" = "/users/1".
Proof.
  destruct (X9_trim_idempotent "/users/1" None eq_refl) as (_ & _ & H & _).
  apply H; reflexivity.
Defined.

(** ** The outcomes of a request *)

Section Outcomes.
Import Core.

Variable api : Api.
Hypothesis installed : interceptors (axiosInstance api) = true.
Hypothesis returns : hook_returns (onRequest (config api)).

(** A round answered with 2xx: the response hook decides. *)
Lemma round_success (fuel : nat) (c : RetryableAxiosRequestConfig) (m : Machine)
    (r : AxiosResponse) :
  state_of api m ->
  answers (adapter (axiosInstance api)) (calls is_transport (trace m)) (Responded r) ->
  Axios.validateStatus (status r) = true ->
  delta m (axios_request (S fuel) c m).2 1 0 0
  /\ (axios_request (S fuel) c m).1 = settle_call (onResponse (config api) r).
Proof.
  intros Hst Ha Hv.
  destruct (round_start api installed returns fuel c m Hst)
    as (ic & m1 & H1 & Hrc & ->).
  rewrite (Ha ic). unfold Axios.settled. rewrite Hv, orb_true_r.
  rewrite response_fulfilled_eq. cbn [fst snd].
  replace (config (this (after (CallTransport ic) m1))) with (config api)
    by (cbn; destruct H1 as (-> & _); symmetry; apply Hst).
  split; [delta_tac|reflexivity].
Qed.

(** A round answered with a response that is neither 2xx, nor 401, nor
    5xx: normalized at once. *)
Lemma round_client_error (fuel : nat) (c : RetryableAxiosRequestConfig)
    (m : Machine) (r : AxiosResponse) :
  state_of api m ->
  answers (adapter (axiosInstance api)) (calls is_transport (trace m)) (Responded r) ->
  Axios.validateStatus (status r) = false ->
  status r <> 0%Z ->
  status r <> 401%Z ->
  (status r < 500)%Z ->
  exists e,
    normalized e
    /\ err_status e = Some (status r)
    /\ message e
       = Js.or_default (response_data_message (Some r)) (status_message (status r))
    /\ code e
       = Js.or_else (response_data_code (Some r)) (Axios.status_code (status r))
    /\ delta m (axios_request (S fuel) c m).2 1 0 1
    /\ (axios_request (S fuel) c m).1
       = match onRequestError (config api) e with
         | Fulfilled _ => Throw (ThrownApiError e)
         | RejectedWith reason => Throw (ThrownError reason)
         end.
Proof.
  intros Hst Ha Hv H0 H401 H500.
  destruct (round_start api installed returns fuel c m Hst)
    as (ic & m1 & H1 & Hrc & ->).
  rewrite (Ha ic). unfold Axios.settled. rewrite Hv.
  replace (status r =? 0)%Z with false by (symmetry; apply Z.eqb_neq; assumption).
  cbn [orb]. rewrite response_rejected_eq.
  cbn [Axios.error_config Axios.error_response ae_config ae_response].
  replace (is_401 (Some r)) with false
    by (symmetry; cbn; apply Z.eqb_neq; assumption).
  replace (is_5xx (Some r)) with false
    by (symmetry; cbn; apply andb_false_intro2, Z.leb_gt; assumption).
  cbn [andb].
  replace (config (this (after (CallTransport ic) m1))) with (config api)
    by (cbn; destruct H1 as (-> & _); symmetry; apply Hst).
  match goal with |- context [CallOnRequestError ?x] => exists x end.
  split; [split; [reflexivity|discriminate]|].
  do 3 (split; [reflexivity|]).
  destruct (onRequestError _ _); cbn [fst snd]; (split; [delta_tac|reflexivity]).
Qed.

(** A round in which the transport fails without a response but with the
    request: normalized at once. *)
Lemma round_transport_failure (fuel : nat) (c : RetryableAxiosRequestConfig)
    (m : Machine) (msg : string) (cd : option string) :
  state_of api m ->
  answers (adapter (axiosInstance api)) (calls is_transport (trace m))
    (Failed msg cd true) ->
  exists e,
    normalized e
    /\ err_status e = None
    /\ message e = msg
    /\ code e = cd
    /\ delta m (axios_request (S fuel) c m).2 1 0 1
    /\ (axios_request (S fuel) c m).1
       = match onRequestError (config api) e with
         | Fulfilled _ => Throw (ThrownApiError e)
         | RejectedWith reason => Throw (ThrownError reason)
         end.
Proof.
  intros Hst Ha.
  destruct (round_start api installed returns fuel c m Hst)
    as (ic & m1 & H1 & Hrc & ->).
  rewrite (Ha ic). unfold Axios.settled.
  rewrite response_rejected_eq.
  cbn [Axios.error_config Axios.error_response ae_config ae_response is_401
         is_5xx andb].
  replace (config (this (after (CallTransport ic) m1))) with (config api)
    by (cbn; destruct H1 as (-> & _); symmetry; apply Hst).
  match goal with |- context [CallOnRequestError ?x] => exists x end.
  split; [split; [reflexivity|discriminate]|].
  split; [reflexivity|]. split; [cbn; now destruct msg|].
  split; [cbn; now destruct cd as [[|]|]|].
  destruct (onRequestError _ _); cbn [fst snd]; (split; [delta_tac|reflexivity]).
Qed.

(** A round in which the transport fails without response and without the
    request: the error goes to the caller as it is, after the response
    hook has seen an empty shell. *)
Lemma round_bare_failure (fuel : nat) (c : RetryableAxiosRequestConfig)
    (m : Machine) (msg : string) (cd : option string) :
  state_of api m ->
  answers (adapter (axiosInstance api)) (calls is_transport (trace m))
    (Failed msg cd false) ->
  exists sent earlier,
    (axios_request (S fuel) c m).1
    = Throw (ThrownAxiosError
               {| ae_message := msg; ae_code := cd; ae_config := None;
                  ae_response := None; ae_status := None |})
    /\ delta m (axios_request (S fuel) c m).2 1 0 0
    /\ trace (axios_request (S fuel) c m).2
       = CallOnResponse (shell 0 "No Response") :: CallTransport sent :: earlier.
Proof.
  intros Hst Ha.
  destruct (round_start api installed returns fuel c m Hst)
    as (ic & m1 & H1 & Hrc & ->).
  rewrite (Ha ic). unfold Axios.settled.
  rewrite response_rejected_eq.
  cbn [Axios.error_config ae_config fst snd].
  exists ic, (trace m1). split; [reflexivity|]. split; [delta_tac|reflexivity].
Qed.

(** The whole loop when [n] answers of 5xx are followed by a 2xx. *)
Lemma retry_until_success (n : nat) (r : AxiosResponse) :
  forall (fuel : nat) (c : RetryableAxiosRequestConfig) (m : Machine),
  state_of api m ->
  (forall i, i < n ->
     answers_5xx (adapter (axiosInstance api)) (calls is_transport (trace m) + i)) ->
  answers (adapter (axiosInstance api)) (calls is_transport (trace m) + n)
    (Responded r) ->
  Axios.validateStatus (status r) = true ->
  retries c + n <= maxRetries (config api) ->
  n < fuel ->
  delta m (axios_request fuel c m).2 (S n) 0 0
  /\ (axios_request fuel c m).1 = settle_call (onResponse (config api) r).
Proof.
  induction n as [|n IH]; intros fuel c m Hst H5 Ha Hv Hn Hfuel;
    (destruct fuel as [|fuel]; [lia|]).
  - rewrite Nat.add_0_r in Ha. now apply round_success.
  - destruct (round_retry api installed returns fuel c m Hst)
      as (c2 & m2 & -> & H2 & Hrc);
      [rewrite <- (Nat.add_0_r (calls _ _)); apply H5; lia | lia |].
    assert (Ht : calls is_transport (trace m2) = calls is_transport (trace m) + 1)
      by apply H2.
    destruct (IH fuel c2 m2) as (Hd & Hres).
    + eauto using delta_state_of.
    + intros i Hi. rewrite Ht.
      replace (calls is_transport (trace m) + 1 + i)
        with (calls is_transport (trace m) + S i) by lia.
      apply H5. lia.
    + rewrite Ht.
      replace (calls is_transport (trace m) + 1 + n)
        with (calls is_transport (trace m) + S n) by lia.
      exact Ha.
    + assumption.
    + lia.
    + lia.
    + split; [exact (delta_trans _ _ _ _ _ _ _ _ _ H2 Hd)|exact Hres].
Qed.

End Outcomes.

Section ReadyRequests.
Import Core.

(** A request that is [ready] reaches the axios instance with the retry
    counter at zero, the transport not yet called. *)
Lemma ready_reaches_axios (api : Api) (rc : RequestConfig) (m : Machine) :
  ready api rc m ->
  exists first m1,
    state_of api m1
    /\ delta m m1 0 0 0
    /\ retries first = 0
    /\ request rc m
       = data_of (axios_request (S (maxRetries (config api))) first m1).
Proof.
  intros (Hint & Hhook & Hst & sc & Hsvc).
  destruct Hst as [Hc Hi]. rewrite <- Hc in Hsvc.
  destruct (request_reaches_axios rc sc m Hsvc) as (first & m1 & H1 & Hf & Hr).
  exists first, m1. rewrite <- Hc. repeat split; try assumption.
  - destruct H1 as (-> & _). exact Hc.
  - destruct H1 as (_ & -> & _). exact Hi.
  - apply H1.
  - apply H1.
  - apply H1.
  - apply H1.
  - apply H1.
Qed.

Lemma data_of_settled (r : Result AxiosResponse * Machine)
    (s : Settled AxiosResponse) :
  r.1 = settle_call s -> (data_of r).1 = hooked s.
Proof. destruct r as [[x|e|] m], s; cbn; congruence. Qed.

End ReadyRequests.

(** X10. On a pipeline with its interceptors, when [n] answers of 5xx
    ([n] within the retry budget) are followed by a 2xx response, the
    transport is called [n + 1] times, neither the sign-out handler nor
    [onRequestError] is called, and the caller gets the body of what the
    response hook returns for that response, or what the hook throws. *)
Theorem X10_success_after_retries (api : Api) (rc : RequestConfig) (m : Machine)
    (n : nat) (r : AxiosResponse) :
  ready api rc m ->
  (forall i, i < n ->
     answers_5xx (adapter (axiosInstance api)) (calls is_transport (trace m) + i)) ->
  answers (adapter (axiosInstance api)) (calls is_transport (trace m) + n)
    (Responded r) ->
  Axios.validateStatus (status r) = true ->
  n <= maxRetries (config api) ->
  calls is_transport (trace (Core.request rc m).2)
    = calls is_transport (trace m) + (n + 1)
  /\ calls is_signOut (trace (Core.request rc m).2) = calls is_signOut (trace m)
  /\ calls is_onRequestError (trace (Core.request rc m).2)
     = calls is_onRequestError (trace m)
  /\ (Core.request rc m).1 = hooked (onResponse (config api) r).
Proof.
  intros Hready H5 Ha Hv Hn.
  destruct (ready_reaches_axios api rc m Hready) as (first & m1 & Hst1 & H1 & Hf & ->).
  destruct Hready as (Hint & Hhook & _).
  assert (Ht1 : calls is_transport (trace m1) = calls is_transport (trace m))
    by (destruct H1 as (_ & _ & -> & _); lia).
  destruct (retry_until_success api Hint Hhook n r (S (maxRetries (config api)))
              first m1) as (Hd & Hres); auto.
  { intros i Hi. rewrite Ht1. now apply H5. }
  { now rewrite Ht1. }
  { rewrite Hf. lia. }
  { lia. }
  rewrite data_of_machine.
  destruct H1 as (_ & _ & _ & Hs1 & He1). destruct Hd as (_ & _ & Hdt & Hds & Hde).
  repeat split; try lia. now apply data_of_settled.
Qed.

Lemma X10_success_after_retries_witness :
  exists api,
    Core.new_Api (Scenario.after_500s 2 200) Scenario.baseConfig = inr api
    /\ calls is_transport
         (trace (Core.get "/retry" None None None (Core.start api)).2) = 3.
Proof.
  eexists. split; [reflexivity|].
  match goal with |- context [Core.start ?a] =>
    refine (proj1 (X10_success_after_retries a
              {| endpoint := "/retry"; method := GET; rc_data := None;
                 searchParams := None; service := None; rc_config := None |}
              (Core.start a) 2 (Scenario.response 200 None) _ _ _ eq_refl _))
  end.
  - split; [reflexivity|]. split; [intros c; eexists; reflexivity|].
    split; [split; reflexivity|]. eexists. reflexivity.
  - intros i Hi c. eexists. split; [reflexivity|].
    cbn. destruct i as [|[|i]]; cbn; lia.
  - intros c. reflexivity.
  - cbn. lia.
Defined.

(** X11. On a pipeline with its interceptors, a response that axios
    rejects (its status is neither 0 nor 2xx) and that is neither 401 nor
    5xx (a 400 or a 404, say) is never retried: the transport is called
    once, [onRequestError] once and the sign-out handler not at all; the
    error for the caller is an [ApiError] with the status of the response,
    the [message] field of its body if that is a non-empty string and else
    the message of axios, and the [code] field of its body if non-empty
    and else the code of axios ([ERR_BAD_REQUEST] for 4xx,
    [ERR_BAD_RESPONSE] otherwise). *)
Theorem X11_client_error_not_retried (api : Api) (rc : RequestConfig) (m : Machine)
    (r : AxiosResponse) :
  ready api rc m ->
  answers (adapter (axiosInstance api)) (calls is_transport (trace m)) (Responded r) ->
  Axios.validateStatus (status r) = false ->
  status r <> 0%Z ->
  status r <> 401%Z ->
  (status r < 500)%Z ->
  calls is_transport (trace (Core.request rc m).2) = calls is_transport (trace m) + 1
  /\ calls is_onRequestError (trace (Core.request rc m).2)
     = calls is_onRequestError (trace m) + 1
  /\ calls is_signOut (trace (Core.request rc m).2) = calls is_signOut (trace m)
  /\ exists e,
       (Core.request rc m).1 = observed (onRequestError (config api) e) e
       /\ normalized e
       /\ err_status e = Some (status r)
       /\ message e
          = Js.or_default (Core.response_data_message (Some r))
              (status_message (status r))
       /\ code e
          = Js.or_else (Core.response_data_code (Some r))
              (Axios.status_code (status r)).
Proof.
  intros Hready Ha Hv H0 H401 H500.
  destruct (ready_reaches_axios api rc m Hready) as (first & m1 & Hst1 & H1 & Hf & ->).
  destruct Hready as (Hint & Hhook & _).
  assert (Ht1 : calls is_transport (trace m1) = calls is_transport (trace m))
    by (destruct H1 as (_ & _ & -> & _); lia).
  rewrite <- Ht1 in Ha.
  destruct (round_client_error api Hint Hhook (maxRetries (config api)) first m1 r
              Hst1 Ha Hv H0 H401 H500)
    as (e & Hn & Hs & Hm & Hc & Hd & Hres).
  rewrite data_of_machine.
  destruct H1 as (_ & _ & _ & Hs1 & He1). destruct Hd as (_ & _ & Hdt & Hds & Hde).
  repeat split; try lia.
  exists e. split; [now apply data_of_observed|auto].
Qed.

Lemma X11_client_error_not_retried_witness :
  exists api,
    Core.new_Api
      (fun _ _ => Responded
         (Scenario.response 400
            (Some {| body := ""; data_message := Some "Bad Request";
                     data_code := Some "BAD_REQUEST" |})))
      Scenario.baseConfig = inr api
    /\ calls is_transport
         (trace (Core.get "/fail" None None None (Core.start api)).2) = 1.
Proof.
  eexists. split; [reflexivity|].
  match goal with |- context [Core.start ?a] =>
    refine (proj1 (X11_client_error_not_retried a
              {| endpoint := "/fail"; method := GET; rc_data := None;
                 searchParams := None; service := None; rc_config := None |}
              (Core.start a)
              (Scenario.response 400
                 (Some {| body := ""; data_message := Some "Bad Request";
                          data_code := Some "BAD_REQUEST" |}))
              _ _ eq_refl _ _ eq_refl))
  end.
  - split; [reflexivity|]. split; [intros c; eexists; reflexivity|].
    split; [split; reflexivity|]. eexists. reflexivity.
  - intros c. reflexivity.
  - discriminate.
  - discriminate.
Defined.

(** X12. On a pipeline with its interceptors, a failure of the transport
    that has no response but carries the request (a network error, a
    timeout) is not retried: the transport is called once and
    [onRequestError] once, with an [ApiError] that has no status and the
    message and code of the transport error. *)
Theorem X12_transport_failure_normalized (api : Api) (rc : RequestConfig)
    (m : Machine) (msg : string) (cd : option string) :
  ready api rc m ->
  answers (adapter (axiosInstance api)) (calls is_transport (trace m))
    (Failed msg cd true) ->
  calls is_transport (trace (Core.request rc m).2) = calls is_transport (trace m) + 1
  /\ calls is_onRequestError (trace (Core.request rc m).2)
     = calls is_onRequestError (trace m) + 1
  /\ calls is_signOut (trace (Core.request rc m).2) = calls is_signOut (trace m)
  /\ exists e,
       (Core.request rc m).1 = observed (onRequestError (config api) e) e
       /\ normalized e
       /\ err_status e = None
       /\ message e = msg
       /\ code e = cd.
Proof.
  intros Hready Ha.
  destruct (ready_reaches_axios api rc m Hready) as (first & m1 & Hst1 & H1 & Hf & ->).
  destruct Hready as (Hint & Hhook & _).
  assert (Ht1 : calls is_transport (trace m1) = calls is_transport (trace m))
    by (destruct H1 as (_ & _ & -> & _); lia).
  rewrite <- Ht1 in Ha.
  destruct (round_transport_failure api Hint Hhook (maxRetries (config api)) first m1
              msg cd Hst1 Ha)
    as (e & Hn & Hs & Hm & Hc & Hd & Hres).
  rewrite data_of_machine.
  destruct H1 as (_ & _ & _ & Hs1 & He1). destruct Hd as (_ & _ & Hdt & Hds & Hde).
  repeat split; try lia.
  exists e. split; [now apply data_of_observed|auto].
Qed.

Lemma X12_transport_failure_normalized_witness :
  exists api,
    Core.new_Api (fun _ _ => Failed "Network Error" (Some "ERR_NETWORK") true)
      Scenario.baseConfig = inr api
    /\ calls is_onRequestError
         (trace (Core.get "/network-error" None None None (Core.start api)).2) = 1.
Proof.
  eexists. split; [reflexivity|].
  match goal with |- context [Core.start ?a] =>
    refine (proj1 (proj2 (X12_transport_failure_normalized a
              {| endpoint := "/network-error"; method := GET; rc_data := None;
                 searchParams := None; service := None; rc_config := None |}
              (Core.start a) "Network Error" (Some "ERR_NETWORK") _ _)))
  end.
  - split; [reflexivity|]. split; [intros c; eexists; reflexivity|].
    split; [split; reflexivity|]. eexists. reflexivity.
  - intros c. reflexivity.
Defined.

(** X13. On a pipeline with its interceptors, a failure of the transport
    that carries neither response nor request goes to the caller as it
    is: the transport is called once, the response hook then sees an empty
    response of status 0, and neither [onRequestError] nor the sign-out
    handler is called. *)
Theorem X13_bare_failure_passed_on (api : Api) (rc : RequestConfig)
    (m : Machine) (msg : string) (cd : option string) :
  ready api rc m ->
  answers (adapter (axiosInstance api)) (calls is_transport (trace m))
    (Failed msg cd false) ->
  (Core.request rc m).1
  = Throw (ThrownAxiosError
             {| ae_message := msg; ae_code := cd; ae_config := None;
                ae_response := None; ae_status := None |})
  /\ calls is_transport (trace (Core.request rc m).2) = calls is_transport (trace m) + 1
  /\ calls is_onRequestError (trace (Core.request rc m).2)
     = calls is_onRequestError (trace m)
  /\ calls is_signOut (trace (Core.request rc m).2) = calls is_signOut (trace m)
  /\ exists sent earlier,
       trace (Core.request rc m).2
       = CallOnResponse (Core.shell 0 "No Response") :: CallTransport sent :: earlier.
Proof.
  intros Hready Ha.
  destruct (ready_reaches_axios api rc m Hready) as (first & m1 & Hst1 & H1 & Hf & ->).
  destruct Hready as (Hint & Hhook & _).
  assert (Ht1 : calls is_transport (trace m1) = calls is_transport (trace m))
    by (destruct H1 as (_ & _ & -> & _); lia).
  rewrite <- Ht1 in Ha.
  destruct (round_bare_failure api Hint Hhook (maxRetries (config api)) first m1
              msg cd Hst1 Ha)
    as (sent & earlier & Hres & Hd & Htr).
  rewrite data_of_machine.
  destruct H1 as (_ & _ & _ & Hs1 & He1). destruct Hd as (_ & _ & Hdt & Hds & Hde).
  split; [now apply data_of_throw|].
  repeat split; try lia. eauto.
Qed.

Lemma X13_bare_failure_passed_on_witness :
  exists api,
    Core.new_Api (fun _ _ => Failed "canceled" (Some "ERR_CANCELED") false)
      Scenario.baseConfig = inr api
    /\ calls is_onRequestError
         (trace (Core.get "/users" None None None (Core.start api)).2) = 0.
Proof.
  eexists. split; [reflexivity|].
  match goal with |- context [Core.start ?a] =>
    refine (proj1 (proj2 (proj2 (X13_bare_failure_passed_on a
              {| endpoint := "/users"; method := GET; rc_data := None;
                 searchParams := None; service := None; rc_config := None |}
              (Core.start a) "canceled" (Some "ERR_CANCELED") _ _))))
  end.
  - split; [reflexivity|]. split; [intros c; eexists; reflexivity|].
    split; [split; reflexivity|]. eexists. reflexivity.
  - intros c. reflexivity.
Defined.

Section HookFailure.
Import Core.

(** The request hook throws a value without [config]: nothing is sent. *)
Lemma hook_failure (rc : RequestConfig) (m : Machine) (sc : ServiceConfig)
    (t : Thrown) :
  interceptors (axiosInstance (this m)) = true ->
  Js.get (Js.nullish (service rc) "private") (services (config (this m))) = Some sc ->
  (forall c, onRequest (config (this m)) c = RejectedWith t) ->
  Axios.error_config t = None ->
  (request rc m).1 = Throw t
  /\ calls is_transport (trace (request rc m).2) = calls is_transport (trace m)
  /\ calls is_onRequestError (trace (request rc m).2)
     = calls is_onRequestError (trace m)
  /\ calls is_signOut (trace (request rc m).2) = calls is_signOut (trace m)
  /\ exists seen earlier,
       trace (request rc m).2
       = CallOnResponse (responseForInterceptor t (shell 0 "No Response"))
           :: CallOnRequest seen :: earlier.
Proof.
  intros Hint Hsvc Hhook Hnone.
  destruct (request_reaches_axios rc sc m Hsvc) as (first & m1 & H1 & Hf & ->).
  assert (Hc1 : config (this m1) = config (this m)) by apply H1.
  assert (Hi1 : axiosInstance (this m1) = axiosInstance (this m)) by apply H1.
  rewrite axios_request_round by (now rewrite Hi1).
  pose proof (request_interceptor_spec
                (Axios.mergeConfig (axiosInstance (this m1)) first) m1) as Hri.
  rewrite Hc1, Hhook in Hri. rewrite Hri, response_rejected_eq, Hnone.
  cbn [data_of fst snd].
  destruct H1 as (_ & _ & Ht & Hs & He).
  split; [reflexivity|]. cbn. repeat split; try lia. eauto.
Qed.

(** The request hook throws an error that carries a [config] and a
    response of status 401: the error handler signs the user out. *)
Lemma hook_error_unauthorized (rc : RequestConfig) (m : Machine)
    (sc : ServiceConfig) (t : Thrown) (oc : RetryableAxiosRequestConfig) :
  interceptors (axiosInstance (this m)) = true ->
  Js.get (Js.nullish (service rc) "private") (services (config (this m))) = Some sc ->
  (forall c, onRequest (config (this m)) c = RejectedWith t) ->
  Axios.error_config t = Some oc ->
  is_401 (Axios.error_response t) = true ->
  exists m1,
    delta m m1 0 0 0
    /\ (request rc m).1
       = match signOut (config (this m)) (calls is_signOut (trace m)) with
         | Fulfilled _ => Throw (ThrownApiError unauthorized)
         | RejectedWith reason => Throw (ThrownError reason)
         end
    /\ calls is_transport (trace (request rc m).2) = calls is_transport (trace m)
    /\ calls is_signOut (trace (request rc m).2) = S (calls is_signOut (trace m))
    /\ calls is_onRequestError (trace (request rc m).2)
       = calls is_onRequestError (trace m).
Proof.
  intros Hint Hsvc Hhook Hoc H401.
  destruct (request_reaches_axios rc sc m Hsvc) as (first & m1 & H1 & Hf & ->).
  exists m1. split; [exact H1|].
  assert (Hc1 : config (this m1) = config (this m)) by apply H1.
  assert (Hi1 : axiosInstance (this m1) = axiosInstance (this m)) by apply H1.
  rewrite axios_request_round by (now rewrite Hi1).
  pose proof (request_interceptor_spec
                (Axios.mergeConfig (axiosInstance (this m1)) first) m1) as Hri.
  rewrite Hc1, Hhook in Hri. rewrite Hri, response_rejected_eq, Hoc, H401.
  destruct H1 as (_ & _ & Ht & Hs & He).
  unfold after. cbn [this trace config calls is_signOut]. rewrite Hc1.
  replace (calls is_signOut (trace m1)) with (calls is_signOut (trace m)) by lia.
  destruct (signOut _ _); cbn; repeat split; lia.
Qed.

End HookFailure.

(** X14. On a pipeline with its interceptors, when the request hook
    throws a value that carries no [config] (an [Error], say, and not the
    error of an HTTP call), the transport is not called and nothing is
    retried: the caller gets what the hook threw, the response hook having
    seen the [response] of that value or else an empty response of status
    0; neither [onRequestError] nor the sign-out handler is called. *)
Theorem X14_request_hook_failure (api : Api) (rc : RequestConfig) (m : Machine)
    (sc : ServiceConfig) (t : Thrown) :
  interceptors (axiosInstance api) = true ->
  state_of api m ->
  Js.get (Js.nullish (service rc) "private") (services (config api)) = Some sc ->
  (forall c, onRequest (config api) c = RejectedWith t) ->
  Axios.error_config t = None ->
  (Core.request rc m).1 = Throw t
  /\ calls is_transport (trace (Core.request rc m).2) = calls is_transport (trace m)
  /\ calls is_onRequestError (trace (Core.request rc m).2)
     = calls is_onRequestError (trace m)
  /\ calls is_signOut (trace (Core.request rc m).2) = calls is_signOut (trace m)
  /\ exists seen earlier,
       trace (Core.request rc m).2
       = CallOnResponse (Core.responseForInterceptor t (Core.shell 0 "No Response"))
           :: CallOnRequest seen :: earlier.
Proof.
  intros Hint [Hc Hi] Hsvc Hhook Hnone.
  apply (hook_failure rc m sc t).
  - now rewrite Hi.
  - now rewrite Hc.
  - now rewrite Hc.
  - exact Hnone.
Qed.

Lemma X14_request_hook_failure_witness :
  exists api,
    Core.new_Api (Scenario.always 200)
      {| opt_baseUrl := "https://api.example.com"; opt_timeout := None;
         opt_headers := None; opt_enableAuth := Some true;
         opt_maxRetries := None; opt_retryDelay := None; opt_services := None;
         opt_getSession := Some (Scenario.session_of "fake-token");
         opt_signOut := Some Scenario.resolves;
         opt_onRequestError := None; opt_debug := None;
         opt_onRequest := Some (fun _ => RejectedWith (ThrownError "hook failed"));
         opt_onResponse := None |} = inr api
    /\ Core.get "/users" None None None (Core.start api)
       = (Throw (ThrownError "hook failed"),
          (Core.get "/users" None None None (Core.start api)).2)
    /\ calls is_transport
         (trace (Core.get "/users" None None None (Core.start api)).2) = 0.
Proof.
  eexists. split; [reflexivity|].
  match goal with |- context [Core.start ?a] =>
    destruct (X14_request_hook_failure a
                {| endpoint := "/users"; method := GET; rc_data := None;
                   searchParams := None; service := None; rc_config := None |}
                (Core.start a)
                {| url := "https://api.example.com"; svc_enableAuth := Some true |}
                (ThrownError "hook failed") eq_refl (conj eq_refl eq_refl) eq_refl
                (fun _ => eq_refl) eq_refl)
      as (Hres & Ht & _)
  end.
  split; [|exact Ht].
  unfold Core.get. rewrite <- Hres. now destruct (Core.request _ _).
Defined.

(** X27. The error handler of the response interceptor does not tell the
    failure of the request from what the request hook throws.  On a
    pipeline with its interceptors, when the request hook throws an error
    that carries a [config] and a response of status 401 (the error of an
    HTTP call that the hook made), the sign-out handler is called once and
    the caller gets the [AuthenticationError] (or what sign-out throws),
    though the transport was not called for the request; [onRequestError]
    is not called. *)
Theorem X27_hook_error_signs_out (api : Api) (rc : RequestConfig) (m : Machine)
    (sc : ServiceConfig) (t : Thrown) (oc : RetryableAxiosRequestConfig) :
  interceptors (axiosInstance api) = true ->
  state_of api m ->
  Js.get (Js.nullish (service rc) "private") (services (config api)) = Some sc ->
  (forall c, onRequest (config api) c = RejectedWith t) ->
  Axios.error_config t = Some oc ->
  Core.is_401 (Axios.error_response t) = true ->
  (Core.request rc m).1
  = match signOut (config api) (calls is_signOut (trace m)) with
    | Fulfilled _ => Throw (ThrownApiError Core.unauthorized)
    | RejectedWith reason => Throw (ThrownError reason)
    end
  /\ calls is_transport (trace (Core.request rc m).2) = calls is_transport (trace m)
  /\ calls is_signOut (trace (Core.request rc m).2) = S (calls is_signOut (trace m))
  /\ calls is_onRequestError (trace (Core.request rc m).2)
     = calls is_onRequestError (trace m).
Proof.
  intros Hint [Hc Hi] Hsvc Hhook Hoc H401.
  destruct (hook_error_unauthorized rc m sc t oc) as (m1 & _ & Hres & Hrest);
    rewrite ?Hi, ?Hc; auto.
  rewrite Hc in Hres. split; assumption.
Qed.

Lemma X27_hook_error_signs_out_witness :
  exists api,
    Core.new_Api (Scenario.always 200) (Scenario.failingHookConfig 401) = inr api
    /\ (Core.get "/users" None None None (Core.start api)).1
       = Throw (ThrownApiError Core.unauthorized)
    /\ calls is_transport
         (trace (Core.get "/users" None None None (Core.start api)).2) = 0
    /\ calls is_signOut
         (trace (Core.get "/users" None None None (Core.start api)).2) = 1.
Proof.
  eexists. split; [reflexivity|].
  match goal with |- context [Core.start ?a] =>
    destruct (X27_hook_error_signs_out a
                {| endpoint := "/users"; method := GET; rc_data := None;
                   searchParams := None; service := None; rc_config := None |}
                (Core.start a)
                {| url := "https://api.example.com"; svc_enableAuth := Some true |}
                (Scenario.hook_http_error 401)
                {| axios_config :=
                     {| req_url := Some "/session"; req_method := Some GET;
                        req_baseURL := None; req_headers := ∅;
                        req_data := None |};
                   _retryCount := None |}
                eq_refl (conj eq_refl eq_refl) eq_refl (fun _ => eq_refl)
                eq_refl eq_refl)
      as (Hres & Ht & Hs & _)
  end.
  split; [exact Hres|]. split; [exact Ht|exact Hs].
Defined.

Section PlainRequest.
Import Core.

(** A request on an instance without interceptors for which no token is
    asked. *)
Lemma request_plain (rc : RequestConfig) (sc : ServiceConfig) (m : Machine) :
  interceptors (axiosInstance (this m)) = false ->
  Js.get (Js.nullish (service rc) "private") (services (config (this m))) = Some sc ->
  flag (svc_enableAuth sc) && enableAuth (config (this m)) = false ->
  request rc m
  = (unwrapped
       (Axios.settled (plain_request rc sc (axiosInstance (this m)))
          (adapter (axiosInstance (this m)) (calls is_transport (trace m))
             (plain_request rc sc (axiosInstance (this m))))),
     after (CallTransport (plain_request rc sc (axiosInstance (this m)))) m).
Proof.
  intros Hint Hsvc Hflag.
  unfold request, request_on, bind.
  change (Core.executeRequest_on Core.axios) with Core.executeRequest.
  rewrite (getServiceConfig_plain _ sc) by assumption.
  unfold plain_request.
  destruct (method rc) eqn:Hm; unfold executeRequest, executeRequest_on, bind;
    rewrite axios_without_interceptors, dispatchRequest_eq by assumption;
    unfold Axios.mergeConfig, Axios.with_verb; cbn;
    destruct (Axios.settled _ _); reflexivity.
Qed.

End PlainRequest.

(** X15. On an instance without interceptors, a request for which no
    token is asked (authentication off globally or for the service) is one
    call of the transport, with the built URL, the verb of the request,
    the endpoint of the named service, and as body the [data] argument for
    POST, PUT and PATCH and the [data] of the [config] argument for GET
    and DELETE; the caller gets the body of the response that axios
    resolves and else the error of axios. *)
Theorem X15_plain_request_sent (rc : RequestConfig) (sc : ServiceConfig)
    (m : Machine) :
  interceptors (axiosInstance (this m)) = false ->
  Js.get (Js.nullish (service rc) "private") (services (config (this m))) = Some sc ->
  Core.flag (svc_enableAuth sc) && enableAuth (config (this m)) = false ->
  exists sent,
    Core.request rc m
    = (unwrapped
         (Axios.settled sent
            (adapter (axiosInstance (this m)) (calls is_transport (trace m)) sent)),
       after (CallTransport sent) m)
    /\ req_url (axios_config sent)
       = Some (UrlBuilder.buildUrl (endpoint rc) (searchParams rc))
    /\ req_method (axios_config sent) = Some (method rc)
    /\ req_baseURL (axios_config sent) = Some (url sc)
    /\ req_data (axios_config sent)
       = match method rc with
         | POST | PUT | PATCH => rc_data rc
         | DELETE | GET => req_data (Js.nullish (rc_config rc) Core.empty_config)
         end.
Proof.
  intros Hint Hsvc Hflag.
  exists (plain_request rc sc (axiosInstance (this m))).
  split; [now apply request_plain|]. repeat split.
Qed.

Lemma X15_plain_request_sent_witness :
  exists api,
    Core.new_Api (Scenario.always 200) Scenario.noAuthConfig = inr api
    /\ exists sent,
         trace (Core.request
                  {| endpoint := "/users/1"; method := DELETE;
                     rc_data := Some "ignored"; searchParams := None;
                     service := Some "public"; rc_config := None |}
                  (Core.start api)).2 = [CallTransport sent]
         /\ req_baseURL (axios_config sent) = Some "https://api.example.com"
         /\ req_data (axios_config sent) = None.
Proof.
  eexists. split; [reflexivity|].
  match goal with |- context [Core.start ?a] =>
    destruct (X15_plain_request_sent
                {| endpoint := "/users/1"; method := DELETE;
                   rc_data := Some "ignored"; searchParams := None;
                   service := Some "public"; rc_config := None |}
                {| url := "https://api.example.com"; svc_enableAuth := Some false |}
                (Core.start a) eq_refl eq_refl eq_refl)
      as (sent & H & _ & _ & Hb & Hd)
  end.
  exists sent. split; [now rewrite H|]. split; [exact Hb|exact Hd].
Defined.

(** ** The token cache, again *)

Section TokenCacheMore.
Import Core.

Lemma session_token_truthy (session : option SessionData) (token : string) :
  session_token session = Some token -> Js.truthy token = true.
Proof.
  destruct session as [s|]; cbn; [|discriminate].
  destruct (Js.truthy (accessToken s)) eqn:E; [|discriminate].
  now intros [= <-].
Qed.

End TokenCacheMore.

(** X16. Once [getCurrentToken] has returned a token, the next call
    returns the same token and calls nothing: the session provider is asked
    at most once for as long as the cache is not cleared. *)
Theorem X16_token_fetched_once (m m1 : Machine) (token : string) :
  Core.getCurrentToken m = (Ok (Some token), m1) ->
  Core.getCurrentToken m1 = (Ok (Some token), m1)
  /\ currentToken (this m1) = Some token
  /\ calls is_getSession (trace m1) <= calls is_getSession (trace m) + 1.
Proof.
  destruct (enableAuth (config (this m))) eqn:Ha;
    [|rewrite getCurrentToken_disabled by assumption; discriminate].
  destruct (Core.has_token (currentToken (this m))) eqn:Hc.
  - rewrite getCurrentToken_cached by assumption. intros [= Ht <-].
    rewrite getCurrentToken_cached by assumption. rewrite Ht.
    repeat split; auto. lia.
  - rewrite getCurrentToken_fetch by assumption.
    destruct (getSession _ _) as [session|]; [|discriminate].
    destruct (Core.session_token session) as [tk|] eqn:Hs; [|discriminate].
    intros [= -> <-].
    pose proof (session_token_truthy _ _ Hs) as Htk.
    rewrite getCurrentToken_cached by (cbn; assumption).
    cbn. repeat split. lia.
Qed.

Lemma X16_token_fetched_once_witness :
  exists api m1,
    Core.new_Api (Scenario.always 200) Scenario.baseConfig = inr api
    /\ Core.getCurrentToken (Core.start api) = (Ok (Some "fake-token"), m1)
    /\ Core.getCurrentToken m1 = (Ok (Some "fake-token"), m1).
Proof.
  eexists. eexists. split; [reflexivity|].
  assert (H : Core.getCurrentToken
                (Core.start
                   {| axiosInstance :=
                        Core.setupInterceptors
                          (Core.axios_create (Scenario.always 200)
                             (Core.default_config Scenario.baseConfig));
                      currentToken := None;
                      config := Core.default_config Scenario.baseConfig |})
              = (Ok (Some "fake-token"),
                 after_caching "fake-token"
                   (Core.start
                      {| axiosInstance :=
                           Core.setupInterceptors
                             (Core.axios_create (Scenario.always 200)
                                (Core.default_config Scenario.baseConfig));
                         currentToken := None;
                         config := Core.default_config Scenario.baseConfig |})))
    by reflexivity.
  split; [exact H|].
  exact (proj1 (X16_token_fetched_once _ _ _ H)).
Defined.

(** X17. With authentication enabled: after [clearToken()] the next
    [getCurrentToken] asks the session provider, whatever was cached
    before, and returns what the provider gives; and after [setToken(t)]
    with a non-empty [t] it returns [t] and asks nobody, whatever was
    cached before. *)
Theorem X17_clear_and_set_token (m : Machine) (t : string) :
  enableAuth (config (this m)) = true ->
  (Core.getCurrentToken (Core.clearToken m).2).1
  = match getSession (config (this m)) (calls is_getSession (trace m)) with
    | Fulfilled session => Ok (Core.session_token session)
    | RejectedWith _ => Ok None
    end
  /\ calls is_getSession (trace (Core.getCurrentToken (Core.clearToken m).2).2)
     = S (calls is_getSession (trace m))
  /\ (t <> "" ->
      Core.getCurrentToken (Core.setToken t m).2
      = (Ok (Some t), (Core.setToken t m).2)
      /\ trace (Core.setToken t m).2 = trace m).
Proof.
  intros Ha. split; [|split].
  - rewrite getCurrentToken_fetch by (cbn; auto). cbn.
    destruct (getSession _ _) as [session|]; [|reflexivity].
    destruct (Core.session_token session); reflexivity.
  - rewrite getCurrentToken_fetch by (cbn; auto). cbn.
    destruct (getSession _ _) as [session|]; [|reflexivity].
    destruct (Core.session_token session); reflexivity.
  - intros Hne. split; [|reflexivity].
    rewrite getCurrentToken_cached; [reflexivity|exact Ha|].
    cbn. now apply truthy_nonempty.
Qed.

Lemma X17_clear_and_set_token_witness :
  exists api,
    Core.new_Api (Scenario.always 200) Scenario.baseConfig = inr api
    /\ (Core.getCurrentToken
          (Core.clearToken (Core.setToken "manual-token" (Core.start api)).2).2).1
       = Ok (Some "fake-token").
Proof.
  eexists. split; [reflexivity|].
  match goal with |- (Core.getCurrentToken (Core.clearToken ?m).2).1 = _ =>
    destruct (X17_clear_and_set_token m "x" eq_refl) as (H & _)
  end.
  etransitivity; [exact H|reflexivity].
Defined.

(** X18. [updateAuthFunctions] replaces the functions it is given and
    keeps the others; it does not touch the token cache: a cached token is
    still returned, without a call of the new provider, and only once the
    cache is cleared is the new provider asked. *)
Theorem X18_updateAuthFunctions_keeps_cache (m : Machine)
    (gs : option GetSessionFunction) (so : option SignOutFunction) :
  let m' := (Runtime.updateAuthFunctions gs so m).2 in
  getSession (config (this m')) = Js.nullish gs (getSession (config (this m)))
  /\ signOut (config (this m')) = Js.nullish so (signOut (config (this m)))
  /\ currentToken (this m') = currentToken (this m)
  /\ trace m' = trace m
  /\ (enableAuth (config (this m)) = true ->
      Core.has_token (currentToken (this m)) = true ->
      Core.getCurrentToken m' = (Ok (currentToken (this m)), m'))
  /\ (enableAuth (config (this m)) = true ->
      forall gs',
        gs = Some gs' ->
        (Core.getCurrentToken (Core.clearToken m').2).1
        = match gs' (calls is_getSession (trace m)) with
          | Fulfilled session => Ok (Core.session_token session)
          | RejectedWith _ => Ok None
          end).
Proof.
  intros m'. subst m'.
  do 4 (split; [reflexivity|]). split.
  - intros Ha Hc. rewrite getCurrentToken_cached by (cbn; assumption). reflexivity.
  - intros Ha gs' ->.
    rewrite getCurrentToken_fetch by (cbn; auto). cbn.
    destruct (gs' _) as [session|]; [|reflexivity].
    destruct (Core.session_token session); reflexivity.
Qed.

Lemma X18_updateAuthFunctions_keeps_cache_witness :
  exists api m1,
    Core.new_Api (Scenario.always 200) Scenario.baseConfig = inr api
    /\ Core.getCurrentToken (Core.start api) = (Ok (Some "fake-token"), m1)
    /\ (Core.getCurrentToken
          (Runtime.updateAuthFunctions (Some (Scenario.session_of "new-token")) None m1).2).1
       = Ok (Some "fake-token")
    /\ (Core.getCurrentToken
          (Core.clearToken
             (Runtime.updateAuthFunctions (Some (Scenario.session_of "new-token")) None
                m1).2).2).1
       = Ok (Some "new-token").
Proof.
  eexists. eexists. split; [reflexivity|]. split; [reflexivity|].
  match goal with |- context [Runtime.updateAuthFunctions ?g ?s ?m] =>
    destruct (X18_updateAuthFunctions_keeps_cache m g s)
      as (_ & _ & _ & _ & Hkeep & Hnew)
  end.
  split.
  - rewrite (Hkeep eq_refl eq_refl). reflexivity.
  - rewrite (Hnew eq_refl _ eq_refl). reflexivity.
Defined.

(** ** [updateConfig] *)

Section UpdateConfig.
Import Core Runtime.

(** What [updateConfig] leaves alone, also when it throws: the cached
    token, the adapter, the interceptors, the calls made so far; and what
    it sets in the configuration apart from the services. *)
Lemma updateConfig_frame (u : ApiConfigUpdate) (m : Machine) :
  let m' := (updateConfig u m).2 in
  currentToken (this m') = currentToken (this m)
  /\ trace m' = trace m
  /\ adapter (axiosInstance (this m')) = adapter (axiosInstance (this m))
  /\ interceptors (axiosInstance (this m')) = interceptors (axiosInstance (this m))
  /\ enableAuth (config (this m'))
     = Js.nullish (upd_enableAuth u) (enableAuth (config (this m)))
  /\ maxRetries (config (this m'))
     = Js.nullish (upd_maxRetries u) (maxRetries (config (this m)))
  /\ retryDelay (config (this m'))
     = Js.nullish (upd_retryDelay u) (retryDelay (config (this m)))
  /\ onRequest (config (this m'))
     = Js.nullish (upd_onRequest u) (onRequest (config (this m)))
  /\ onResponse (config (this m'))
     = Js.nullish (upd_onResponse u) (onResponse (config (this m)))
  /\ onRequestError (config (this m'))
     = Js.nullish (upd_onRequestError u) (onRequestError (config (this m)))
  /\ getSession (config (this m'))
     = Js.nullish (upd_getSession u) (getSession (config (this m)))
  /\ signOut (config (this m'))
     = Js.nullish (upd_signOut u) (signOut (config (this m))).
Proof.
  unfold updateConfig, set_service_url, set_defaults, set_config, bind, get_this,
    ret, throw.
  cbn.
  destruct (upd_baseUrl u) as [b|]; [destruct (Js.truthy b)|];
    destruct (upd_timeout u) as [tm|]; try destruct (tm =? 0)%Z;
    destruct (upd_headers u) as [h|]; cbn;
    split_matches; cbn; repeat split.
Qed.

End UpdateConfig.

Section DirectTally.
Import Core.

(** Without interceptors a request is at most one call of the transport
    and no call of the sign-out handler or of [onRequestError]. *)
Lemma request_direct_tally (rc : RequestConfig) (m : Machine) :
  interceptors (axiosInstance (this m)) = false ->
  exists nt, nt <= 1 /\ delta m (request rc m).2 nt 0 0.
Proof.
  intros Hint. unfold request, request_on.
  change (Core.executeRequest_on Core.axios) with Core.executeRequest.
  destruct (getServiceConfig_outcome (Js.nullish (service rc) "private")
              (Js.nullish (rc_config rc) empty_config) m)
    as [(c' & m1 & Hg & H1) | (e & Hg)].
  - erewrite bind_ok by exact Hg.
    destruct (executeRequest_eq (method rc)
                (UrlBuilder.buildUrl (endpoint rc) (searchParams rc))
                (rc_data rc) c' m1) as (first & Hfirst & ->).
    rewrite data_of_machine.
    rewrite axios_request_direct, dispatchRequest_eq
      by (destruct H1 as (_ & -> & _); assumption).
    exists 1. split; [lia|]. cbn [snd]. delta_tac.
  - erewrite bind_throw by exact Hg. exists 0. split; [lia|apply delta_refl].
Qed.

End DirectTally.

(** X19. [updateConfig] registers no interceptor: on an instance without
    interceptors (one constructed with [enableAuth: false]), whatever is
    updated afterwards, [enableAuth: true] included, a request is still at
    most one call of the transport, with no retry, no sign-out and no
    [onRequestError]. *)
Theorem X19_updateConfig_installs_nothing (u : Runtime.ApiConfigUpdate)
    (rc : RequestConfig) (m : Machine) :
  interceptors (axiosInstance (this m)) = false ->
  let m' := (Runtime.updateConfig u m).2 in
  interceptors (axiosInstance (this m')) = false
  /\ calls is_transport (trace (Core.request rc m').2)
     <= calls is_transport (trace m') + 1
  /\ calls is_signOut (trace (Core.request rc m').2) = calls is_signOut (trace m')
  /\ calls is_onRequestError (trace (Core.request rc m').2)
     = calls is_onRequestError (trace m').
Proof.
  intros Hint m'.
  destruct (updateConfig_frame u m) as (_ & _ & _ & Hi & _).
  fold m' in Hi. rewrite Hint in Hi. split; [exact Hi|].
  destruct (request_direct_tally rc m' Hi) as (nt & Hnt & Hd).
  destruct Hd as (_ & _ & Ht & Hs & He). repeat split; lia.
Qed.

Lemma X19_updateConfig_installs_nothing_witness :
  exists api m',
    Core.new_Api (Scenario.always 500) Scenario.noAuthConfig = inr api
    /\ Runtime.updateConfig
         {| Runtime.upd_baseUrl := None; Runtime.upd_timeout := None;
            Runtime.upd_headers := None; Runtime.upd_enableAuth := Some true;
            Runtime.upd_maxRetries := Some 5; Runtime.upd_retryDelay := None;
            Runtime.upd_services := None; Runtime.upd_getSession := None;
            Runtime.upd_signOut := None; Runtime.upd_onRequestError := None;
            Runtime.upd_debug := None; Runtime.upd_onRequest := None;
            Runtime.upd_onResponse := None |} (Core.start api) = (Ok tt, m')
    /\ enableAuth (config (this m')) = true
    /\ calls is_transport (trace (Core.get "/always-fails" None None None m').2) <= 1.
Proof.
  eexists. eexists. split; [reflexivity|]. split; [reflexivity|].
  split; [reflexivity|].
  match goal with |- context [Core.start ?a] =>
    exact (proj1 (proj2 (X19_updateConfig_installs_nothing
             {| Runtime.upd_baseUrl := None; Runtime.upd_timeout := None;
                Runtime.upd_headers := None; Runtime.upd_enableAuth := Some true;
                Runtime.upd_maxRetries := Some 5; Runtime.upd_retryDelay := None;
                Runtime.upd_services := None; Runtime.upd_getSession := None;
                Runtime.upd_signOut := None; Runtime.upd_onRequestError := None;
                Runtime.upd_debug := None; Runtime.upd_onRequest := None;
                Runtime.upd_onResponse := None |}
             {| endpoint := "/always-fails"; method := GET; rc_data := None;
                searchParams := None; service := None; rc_config := None |}
             (Core.start a) eq_refl)))
  end.
Defined.

(** X20. A new [maxRetries] given to [updateConfig] is the retry budget of
    the requests made afterwards: on a pipeline with its interceptors,
    after an update to [k], a request that the transport answers with 5xx
    at every attempt calls the transport [k + 1] times and ends with the
    normalized error of the last answer (or with what [onRequestError]
    throws); and it ends so with any number of rounds above [k] given to
    the instance. *)
Theorem X20_updateConfig_maxRetries (u : Runtime.ApiConfigUpdate) (k : nat)
    (rc : RequestConfig) (sc : ServiceConfig) (m m' : Machine) :
  interceptors (axiosInstance (this m)) = true ->
  Runtime.updateConfig u m = (Ok tt, m') ->
  Runtime.upd_maxRetries u = Some k ->
  hook_returns (onRequest (config (this m'))) ->
  Js.get (Js.nullish (service rc) "private") (services (config (this m'))) = Some sc ->
  (forall n, answers_5xx (adapter (axiosInstance (this m))) n) ->
  maxRetries (config (this m')) = k
  /\ calls is_transport (trace (Core.request rc m').2)
     = calls is_transport (trace m') + (k + 1)
  /\ (exists e s,
        (Core.request rc m').1 = observed (onRequestError (config (this m')) e) e
        /\ normalized e /\ err_status e = Some s /\ (500 <= s)%Z)
  /\ (forall fuel, k < fuel ->
        Core.request_within fuel rc m' = Core.request rc m').
Proof.
  intros Hint Hupd Hk Hhook Hsvc H5.
  destruct (updateConfig_frame u m) as (_ & _ & Had & Hi & _ & Hmax & _).
  rewrite Hupd in Had, Hi, Hmax. cbn [snd] in Had, Hi, Hmax.
  rewrite Hk in Hmax. cbn in Hmax. split; [exact Hmax|].
  rewrite Hint in Hi. rewrite <- Had in H5.
  destruct (request_reaches_axios rc sc m' Hsvc) as (first & m1 & H1 & Hf & Hreq).
  rewrite Hreq.
  destruct (retry_until_exhausted (this m') Hi Hhook
              (maxRetries (config (this m')))
              (S (maxRetries (config (this m')))) first m1)
    as (e & s & Hn & Hs & H500 & Hd & Hr).
  { eapply delta_state_of; [split; reflexivity|exact H1]. }
  { exact H5. }
  { rewrite Hf. lia. }
  { lia. }
  rewrite data_of_machine.
  split; [|split].
  - destruct H1 as (_ & _ & H1 & _). destruct Hd as (_ & _ & -> & _).
    rewrite H1, Hmax. lia.
  - exists e, s. split; [|auto]. now apply data_of_observed.
  - intros fuel Hfuel. rewrite <- Hreq.
    apply request_any_fuel; [now apply hook_returns_opaque|lia].
Qed.

Lemma X20_updateConfig_maxRetries_witness :
  exists api m',
    Core.new_Api (Scenario.always 500) Scenario.baseConfig = inr api
    /\ Runtime.updateConfig
         {| Runtime.upd_baseUrl := None; Runtime.upd_timeout := None;
            Runtime.upd_headers := None; Runtime.upd_enableAuth := None;
            Runtime.upd_maxRetries := Some 5; Runtime.upd_retryDelay := None;
            Runtime.upd_services := None; Runtime.upd_getSession := None;
            Runtime.upd_signOut := None; Runtime.upd_onRequestError := None;
            Runtime.upd_debug := None; Runtime.upd_onRequest := None;
            Runtime.upd_onResponse := None |} (Core.start api) = (Ok tt, m')
    /\ calls is_transport (trace (Core.get "/always-fails" None None None m').2) = 6.
Proof.
  eexists. eexists. split; [reflexivity|]. split; [reflexivity|].
  match goal with |- context [Core.start ?a] =>
    refine (proj1 (proj2 (X20_updateConfig_maxRetries
             {| Runtime.upd_baseUrl := None; Runtime.upd_timeout := None;
                Runtime.upd_headers := None; Runtime.upd_enableAuth := None;
                Runtime.upd_maxRetries := Some 5; Runtime.upd_retryDelay := None;
                Runtime.upd_services := None; Runtime.upd_getSession := None;
                Runtime.upd_signOut := None; Runtime.upd_onRequestError := None;
                Runtime.upd_debug := None; Runtime.upd_onRequest := None;
                Runtime.upd_onResponse := None |} 5
             {| endpoint := "/always-fails"; method := GET; rc_data := None;
                searchParams := None; service := None; rc_config := None |}
             {| url := "https://api.example.com"; svc_enableAuth := Some true |}
             (Core.start a) _ eq_refl eq_refl eq_refl _ eq_refl _)))
  end.
  - intros c. eexists. reflexivity.
  - intros n c. eexists. split; [reflexivity|]. cbn. lia.
Defined.

(** X21. A non-empty [baseUrl] given to [updateConfig] (with no new
    [services]) becomes the endpoint of [public] and of [private], which
    keep their [enableAuth], and the default [baseURL] of the axios
    instance.  An empty [baseUrl] changes no service and no default. *)
Theorem X21_updateConfig_baseUrl (u : Runtime.ApiConfigUpdate) (b : string)
    (p q : ServiceConfig) (m : Machine) :
  Runtime.upd_baseUrl u = Some b ->
  Runtime.upd_services u = None ->
  Js.get "private" (services (config (this m))) = Some p ->
  Js.get "public" (services (config (this m))) = Some q ->
  let m' := (Runtime.updateConfig u m).2 in
  (Runtime.updateConfig u m).1 = Ok tt
  /\ baseUrl (config (this m')) = b
  /\ (b <> "" ->
      Js.get "private" (services (config (this m')))
        = Some {| url := b; svc_enableAuth := svc_enableAuth p |}
      /\ Js.get "public" (services (config (this m')))
         = Some {| url := b; svc_enableAuth := svc_enableAuth q |}
      /\ defaults_baseURL (axiosInstance (this m')) = b)
  /\ (b = "" ->
      services (config (this m')) = services (config (this m))
      /\ defaults_baseURL (axiosInstance (this m'))
         = defaults_baseURL (axiosInstance (this m))).
Proof.
  intros Hb Hs Hp Hq m'. subst m'.
  unfold Runtime.updateConfig, Runtime.set_service_url, Runtime.set_defaults,
    Runtime.set_config, Runtime.merge_config, bind, get_this, ret, throw.
  rewrite Hb, Hs. cbn.
  destruct (Js.truthy b) eqn:Htb.
  - cbn. rewrite Hp. cbn. rewrite get_set_other, Hq by discriminate. cbn.
    destruct (Runtime.upd_timeout u) as [tm|]; try destruct (tm =? 0)%Z;
      destruct (Runtime.upd_headers u) as [h|]; cbn;
      (split; [reflexivity|]); (split; [reflexivity|]);
      (split; [|intros ->; discriminate]); intros _;
      (split; [rewrite get_set_other by discriminate; apply get_set_same|]);
      (split; [apply get_set_same|reflexivity]).
  - assert (b = "") as -> by (destruct b; [reflexivity|discriminate]).
    destruct (Runtime.upd_timeout u) as [tm|]; try destruct (tm =? 0)%Z;
      destruct (Runtime.upd_headers u) as [h|]; cbn;
      (split; [reflexivity|]); (split; [reflexivity|]);
      (split; [intros H; congruence|]); intros _; split; reflexivity.
Qed.

Lemma X21_updateConfig_baseUrl_witness :
  exists api,
    Core.new_Api (Scenario.always 200) Scenario.sharedUrlConfig = inr api
    /\ Js.get "private"
         (services (config (this
            (Runtime.updateConfig
               {| Runtime.upd_baseUrl := Some "https://new.example.com";
                  Runtime.upd_timeout := None;
                  Runtime.upd_headers := None; Runtime.upd_enableAuth := None;
                  Runtime.upd_maxRetries := None; Runtime.upd_retryDelay := None;
                  Runtime.upd_services := None; Runtime.upd_getSession := None;
                  Runtime.upd_signOut := None; Runtime.upd_onRequestError := None;
                  Runtime.upd_debug := None; Runtime.upd_onRequest := None;
                  Runtime.upd_onResponse := None |} (Core.start api)).2)))
       = Some {| url := "https://new.example.com"; svc_enableAuth := Some true |}.
Proof.
  eexists. split; [reflexivity|].
  match goal with |- context [Runtime.updateConfig ?u (Core.start ?a)] =>
    destruct (X21_updateConfig_baseUrl u "https://new.example.com"
                {| url := "https://private.api.com"; svc_enableAuth := Some true |}
                {| url := "https://public.api.com"; svc_enableAuth := Some false |}
                (Core.start a) eq_refl eq_refl eq_refl eq_refl)
      as (_ & _ & H & _)
  end.
  destruct H as (H & _); [discriminate|]. exact H.
Defined.

(** X22. A request hook given to [updateConfig] is the hook of the
    requests made afterwards: the interceptor reads it from the current
    configuration.  So on a pipeline with its interceptors, after an update
    to a hook that throws a value without [config] (an [Error], say), a
    request throws what the hook throws and the transport is not
    called. *)
Theorem X22_updateConfig_onRequest (u : Runtime.ApiConfigUpdate)
    (f : RequestInterceptor) (t : Thrown)
    (rc : RequestConfig) (sc : ServiceConfig) (m m' : Machine) :
  interceptors (axiosInstance (this m)) = true ->
  Runtime.updateConfig u m = (Ok tt, m') ->
  Runtime.upd_onRequest u = Some f ->
  (forall c, f c = RejectedWith t) ->
  Axios.error_config t = None ->
  Js.get (Js.nullish (service rc) "private") (services (config (this m'))) = Some sc ->
  onRequest (config (this m')) = f
  /\ (Core.request rc m').1 = Throw t
  /\ calls is_transport (trace (Core.request rc m').2) = calls is_transport (trace m').
Proof.
  intros Hint Hupd Hf Hrej Hnone Hsvc.
  destruct (updateConfig_frame u m) as (_ & _ & _ & Hi & _ & _ & _ & Hreq & _).
  rewrite Hupd in Hi, Hreq. cbn [snd] in Hi, Hreq.
  rewrite Hf in Hreq. cbn in Hreq. rewrite Hint in Hi.
  split; [exact Hreq|].
  destruct (hook_failure rc m' sc t Hi Hsvc) as (Hres & Ht & _).
  - intros c. rewrite Hreq. apply Hrej.
  - exact Hnone.
  - auto.
Qed.

Lemma X22_updateConfig_onRequest_witness :
  exists api m',
    Core.new_Api (Scenario.always 200) Scenario.baseConfig = inr api
    /\ Runtime.updateConfig
         {| Runtime.upd_baseUrl := None; Runtime.upd_timeout := None;
            Runtime.upd_headers := None; Runtime.upd_enableAuth := None;
            Runtime.upd_maxRetries := None; Runtime.upd_retryDelay := None;
            Runtime.upd_services := None; Runtime.upd_getSession := None;
            Runtime.upd_signOut := None; Runtime.upd_onRequestError := None;
            Runtime.upd_debug := None;
            Runtime.upd_onRequest :=
              Some (fun _ => RejectedWith (ThrownError "blocked"));
            Runtime.upd_onResponse := None |} (Core.start api) = (Ok tt, m')
    /\ (Core.get "/users" None None None m').1 = Throw (ThrownError "blocked").
Proof.
  eexists. eexists. split; [reflexivity|]. split; [reflexivity|].
  match goal with |- context [Core.start ?a] =>
    refine (proj1 (proj2 (X22_updateConfig_onRequest
             {| Runtime.upd_baseUrl := None; Runtime.upd_timeout := None;
                Runtime.upd_headers := None; Runtime.upd_enableAuth := None;
                Runtime.upd_maxRetries := None; Runtime.upd_retryDelay := None;
                Runtime.upd_services := None; Runtime.upd_getSession := None;
                Runtime.upd_signOut := None; Runtime.upd_onRequestError := None;
                Runtime.upd_debug := None;
                Runtime.upd_onRequest :=
              Some (fun _ => RejectedWith (ThrownError "blocked"));
                Runtime.upd_onResponse := None |}
             (fun _ => RejectedWith (ThrownError "blocked")) (ThrownError "blocked")
             {| endpoint := "/users"; method := GET; rc_data := None;
                searchParams := None; service := None; rc_config := None |}
             {| url := "https://api.example.com"; svc_enableAuth := Some true |}
             (Core.start a) _ eq_refl eq_refl eq_refl (fun _ => eq_refl)
             eq_refl eq_refl)))
  end.
Defined.

(** ** The pauses between the attempts *)

Section Pauses.
Import Core.

Lemma beat_app (a b : list Event) : beat (a ++ b) = beat a ++ beat b.
Proof.
  induction a as [|e a IH]; [reflexivity|].
  destruct e; cbn [app beat]; now rewrite ?IH.
Qed.

Lemma retried_snoc (n : nat) (d : Z) :
  retried n d ++ [Paused d; Sent] = retried (S n) d.
Proof.
  induction n as [|n IH]; [reflexivity|].
  cbn [retried app]. now rewrite IH.
Qed.

(** [getCurrentToken] adds to the trace neither a call of the transport
    nor a pause. *)
Lemma getCurrentToken_hushed (m : Machine) :
  exists token m' pre,
    getCurrentToken m = (Ok token, m')
    /\ delta m m' 0 0 0
    /\ trace m' = pre ++ trace m
    /\ beat pre = [].
Proof.
  destruct (enableAuth (config (this m))) eqn:H.
  - destruct (has_token (currentToken (this m))) eqn:Ht.
    + rewrite getCurrentToken_cached by assumption.
      exists (currentToken (this m)), m, []. eauto using delta_refl.
    + rewrite getCurrentToken_fetch by assumption.
      destruct (getSession _ _) as [session|];
        [destruct (session_token session)|];
        do 2 eexists; exists [CallGetSession];
        (split; [reflexivity|]); (split; [|split; reflexivity]);
        unfold delta; cbn; repeat split; lia.
  - rewrite getCurrentToken_disabled by assumption.
    exists None, m, []. eauto using delta_refl.
Qed.

(** Nor does the request interceptor. *)
Lemma request_interceptor_hushed (c : RetryableAxiosRequestConfig) (m : Machine) :
  exists pre,
    trace (request_interceptor c m).2 = pre ++ trace m /\ beat pre = [].
Proof.
  unfold request_interceptor. rewrite try_rethrow.
  destruct (onRequest (config (this m)) (axios_config c)) as [modified|reason] eqn:E.
  - erewrite bind_ok by (rewrite call_onRequest_eq, E; reflexivity).
    unfold getServiceByUrl.
    erewrite bind_ok by (unfold bind, get_this, ret; reflexivity).
    destruct (getServiceByUrl_in _ _) as [sc|];
      [|exists [CallOnRequest (axios_config c)]; split; reflexivity].
    destruct (flag (svc_enableAuth sc));
      [|exists [CallOnRequest (axios_config c)]; split; reflexivity].
    destruct (getCurrentToken_hushed (after (CallOnRequest (axios_config c)) m))
      as (token & m2 & pre & Ht & _ & H2 & Hb).
    erewrite bind_ok by exact Ht.
    exists (pre ++ [CallOnRequest (axios_config c)]).
    split; [|now rewrite beat_app, Hb].
    rewrite <- app_assoc.
    destruct token as [tk|]; [destruct (Js.truthy tk)|]; exact H2.
  - erewrite bind_throw by (rewrite call_onRequest_eq, E; reflexivity).
    exists [CallOnRequest (axios_config c)]. split; reflexivity.
Qed.

(** The beat of one call of the axios instance, whatever the collaborators
    do, as long as what the request hook throws carries no [config]:
    attempts that each ended in a pause of [retryDelay], at most
    [maxRetries - retries] of them, and then at most one more call of the
    transport.  So a pause comes only directly after a call of the
    transport, and two pauses have one call of the transport between
    them. *)
Lemma axios_request_beat (fuel : nat) :
  forall (c : RetryableAxiosRequestConfig) (m : Machine),
  hook_opaque (onRequest (config (this m))) ->
  exists new np (last : bool),
    trace (axios_request fuel c m).2 = new ++ trace m
    /\ beat new
       = (if last then [Sent] else []) ++ retried np (retryDelay (config (this m)))
    /\ np <= maxRetries (config (this m)) - retries c.
Proof.
  induction fuel as [|fuel IH]; intros c m Hopaque.
  { exists [], 0, false. cbn. repeat split; lia. }
  destruct (interceptors (axiosInstance (this m))) eqn:Hint.
  2:{ rewrite axios_request_direct, dispatchRequest_eq by assumption.
      eexists [_], 0, true. cbn. repeat split; lia. }
  rewrite axios_request_round by assumption.
  set (mc := Axios.mergeConfig (axiosInstance (this m)) c).
  pose proof (request_interceptor_spec mc m) as Hri.
  destruct (request_interceptor_hushed mc m) as (pre & Hpre & Hb).
  destruct (onRequest _ _) as [modified|reason] eqn:E.
  2:{ rewrite Hri, response_rejected_eq, (Hopaque _ _ E). cbn [fst snd].
      eexists [_; _], 0, false. cbn. repeat split; lia. }
  destruct Hri as (ic & m1 & Hri & H1 & Hrc). rewrite Hri in Hpre |- *.
  cbn [snd] in Hpre.
  assert (Hic : retries ic = retries c).
  { unfold retries. now rewrite Hrc. }
  assert (Hcfg : config (this m1) = config (this m)) by apply H1.
  assert (Hone : forall l : list Event,
            beat l = [] ->
            exists new np (last : bool),
              l ++ CallTransport ic :: trace m1 = new ++ trace m
              /\ beat new
                 = (if last then [Sent] else [])
                     ++ retried np (retryDelay (config (this m)))
              /\ np <= maxRetries (config (this m)) - retries c).
  { intros l Hl. exists (l ++ CallTransport ic :: pre), 0, true.
    rewrite Hpre, <- app_assoc, beat_app, Hl. cbn [app beat retried].
    rewrite Hb. repeat split; lia. }
  destruct (Axios.settled ic _) as [r|e] eqn:Hs.
  { rewrite response_fulfilled_eq. apply (Hone [_]). reflexivity. }
  rewrite response_rejected_eq. cbn [Axios.error_config Axios.error_response].
  destruct (settled_error _ _ _ Hs) as [Hc | [Hc Hr]]; rewrite Hc.
  2:{ apply (Hone [_]). reflexivity. }
  destruct (is_401 (ae_response e)).
  { destruct (signOut _ _); [apply (Hone [_; _])|apply (Hone [_])]; reflexivity. }
  destruct (is_5xx (ae_response e) && _) eqn:Hretry.
  - apply andb_prop in Hretry as [_ Hlt]. apply Nat.ltb_lt in Hlt.
    cbn [this after config] in Hlt. rewrite Hcfg, Hic in Hlt.
    set (m2 := after (Sleep _) _).
    assert (Hcfg2 : config (this m2) = config (this m)) by exact Hcfg.
    destruct (IH (bump ic) m2) as (new2 & np & last & Htr & Hbeat & Hnp);
      [now rewrite Hcfg2|].
    rewrite Hcfg2, retries_bump, Hic in Hnp. rewrite Hcfg2 in Hbeat.
    exists (new2 ++ Sleep (retryDelay (config (this m))) :: CallTransport ic :: pre),
      (S np), last.
    split; [|split; [|lia]].
    + rewrite Htr. subst m2. unfold after. cbn [trace this config].
      now rewrite Hcfg, Hpre, <- app_assoc.
    + rewrite beat_app, Hbeat. cbn [beat]. rewrite Hb, <- app_assoc.
      now rewrite retried_snoc.
  - destruct (onRequestError _ _); [apply (Hone [_; _])|apply (Hone [_])];
      reflexivity.
Qed.

Lemma getServiceConfig_hushed (service_name : string) (c : AxiosRequestConfig)
    (m : Machine) :
  exists pre,
    trace (getServiceConfig service_name c m).2 = pre ++ trace m /\ beat pre = [].
Proof.
  unfold getServiceConfig.
  erewrite bind_ok by (unfold get_this; reflexivity).
  destruct (Js.get _ _) as [sc|];
    [|destruct (Js.on_prototype _); exists []; split; reflexivity].
  destruct (flag (svc_enableAuth sc) && enableAuth (config (this m))).
  - destruct (getCurrentToken_hushed m) as (token & m' & pre & Ht & _ & Hq & Hb).
    unfold bind. rewrite Ht. exists pre.
    destruct token as [tk|]; [destruct (Js.truthy tk)|]; split; assumption.
  - exists []. split; reflexivity.
Qed.

End Pauses.

(** X23. The attempts and the pauses of a request, whatever the
    collaborators do.  What a request adds to the trace is, in the order of
    time: calls of the transport that are each followed at once by a pause
    of [retryDelay] (the delay does not grow from one attempt to the
    next), at most [maxRetries] of them, and then at most one more call of
    the transport.  So no pause comes before the first call of the
    transport, every pause follows a call of the transport, and two pauses
    have exactly one call of the transport between them.  (The request
    hook may throw, but not a value that carries a [config].) *)
Theorem X23_pauses_are_retryDelay (rc : RequestConfig) (m : Machine) :
  hook_opaque (onRequest (config (this m))) ->
  exists new np (last : bool),
    trace (Core.request rc m).2 = new ++ trace m
    /\ beat new
       = (if last then [Sent] else []) ++ retried np (retryDelay (config (this m)))
    /\ np <= maxRetries (config (this m)).
Proof.
  intros Hopaque. unfold Core.request, Core.request_on, bind.
  destruct (getServiceConfig_hushed (Js.nullish (service rc) "private")
              (Js.nullish (rc_config rc) Core.empty_config) m) as (pre & Hpre & Hb).
  pose proof (getServiceConfig_config (Js.nullish (service rc) "private")
                (Js.nullish (rc_config rc) Core.empty_config) m) as Hc.
  destruct (Core.getServiceConfig _ _ m) as [[c'|e|] m1]; cbn [fst snd] in *;
    try (exists pre, 0, false; rewrite Hb; repeat split; [assumption|lia]).
  destruct (executeRequest_on_eq (method rc)
              (UrlBuilder.buildUrl (endpoint rc) (searchParams rc))
              (rc_data rc) c') as (first & Hfirst & He).
  rewrite He, data_of_machine. unfold Core.axios, bind, get_this. cbn [fst snd].
  destruct (axios_request_beat (S (maxRetries (config (this m1)))) first m1)
    as (new & np & last & Htr & Hbeat & Hnp); [now rewrite Hc|].
  rewrite Hc in Hbeat, Hnp.
  exists (new ++ pre), np, last.
  split; [|split; [|lia]].
  - now rewrite Htr, Hpre, <- app_assoc.
  - now rewrite beat_app, Hbeat, Hb, app_nil_r.
Qed.

Lemma X23_pauses_are_retryDelay_witness :
  exists api,
    Core.new_Api (Scenario.always 500) Scenario.baseConfig = inr api
    /\ exists new np (last : bool),
         trace (Core.get "/always-fails" None None None (Core.start api)).2
         = new ++ []
         /\ beat new
            = (if last then [Sent] else []) ++ retried np (retryDelay (config api))
         /\ np <= maxRetries (config api).
Proof.
  eexists. split; [reflexivity|].
  match goal with |- context [Core.start ?a] =>
    refine (X23_pauses_are_retryDelay
              {| endpoint := "/always-fails"; method := GET; rc_data := None;
                 searchParams := None; service := None; rc_config := None |}
              (Core.start a) _)
  end.
  intros c t E. discriminate E.
Defined.

(** ** The cached token during a request *)

Section CachedToken.
Import Core.

Lemma getCurrentToken_with_cache (m : Machine) :
  has_token (currentToken (this m)) = true ->
  exists token, getCurrentToken m = (Ok token, m).
Proof.
  intros Ht. destruct (enableAuth (config (this m))) eqn:H.
  - rewrite getCurrentToken_cached by assumption. eauto.
  - rewrite getCurrentToken_disabled by assumption. eauto.
Qed.

Lemma request_interceptor_with_cache (c : RetryableAxiosRequestConfig)
    (m : Machine) :
  has_token (currentToken (this m)) = true ->
  same_session m (request_interceptor c m).2.
Proof.
  intros Hc. unfold request_interceptor. rewrite try_rethrow.
  destruct (onRequest (config (this m)) (axios_config c)) as [modified|reason] eqn:E.
  - erewrite bind_ok by (rewrite call_onRequest_eq, E; reflexivity).
    unfold getServiceByUrl.
    erewrite bind_ok by (unfold bind, get_this, ret; reflexivity).
    destruct (getServiceByUrl_in _ _) as [sc|]; [|split; reflexivity].
    destruct (flag (svc_enableAuth sc)); [|split; reflexivity].
    destruct (getCurrentToken_with_cache (after (CallOnRequest (axios_config c)) m))
      as (token & Ht); [exact Hc|].
    erewrite bind_ok by exact Ht.
    destruct token as [tk|]; [destruct (Js.truthy tk)|]; split; reflexivity.
  - erewrite bind_throw by (rewrite call_onRequest_eq, E; reflexivity).
    split; reflexivity.
Qed.

Lemma axios_request_with_cache (fuel : nat) :
  forall (c : RetryableAxiosRequestConfig) (m : Machine),
  has_token (currentToken (this m)) = true ->
  same_session m (axios_request fuel c m).2.
Proof.
  induction fuel as [|fuel IH]; intros c m Hc.
  { split; reflexivity. }
  destruct (interceptors (axiosInstance (this m))) eqn:Hint.
  2:{ rewrite axios_request_direct, dispatchRequest_eq by assumption.
      split; reflexivity. }
  rewrite axios_request_round by assumption.
  pose proof (request_interceptor_with_cache
                (Axios.mergeConfig (axiosInstance (this m)) c) m Hc) as H1.
  destruct (request_interceptor _ m) as [[ic|e|] m1]; cbn [snd] in H1;
    try (rewrite response_rejected_eq;
         destruct (Axios.error_config e) as [oc|]; [|session_tac];
         destruct (is_401 _); [destruct (signOut _ _); session_tac|];
         destruct (is_5xx _ && _);
         [|destruct (onRequestError _ _); session_tac]).
  - destruct (Axios.settled ic _) as [r|e].
    { rewrite response_fulfilled_eq. session_tac. }
    rewrite response_rejected_eq.
    destruct (Axios.error_config _) as [oc|]; [|session_tac].
    destruct (is_401 _); [destruct (signOut _ _); session_tac|].
    destruct (is_5xx _ && _); [|destruct (onRequestError _ _); session_tac].
    match goal with |- same_session _ (axios_request fuel ?c2 ?m2).2 =>
      destruct (IH c2 m2) as [Ha Hb]
    end.
    { destruct H1 as [H1 _]. cbn. now rewrite H1. }
    destruct H1 as [H1a H1b].
    split; [rewrite Ha|rewrite Hb]; unfold after;
      cbn [this trace currentToken calls is_getSession];
      [exact H1a|rewrite H1b; lia].
  - match goal with |- same_session _ (axios_request fuel ?c2 ?m2).2 =>
      destruct (IH c2 m2) as [Ha Hb]
    end.
    { destruct H1 as [H1 _]. cbn. now rewrite H1. }
    destruct H1 as [H1a H1b].
    split; [rewrite Ha|rewrite Hb]; unfold after;
      cbn [this trace currentToken calls is_getSession];
      [exact H1a|rewrite H1b; lia].
  - split; apply H1.
Qed.

(** With a token in the cache, a request leaves the cache as it is and
    does not ask the session provider. *)
Lemma request_with_cache (rc : RequestConfig) (m : Machine) :
  has_token (currentToken (this m)) = true ->
  currentToken (this (request rc m).2) = currentToken (this m)
  /\ calls is_getSession (trace (request rc m).2) = calls is_getSession (trace m).
Proof.
  intros Hc. unfold request, request_on, bind, getServiceConfig, bind, get_this.
  change (Core.executeRequest_on Core.axios) with Core.executeRequest.
  assert (Hexec : forall c',
            same_session m
              (executeRequest (method rc)
                 (UrlBuilder.buildUrl (endpoint rc) (searchParams rc))
                 (rc_data rc) c' m).2).
  { intros c'.
    destruct (executeRequest_eq (method rc)
                (UrlBuilder.buildUrl (endpoint rc) (searchParams rc))
                (rc_data rc) c' m) as (first & _ & ->).
    rewrite data_of_machine. now apply axios_request_with_cache. }
  destruct (Js.get _ _) as [sc|];
    [|destruct (Js.on_prototype _); [apply Hexec|split; reflexivity]].
  destruct (flag (svc_enableAuth sc) && enableAuth (config (this m))).
  - destruct (getCurrentToken_with_cache m Hc) as (token & ->).
    destruct token as [tk|]; [destruct (Js.truthy tk)|]; apply Hexec.
  - apply Hexec.
Qed.

(** No request changes the configuration. *)
Lemma request_interceptor_config (c : RetryableAxiosRequestConfig) (m : Machine) :
  config (this (request_interceptor c m).2) = config (this m).
Proof.
  unfold request_interceptor. rewrite try_rethrow.
  destruct (onRequest (config (this m)) (axios_config c)) as [modified|reason] eqn:E.
  - erewrite bind_ok by (rewrite call_onRequest_eq, E; reflexivity).
    unfold getServiceByUrl.
    erewrite bind_ok by (unfold bind, get_this, ret; reflexivity).
    destruct (getServiceByUrl_in _ _) as [sc|]; [|reflexivity].
    destruct (flag (svc_enableAuth sc)); [|reflexivity].
    destruct (getCurrentToken_delta (after (CallOnRequest (axios_config c)) m))
      as (token & m2 & Ht & Hd).
    erewrite bind_ok by exact Ht.
    destruct token as [tk|]; [destruct (Js.truthy tk)|]; apply Hd.
  - erewrite bind_throw by (rewrite call_onRequest_eq, E; reflexivity).
    reflexivity.
Qed.

Lemma axios_request_config (fuel : nat) :
  forall (c : RetryableAxiosRequestConfig) (m : Machine),
  config (this (axios_request fuel c m).2) = config (this m).
Proof.
  induction fuel as [|fuel IH]; intros c m; [reflexivity|].
  destruct (interceptors (axiosInstance (this m))) eqn:Hint.
  2:{ now rewrite axios_request_direct, dispatchRequest_eq by assumption. }
  rewrite axios_request_round by assumption.
  pose proof (request_interceptor_config
                (Axios.mergeConfig (axiosInstance (this m)) c) m) as H1.
  assert (Hrej : forall e m1,
            config (this m1) = config (this m) ->
            config (this (response_rejected (axios_request fuel) e m1).2)
            = config (this m)).
  { intros e m1 Hm1. rewrite response_rejected_eq.
    destruct (Axios.error_config e) as [oc|]; [|exact Hm1].
    destruct (is_401 _); [destruct (signOut _ _); exact Hm1|].
    destruct (is_5xx _ && _); [|destruct (onRequestError _ _); exact Hm1].
    rewrite IH. exact Hm1. }
  destruct (request_interceptor _ m) as [[ic|e|] m1]; cbn [snd] in H1;
    [|now apply Hrej|exact H1].
  destruct (Axios.settled ic _) as [r|e];
    [rewrite response_fulfilled_eq; exact H1|now apply Hrej].
Qed.

Lemma request_config (rc : RequestConfig) (m : Machine) :
  config (this (request rc m).2) = config (this m).
Proof.
  unfold request, request_on, bind.
  pose proof (getServiceConfig_config (Js.nullish (service rc) "private")
                (Js.nullish (rc_config rc) empty_config) m) as Hc.
  destruct (getServiceConfig _ _ m) as [[c'|e|] m1]; cbn [snd] in *;
    try exact Hc.
  destruct (executeRequest_on_eq (method rc)
              (UrlBuilder.buildUrl (endpoint rc) (searchParams rc))
              (rc_data rc) c') as (first & _ & He).
  rewrite He, data_of_machine. unfold axios, bind, get_this. cbn [fst snd].
  now rewrite axios_request_config.
Qed.

End CachedToken.

(** X24. A cached token survives every request.  With a token in the
    cache, a request, however it ends and whatever the collaborators do,
    leaves the cache as it is and does not ask the session provider; so
    when the request is answered with 401 and the user is signed out, the
    token is still cached, and the next [getCurrentToken] returns it. *)
Theorem X24_cached_token_survives_requests (rc : RequestConfig) (m : Machine) :
  Core.has_token (currentToken (this m)) = true ->
  currentToken (this (Core.request rc m).2) = currentToken (this m)
  /\ calls is_getSession (trace (Core.request rc m).2)
     = calls is_getSession (trace m)
  /\ (enableAuth (config (this m)) = true ->
      (Core.getCurrentToken (Core.request rc m).2).1
      = Ok (currentToken (this m))).
Proof.
  intros Hc.
  destruct (request_with_cache rc m Hc) as [Ht Hs].
  split; [exact Ht|]. split; [exact Hs|].
  intros Ha.
  pose proof (request_config rc m) as Hcfg.
  rewrite getCurrentToken_cached; rewrite ?Ht, ?Hcfg; auto.
Qed.

Lemma X24_cached_token_survives_requests_witness :
  exists api,
    Core.new_Api (Scenario.always 401) Scenario.baseConfig = inr api
    /\ let m := (Core.setToken "manual-token" (Core.start api)).2 in
       (Core.get "/unauthorized" None None None m).1
       = Throw (ThrownApiError Core.unauthorized)
       /\ calls is_signOut (trace (Core.get "/unauthorized" None None None m).2) = 1
       /\ currentToken (this (Core.get "/unauthorized" None None None m).2)
          = Some "manual-token".
Proof.
  eexists. split; [reflexivity|].
  split; [reflexivity|]. split; [reflexivity|].
  match goal with |- context [Core.setToken ?t (Core.start ?a)] =>
    exact (proj1 (X24_cached_token_survives_requests
             {| endpoint := "/unauthorized"; method := GET; rc_data := None;
                searchParams := None; service := None; rc_config := None |}
             (Core.setToken t (Core.start a)).2 eq_refl))
  end.
Defined.

(** X26. [updateConfig] with a non-empty [baseUrl] needs the services
    [private] and [public]: when the services in force after the merge
    (those of the update if it has any, else the current ones) have no
    [private] entry, it throws a [TypeError], and the update is applied in
    part: the configuration is already replaced and the default [baseURL]
    of the axios instance already set, while the default timeout and
    headers of the instance are not updated. *)
Theorem X26_updateConfig_baseUrl_needs_private (u : Runtime.ApiConfigUpdate)
    (b : string) (m : Machine) :
  Runtime.upd_baseUrl u = Some b ->
  b <> "" ->
  Js.get "private" (Js.nullish (Runtime.upd_services u) (services (config (this m))))
    = None ->
  let r := Runtime.updateConfig u m in
  r.1 = Throw (ThrownError Runtime.type_error)
  /\ config (this r.2) = Runtime.merge_config (config (this m)) u
  /\ defaults_baseURL (axiosInstance (this r.2)) = b
  /\ defaults_timeout (axiosInstance (this r.2))
     = defaults_timeout (axiosInstance (this m))
  /\ defaults_headers (axiosInstance (this r.2))
     = defaults_headers (axiosInstance (this m)).
Proof.
  intros Hb Hne Hp r. subst r.
  unfold Runtime.updateConfig, Runtime.set_service_url, Runtime.set_defaults,
    Runtime.set_config, bind, get_this, ret, throw.
  rewrite Hb. cbn. rewrite (proj2 (truthy_nonempty b) Hne). cbn.
  rewrite Hp. cbn. repeat split.
Qed.

Lemma X26_updateConfig_baseUrl_needs_private_witness :
  exists api,
    Core.new_Api (Scenario.always 200) Scenario.baseConfig = inr api
    /\ (Runtime.updateConfig
          {| Runtime.upd_baseUrl := Some "https://new.example.com";
             Runtime.upd_timeout := Some 5000%Z;
             Runtime.upd_headers := None; Runtime.upd_enableAuth := None;
             Runtime.upd_maxRetries := None; Runtime.upd_retryDelay := None;
             Runtime.upd_services :=
               Some [("billing",
                      {| url := "https://billing.example.com";
                         svc_enableAuth := Some true |})];
             Runtime.upd_getSession := None;
             Runtime.upd_signOut := None; Runtime.upd_onRequestError := None;
             Runtime.upd_debug := None; Runtime.upd_onRequest := None;
             Runtime.upd_onResponse := None |} (Core.start api)).1
       = Throw (ThrownError Runtime.type_error).
Proof.
  eexists. split; [reflexivity|].
  match goal with |- (Runtime.updateConfig ?u ?m).1 = _ =>
    refine (proj1 (X26_updateConfig_baseUrl_needs_private u
                     "https://new.example.com" m eq_refl _ eq_refl))
  end.
  discriminate.
Defined.
